(** * ecsstatic: the vite plugin ([src/package/vite.ts])

    A shallow embedding of the build-time transform that replaces
    [css`...`] / [scss`...`] tagged templates by generated class names and
    registers the compiled stylesheets under virtual paths.

    Conventions of the embedding.
    - A JavaScript string is a Rocq [string]; on ASCII text every character
      stands for one code unit, so lengths and slice indices agree with
      JavaScript there.  A character outside ASCII is held as its UTF-8
      bytes; of these the embedding knows the white space that [trim]
      removes, and nothing else: [toLowerCase] leaves them as they are and
      positions count bytes.  The one non-ASCII constant of the source,
      the placeholder name, is only compared and concatenated, never
      indexed.
    - A [Map<string, string>] is an association list in insertion order.
    - A function that may throw returns an [Outcome].
    - Collaborators that are not part of [vite.ts] (the hash module, postcss,
      esbuild, the evaluator, node's [path]) are the fields of [External]. *)

From Stdlib Require Import String Ascii List Arith NArith ZArith Bool Lia.
Import ListNotations.
Open Scope list_scope.
Open Scope string_scope.

(** ** Characters and string constants that cannot be typed in a literal *)

Definition LF : string := String "010"%char EmptyString.
Definition CR : string := String "013"%char EmptyString.
Definition TAB : string := String "009"%char EmptyString.
Definition DQUOTE : string := String "034"%char EmptyString.
Definition BACKTICK : string := String "096"%char EmptyString.

(** ** String primitives of JavaScript used by the plugin *)

Module JS.

(** White space and line terminators of ECMAScript, which
    [String.prototype.trim] removes.  The ASCII ones are TAB, LF, VT, FF,
    CR and space. *)
Definition isWhiteSpace (c : ascii) : bool :=
  let n := nat_of_ascii c in
  ((9 <=? n)%nat && (n <=? 13)%nat) || (n =? 32)%nat.

(** U+00A0 (no-break space), in UTF-8 the two bytes C2 A0. *)
Definition isWhiteSpace2 (c1 c2 : ascii) : bool :=
  (nat_of_ascii c1 =? 194)%nat && (nat_of_ascii c2 =? 160)%nat.

(** The white space of three bytes: U+1680 (E1 9A 80), U+2000 to U+200A
    (E2 80 80 to E2 80 8A), the line and paragraph separators U+2028 and
    U+2029 (E2 80 A8, E2 80 A9), U+202F (E2 80 AF), U+205F (E2 81 9F),
    U+3000 (E3 80 80) and the byte order mark U+FEFF (EF BB BF). *)
Definition isWhiteSpace3 (c1 c2 c3 : ascii) : bool :=
  let n1 := nat_of_ascii c1 in
  let n2 := nat_of_ascii c2 in
  let n3 := nat_of_ascii c3 in
  ((n1 =? 225)%nat && (n2 =? 154)%nat && (n3 =? 128)%nat)
  || ((n1 =? 226)%nat && (n2 =? 128)%nat
      && (((128 <=? n3)%nat && (n3 <=? 138)%nat)
          || (n3 =? 168)%nat || (n3 =? 169)%nat || (n3 =? 175)%nat))
  || ((n1 =? 226)%nat && (n2 =? 129)%nat && (n3 =? 159)%nat)
  || ((n1 =? 227)%nat && (n2 =? 128)%nat && (n3 =? 128)%nat)
  || ((n1 =? 239)%nat && (n2 =? 187)%nat && (n3 =? 191)%nat).

(** The text is one white space character and nothing else. *)
Definition isBlank (s : string) : bool :=
  match s with
  | String c1 EmptyString => isWhiteSpace c1
  | String c1 (String c2 EmptyString) => isWhiteSpace2 c1 c2
  | String c1 (String c2 (String c3 EmptyString)) => isWhiteSpace3 c1 c2 c3
  | _ => false
  end.

Fixpoint trimStart (s : string) : string :=
  match s with
  | EmptyString => EmptyString
  | String c1 r1 =>
      if isWhiteSpace c1 then trimStart r1
      else
        match r1 with
        | String c2 r2 =>
            if isWhiteSpace2 c1 c2 then trimStart r2
            else
              match r2 with
              | String c3 r3 => if isWhiteSpace3 c1 c2 c3 then trimStart r3 else s
              | EmptyString => s
              end
        | EmptyString => s
        end
  end.

(** The text without the white space at its end: when what is left of
    the tail, with the character before it, is one white space character,
    that character goes too. *)
Fixpoint trimEnd (s : string) : string :=
  match s with
  | EmptyString => EmptyString
  | String c r =>
      let kept := String c (trimEnd r) in
      if isBlank kept then EmptyString else kept
  end.

(** [s.trim()] *)
Definition trim (s : string) : string := trimEnd (trimStart s).

(** An index argument of [slice], resolved against the length as
    ECMAScript does: a negative index counts from the end, and the result is
    clamped to [0 .. len]. *)
Definition relIndex (len i : Z) : Z :=
  if (i <? 0)%Z then Z.max (len + i) 0 else Z.min i len.

(** [s.slice(from, to)] *)
Definition slice (s : string) (from to : Z) : string :=
  let len := Z.of_nat (String.length s) in
  let a := relIndex len from in
  let b := relIndex len to in
  substring (Z.to_nat a) (Z.to_nat (Z.max (b - a) 0)) s.

(** [s.slice(from)] *)
Definition sliceFrom (s : string) (from : Z) : string :=
  slice s from (Z.of_nat (String.length s)).

(** [s.startsWith(p)] *)
Definition startsWith (s p : string) : bool := prefix p s.

(** [s.endsWith(p)] *)
Definition endsWith (s p : string) : bool :=
  let ls := String.length s in
  let lp := String.length p in
  (lp <=? ls)%nat && (substring (ls - lp) lp s =? p).

(** [s.includes(p)], also [/p/.test(s)] for a pattern [p] without
    metacharacters. *)
Fixpoint includes (s p : string) : bool :=
  prefix p s ||
  match s with
  | EmptyString => false
  | String _ r => includes r p
  end.

Definition lowerChar (c : ascii) : ascii :=
  let n := nat_of_ascii c in
  if (65 <=? n)%nat && (n <=? 90)%nat then ascii_of_nat (n + 32) else c.

(** [s.toLowerCase()] on text whose capital letters are ASCII: a byte
    outside [A] to [Z] is kept. *)
Fixpoint toLowerCase (s : string) : string :=
  match s with
  | EmptyString => EmptyString
  | String c r => String (lowerChar c) (toLowerCase r)
  end.

(** [s.replace(/\\/g, '/')] *)
Fixpoint replaceBackslashes (s : string) : string :=
  match s with
  | EmptyString => EmptyString
  | String c r =>
      String (if Ascii.eqb c "092"%char then "/"%char else c) (replaceBackslashes r)
  end.

(** [s.split(/\r\n|\r|\n/g)]: the list is never empty, and a terminator at
    the end of the text gives a last empty line. *)
Fixpoint splitLines (s : string) : list string :=
  match s with
  | EmptyString => [EmptyString]
  | String c r =>
      if Ascii.eqb c "013"%char then
        match r with
        | String c' r' =>
            if Ascii.eqb c' "010"%char then EmptyString :: splitLines r'
            else EmptyString :: splitLines r
        | EmptyString => EmptyString :: splitLines r
        end
      else if Ascii.eqb c "010"%char then EmptyString :: splitLines r
      else
        match splitLines r with
        | l :: ls => String c l :: ls
        | [] => [String c EmptyString]
        end
  end.

(** [l.join(sep)] *)
Fixpoint join (sep : string) (l : list string) : string :=
  match l with
  | [] => EmptyString
  | [x] => x
  | x :: r => x ++ sep ++ join sep r
  end.

(** [s.split(sep)[0]] for a one-character separator: the text before its
    first occurrence. *)
Fixpoint beforeFirst (sep : ascii) (s : string) : string :=
  match s with
  | EmptyString => EmptyString
  | String c r => if Ascii.eqb c sep then EmptyString else String c (beforeFirst sep r)
  end.

(** Removes the trailing run of character [x]. *)
Fixpoint dropTrailing (x : ascii) (s : string) : string :=
  match s with
  | EmptyString => EmptyString
  | String c r =>
      match dropTrailing x r with
      | EmptyString => if Ascii.eqb c x then EmptyString else String c EmptyString
      | r' => String c r'
      end
  end.

End JS.

(** ** Thrown values and results *)

(** What a [throw] carries: a [TypeError] of the engine, or the [Error] of a
    collaborator.  Messages are worded as V8 words them. *)
Inductive Error :=
| TypeError (message : string)
| OtherError (message : string).

Definition message (e : Error) : string :=
  match e with TypeError m => m | OtherError m => m end.

(** The result of a call that may throw. *)
Inductive Outcome (A : Type) :=
| Ok (a : A)
| Throw (e : Error).
Arguments Ok {A} a.
Arguments Throw {A} e.

(** The values an evaluation can hand back (primitives only). *)
Inductive JsValue :=
| VString (s : string)
| VNumber (n : Z)
| VBoolean (b : bool)
| VUndefined
| VNull.

Definition isString (v : JsValue) : bool :=
  match v with VString _ => true | _ => false end.

(** ** [Map<string, string>] *)

Module JsMap.

Definition t := list (string * string).

Definition empty : t := [].

(** [m.set(k, v)]: a key already present keeps its place. *)
Fixpoint set (k v : string) (m : t) : t :=
  match m with
  | [] => [(k, v)]
  | (k', v') :: r => if k' =? k then (k, v) :: r else (k', v') :: set k v r
  end.

(** [m.get(k)] *)
Fixpoint get (k : string) (m : t) : option string :=
  match m with
  | [] => None
  | (k', v') :: r => if k' =? k then Some v' else get k r
  end.

(** [m.has(k)] *)
Definition has (k : string) (m : t) : bool :=
  match get k m with Some _ => true | None => false end.

(** [Object.entries(Object.fromEntries(m))]: the entries in insertion order
    (the keys are identifier names, never array indices). *)
Definition entries (m : t) : list (string * string) := m.

Definition keys (m : t) : list string := map fst m.

End JsMap.

(** ** The magic-string library, for the three operations the plugin calls

    The text is kept as one cell per original character.  [update] puts the
    replacement in the first cell of the range and empties the others.  The
    library refuses to cut through a chunk it has already replaced by a
    non-empty text: those ranges are remembered in [locked]. *)

Module MagicString.

Record t := mk {
  original : string;
  cells : list string;
  locked : list (nat * nat);
  outro : string
}.

Fixpoint cellsOf (s : string) : list string :=
  match s with
  | EmptyString => []
  | String c r => String c EmptyString :: cellsOf r
  end.

(** [new MagicString(code)] *)
Definition new (code : string) : t :=
  mk code (cellsOf code) [] EmptyString.

(** [m.append(content)] *)
Definition append (content : string) (m : t) : t :=
  mk (original m) (cells m) (locked m) (outro m ++ content).

(** Cells [start .. end_ - 1] rewritten: [content] first, then empty. *)
Fixpoint overwrite (start end_ : nat) (content : string) (pos : nat)
    (cs : list string) : list string :=
  match cs with
  | [] => []
  | c :: r =>
      (if (pos =? start)%nat then content
       else if (start <? pos)%nat && (pos <? end_)%nat then EmptyString
       else c) :: overwrite start end_ content (S pos) r
  end.

Definition strictlyInside (p : nat) (r : nat * nat) : bool :=
  (fst r <? p)%nat && (p <? snd r)%nat.

Definition covers (start end_ : nat) (r : nat * nat) : bool :=
  (start <=? fst r)%nat && (snd r <=? end_)%nat.

(** [m.update(start, end, content)] *)
Definition update (start end_ : nat) (content : string) (m : t) : Outcome t :=
  if (String.length (original m) <? end_)%nat then
    Throw (OtherError "end is out of bounds")
  else if (end_ <=? start)%nat then
    Throw (OtherError "Cannot overwrite a zero-length range")
  else if existsb (fun r => strictlyInside start r || strictlyInside end_ r) (locked m) then
    Throw (OtherError "Cannot split a chunk that has already been edited")
  else
    Ok (mk (original m)
           (overwrite start end_ content 0 (cells m))
           ((if content =? EmptyString then [] else [(start, end_)])
              ++ filter (fun r => negb (covers start end_ r)) (locked m))%list
           (outro m)).

(** [m.toString()] *)
Definition toString (m : t) : string :=
  fold_right String.append EmptyString (cells m) ++ outro m.

End MagicString.

(** ** The part of the ESTree syntax tree the plugin inspects *)

Module Estree.

#[local] Set Warnings "-register-all".

Inductive Specifier :=
| ImportSpecifier (imported local : string)
| ImportDefaultSpecifier (local : string)
| ImportNamespaceSpecifier (local : string).

(** [OtherNode] is any node kind the plugin does not look at, with its
    children in the order the walker visits them.  A tagged template holds
    its [quasi] (a template literal) inline. *)
Inductive Node :=
| Identifier (start end_ : nat) (name : string)
| TemplateLiteral (start end_ : nat) (expressions : list Node)
| TaggedTemplateExpression (start end_ : nat) (tag : Node)
    (quasi_start quasi_end : nat) (quasi_expressions : list Node)
| VariableDeclarator (start end_ : nat) (id : Node) (init : option Node)
| Property (start end_ : nat) (computed : bool) (key value : Node)
| ImportDeclaration (start end_ : nat) (source : string) (specifiers : list Specifier)
| OtherNode (start end_ : nat) (children : list Node).

Record Program := { body : list Node }.

Definition nodeStart (n : Node) : nat :=
  match n with
  | Identifier s _ _ | TemplateLiteral s _ _ | TaggedTemplateExpression s _ _ _ _ _
  | VariableDeclarator s _ _ _ | Property s _ _ _ _ | ImportDeclaration s _ _ _
  | OtherNode s _ _ => s
  end.

Definition nodeEnd (n : Node) : nat :=
  match n with
  | Identifier _ e _ | TemplateLiteral _ e _ | TaggedTemplateExpression _ e _ _ _ _
  | VariableDeclarator _ e _ _ | Property _ e _ _ _ | ImportDeclaration _ e _ _
  | OtherNode _ e _ => e
  end.

(** [n.type === 'Identifier' ? n.name : undefined] *)
Definition identifierName (n : Node) : option string :=
  match n with Identifier _ _ name => Some name | _ => None end.

(** A located site: the tagged template with the name found for it. *)
Record TaggedTemplateWithName := {
  tt_start : nat;
  tt_end : nat;
  tt_tag : Node;
  tt_quasi_start : nat;
  tt_quasi_end : nat;
  tt_quasi_expressions : list Node;
  _originalName : option string
}.

End Estree.

Import Estree.

(** ** Collaborators outside [vite.ts] *)

Record External := {
  (** [./hash.js]: the content hash, a function of its argument alone. *)
  hash : string -> string;
  (** [postcss(plugins).process(input, options).css], for the plain dialect
      ([false]: the nesting plugin) or SCSS ([true]: the SCSS parser). *)
  postcssProcess : bool -> string -> Outcome string;
  (** [esbuild.transformSync(program, {format: 'cjs', ...}).code] *)
  esbuildTransformSync : string -> Outcome string;
  (** [nodeEval(code, filename, scope, true)] *)
  nodeEval : string -> string -> JsMap.t -> Outcome JsValue;
  (** [(await esbuild.build({entryPoints: [fileId], ...})).outputFiles[0].text],
      given the file and the packages kept internal. *)
  esbuildBuild : string -> list string -> Outcome string;
  (** [path.join(a, b)] and [path.dirname(p)] *)
  pathJoin : string -> string -> string;
  pathDirname : string -> string
}.

(** ** Options *)

(** The plugin's [Options]: every field may be left out. *)
Record Options := {
  evaluateExpressions : option bool;
  resolveImports : option bool;
  resolvePackages : option (list string)
}.

Definition noOptions : Options := Build_Options None None None.

(** The three constants destructured from [options] in [ecsstatic]. *)
Record Settings := {
  s_evaluateExpressions : bool;
  s_resolvePackages : list string;
  s_resolveImports : bool
}.

Definition settings (options : Options) : Settings :=
  let ev := match evaluateExpressions options with Some b => b | None => true end in
  let pk := match resolvePackages options with Some l => l | None => [] end in
  let ri := match resolveImports options with
            | Some b => b
            | None => ev && negb (List.length pk =? 0)%nat
            end in
  Build_Settings ev pk ri.

(** [const useWhere = true] *)
Definition useWhere : bool := true.

(** The placeholder used when a site has no declared name. *)
Definition balloon : string := "🎈".

(** [normalizePath] *)
Definition normalizePath (original : string) : string :=
  JS.toLowerCase (JS.replaceBackslashes original).

(** ** [processCss] *)

Definition isImportOrUse (line : string) : bool :=
  JS.startsWith (JS.trim line) "@import" || JS.startsWith (JS.trim line) "@use".

Definition importsAndUses (templateContents : string) : string :=
  JS.trim (JS.join LF (filter isImportOrUse (JS.splitLines templateContents))).

Definition codeWithoutImportsAndUses (templateContents : string) : string :=
  JS.join LF (filter (fun line => negb (isImportOrUse line)) (JS.splitLines templateContents)).

(** The error of calling [.split] on a value that is not a string. *)
Definition splitTypeError (v : JsValue) : Error :=
  match v with
  | VUndefined => TypeError "Cannot read properties of undefined (reading 'split')"
  | VNull => TypeError "Cannot read properties of null (reading 'split')"
  | _ => TypeError "templateContents.split is not a function"
  end.

Section Compiler.

Variable X : External.

(** [`${originalName}-${hash(templateContents)}`] *)
Definition className (templateContents originalName : string) : string :=
  originalName ++ "-" ++ hash X templateContents.

(** The text handed to postcss. *)
Definition unprocessedCss (templateContents originalName : string) : string :=
  importsAndUses templateContents ++ LF ++ "." ++ className templateContents originalName
    ++ "{" ++ codeWithoutImportsAndUses templateContents ++ "}".

(** [processCss]: the pair [[css, className]].  The parameter is typed
    [string] in the source but holds whatever the evaluation returned; on
    anything else than a string the first [.split] throws. *)
Definition processCss (templateContents : JsValue) (originalName : string)
    (isScss : bool) : Outcome (string * string) :=
  match templateContents with
  | VString body =>
      match postcssProcess X isScss (unprocessedCss body originalName) with
      | Ok css => Ok (css, className body originalName)
      | Throw e => Throw e
      end
  | v => Throw (splitTypeError v)
  end.

(** ** [evalWithEsbuild] and [processTemplateLiteral] *)

Definition varDecl (entry : string * string) : string :=
  "var " ++ fst entry ++ " = '" ++ snd entry ++ "';".

Definition generatedClassesDecls (generatedClasses : JsMap.t) : string :=
  JS.join LF (map varDecl (JsMap.entries generatedClasses)).

(** The program given to esbuild; the two line breaks and the two tabs
    between its parts are those of the template literal in the source. *)
Definition syntheticProgram (expression allVarDeclarations : string)
    (generatedClasses : JsMap.t) : string :=
  allVarDeclarations ++ LF ++ LF ++ TAB ++ TAB
    ++ generatedClassesDecls generatedClasses ++ LF ++ LF ++ TAB ++ TAB
    ++ "module.exports = (" ++ expression ++ ");".

Definition evalWithEsbuild (expression allVarDeclarations : string)
    (generatedClasses : JsMap.t) : Outcome JsValue :=
  match esbuildTransformSync X (syntheticProgram expression allVarDeclarations generatedClasses) with
  | Ok code => nodeEval X code (hash X expression) generatedClasses
  | Throw e => Throw e
  end.

(** [processTemplateLiteral]: the [catch] logs and throws the same error
    again; the result is cast, not checked. *)
Definition processTemplateLiteral (rawTemplate inlinedVars : string)
    (generatedClasses : JsMap.t) : Outcome JsValue :=
  match evalWithEsbuild rawTemplate inlinedVars generatedClasses with
  | Ok processedTemplate => Ok processedTemplate
  | Throw err => Throw err
  end.

(** [inlineImportsUsingEsbuild] *)
Definition inlineImportsUsingEsbuild (fileId : string) (noExternal : list string)
    : Outcome string :=
  esbuildBuild X fileId noExternal.

End Compiler.

(** ** [findEcsstaticImports] *)

Record EcsstaticImports := {
  cssImportName : option string;
  scssImportName : option string;
  statements : list (nat * nat)
}.

Definition isCssOrScss (name : string) : bool :=
  (name =? "css") || (name =? "scss").

(** [specifiers.some(({ imported }) => ['css', 'scss'].includes(imported.name))]:
    a default or namespace specifier has no [imported], and reading its
    [name] throws; [some] stops at the first specifier that answers [true]. *)
Fixpoint someCssOrScss (specifiers : list Specifier) : Outcome bool :=
  match specifiers with
  | [] => Ok false
  | ImportSpecifier imported _ :: r =>
      if isCssOrScss imported then Ok true else someCssOrScss r
  | _ :: _ => Throw (TypeError "Cannot read properties of undefined (reading 'name')")
  end.

(** The body of [node.specifiers.forEach(...)], on the pair of names. *)
Definition bindSpecifier (names : option string * option string) (specifier : Specifier)
    : option string * option string :=
  match specifier with
  | ImportSpecifier imported local =>
      (if imported =? "css" then Some local else fst names,
       if imported =? "scss" then Some local else snd names)
  | _ => names
  end.

(** The [for] loop over the import declarations of the program. *)
Fixpoint importsLoop (nodes : list Node) (found : EcsstaticImports)
    : Outcome EcsstaticImports :=
  match nodes with
  | [] => Ok found
  | ImportDeclaration start end_ source specifiers :: r =>
      if source =? "@acab/ecsstatic" then
        match someCssOrScss specifiers with
        | Throw e => Throw e
        | Ok b =>
            let names :=
              fold_left bindSpecifier specifiers (cssImportName found, scssImportName found) in
            importsLoop r
              (Build_EcsstaticImports (fst names) (snd names)
                 (if b then (statements found ++ [(start, end_)])%list else statements found))
        end
      else importsLoop r found
  | _ :: r => importsLoop r found
  end.

Definition findEcsstaticImports (ast : Program) : Outcome EcsstaticImports :=
  importsLoop (body ast) (Build_EcsstaticImports None None []).

(** ** [findCssTaggedTemplateLiterals] *)

(** [tagNames.includes(name)] *)
Definition includesName (tagNames : list string) (name : string) : bool :=
  existsb (String.eqb name) tagNames.

(** The name read off [prevNode], the node above a tagged template that
    starts at [start] and ends at [end_]. *)
Definition nameFromParent (prevNode : option Node) (start end_ : nat) : option string :=
  match prevNode with
  | Some (VariableDeclarator _ _ id (Some init)) =>
      match id with
      | Identifier _ _ name =>
          if (nodeStart init =? start)%nat && (nodeEnd init =? end_)%nat
          then Some name else None
      | _ => None
      end
  | Some (Property _ _ _ key value) =>
      if (nodeStart value =? start)%nat && (nodeEnd value =? end_)%nat then
        identifierName key
      else None
  | _ => None
  end.

(** The visitor for [TaggedTemplateExpression]. *)
Definition visitTaggedTemplate (tagNames : list string) (prevNode : option Node)
    (node : Node) : list TaggedTemplateWithName :=
  match node with
  | TaggedTemplateExpression start end_ tag qs qe exprs =>
      match tag with
      | Identifier _ _ name =>
          if includesName tagNames name then
            [Build_TaggedTemplateWithName start end_ tag qs qe exprs
               (nameFromParent prevNode start end_)]
          else []
      | _ => []
      end
  | _ => []
  end.

(** acorn-walk's [ancestor]: the children of a node are walked first, in
    the order of the base walker, and the visitor runs on the node after
    them, with the node above it as [prevNode]. *)
Fixpoint walk (tagNames : list string) (prevNode : option Node) (node : Node)
    {struct node} : list TaggedTemplateWithName :=
  match node with
  | Identifier _ _ _ => []
  | TemplateLiteral _ _ exprs => flat_map (walk tagNames (Some node)) exprs
  | TaggedTemplateExpression _ _ tag qs qe exprs =>
      (walk tagNames (Some node) tag
         ++ flat_map (walk tagNames (Some (TemplateLiteral qs qe exprs))) exprs
         ++ visitTaggedTemplate tagNames prevNode node)%list
  | VariableDeclarator _ _ id init =>
      (walk tagNames (Some node) id
         ++ match init with Some i => walk tagNames (Some node) i | None => [] end)%list
  | Property _ _ computed key value =>
      ((if computed then walk tagNames (Some node) key else [])
         ++ walk tagNames (Some node) value)%list
  | ImportDeclaration _ _ _ _ => []
  | OtherNode _ _ children => flat_map (walk tagNames (Some node)) children
  end.

(** The statements of the program have the program itself above them,
    which is neither a declarator nor a property. *)
Definition findCssTaggedTemplateLiterals (ast : Program) (tagNames : list string)
    : list TaggedTemplateWithName :=
  flat_map (walk tagNames None) (body ast).

(** ** The plugin: [transform], [resolveId], [load] *)

(** What the loop of [transform] reads and writes: its three locals and the
    plugin's stylesheet registry. *)
Record LoopState := {
  inlinedVars : string;
  generatedClasses : JsMap.t;
  magicCode : MagicString.t;
  cssList : JsMap.t
}.

(** A computation on the loop state that may throw; the state reached when
    it throws is kept, as the registry outlives the call. *)
Definition M (A : Type) : Type := LoopState -> Outcome A * LoopState.

Definition ret {A} (a : A) : M A := fun st => (Ok a, st).

Definition bind {A B} (m : M A) (k : A -> M B) : M B :=
  fun st =>
    match m st with
    | (Ok a, st') => k a st'
    | (Throw e, st') => (Throw e, st')
    end.

Definition lift {A} (o : Outcome A) : M A := fun st => (o, st).

Definition modify (f : LoopState -> LoopState) : M unit := fun st => (Ok tt, f st).

Declare Scope loop_scope.
Delimit Scope loop_scope with loop.
Notation "x <- m ;; k" := (bind m (fun x => k))
  (at level 61, m at next level, right associativity) : loop_scope.
Notation "m ;;; k" := (bind m (fun _ => k))
  (at level 61, right associativity) : loop_scope.

Definition setInlinedVars (v : string) (st : LoopState) : LoopState :=
  Build_LoopState v (generatedClasses st) (magicCode st) (cssList st).

Definition setGeneratedClasses (g : JsMap.t) (st : LoopState) : LoopState :=
  Build_LoopState (inlinedVars st) g (magicCode st) (cssList st).

Definition setMagicCode (m : MagicString.t) (st : LoopState) : LoopState :=
  Build_LoopState (inlinedVars st) (generatedClasses st) m (cssList st).

Definition setCssList (c : JsMap.t) (st : LoopState) : LoopState :=
  Build_LoopState (inlinedVars st) (generatedClasses st) (magicCode st) c.

(** [magicCode.update(start, end, content)] on the state. *)
Definition updateMagic (start end_ : nat) (content : string) : M unit :=
  fun st =>
    match MagicString.update start end_ content (magicCode st) with
    | Ok m => (Ok tt, setMagicCode m st)
    | Throw e => (Throw e, st)
    end.

(** What a transform hands back: nothing (the host keeps the file as it is)
    or the rewritten code. *)
Inductive TransformResult :=
| Untouched
| Rewritten (code : string).

(** The answer of [resolveId]. *)
Inductive ResolveResult :=
| ResolveUndefined
| ResolveNull
| ResolvedId (id : string).

Section Plugin.

Variable X : External.
Variable options : Options.

(** [node._originalName || '🎈'] *)
Definition originalNameOf (node : TaggedTemplateWithName) : string :=
  match _originalName node with
  | Some name => if name =? EmptyString then balloon else name
  | None => balloon
  end.

(** [tag.type === 'Identifier' && tag.name === scssImportName] *)
Definition isScssTag (scssName : option string) (node : TaggedTemplateWithName) : bool :=
  match identifierName (tt_tag node), scssName with
  | Some name, Some scss => name =? scss
  | _, _ => false
  end.

Definition hasExpressions (node : TaggedTemplateWithName) : bool :=
  negb (List.length (tt_quasi_expressions node) =? 0)%nat.

(** [code.slice(quasi.start, quasi.end).trim()] *)
Definition rawTemplateOf (code : string) (node : TaggedTemplateWithName) : string :=
  JS.trim (JS.slice code (Z.of_nat (tt_quasi_start node)) (Z.of_nat (tt_quasi_end node))).

(** [rawTemplate.slice(1, rawTemplate.length - 2)] *)
Definition literalContents (rawTemplate : string) : string :=
  JS.slice rawTemplate 1 (Z.of_nat (String.length rawTemplate) - 2).

(** The lazy population of [inlinedVars]. *)
Definition populateInlinedVars (id : string) (node : TaggedTemplateWithName) : M unit :=
  fun st =>
    if hasExpressions node && s_resolveImports (settings options)
       && (inlinedVars st =? EmptyString) then
      match inlineImportsUsingEsbuild X id (s_resolvePackages (settings options)) with
      | Ok text => (Ok tt, setInlinedVars text st)
      | Throw e => (Throw e, st)
      end
    else (Ok tt, st).

(** [templateContents]: evaluated, or the literal text. *)
Definition templateContentsOf (code : string) (node : TaggedTemplateWithName)
    : M JsValue :=
  fun st =>
    if s_evaluateExpressions (settings options) && hasExpressions node then
      (processTemplateLiteral X (rawTemplateOf code node) (inlinedVars st)
         (generatedClasses st), st)
    else (Ok (VString (literalContents (rawTemplateOf code node))), st).

(** The selector kept for a named site. *)
Definition selectorReference (className : string) : string :=
  if useWhere then ":where(." ++ className ++ ")" else "." ++ className.

Definition cssFilenameOf (className : string) (isScss : bool) : string :=
  JS.toLowerCase (className ++ ".acab." ++ (if isScss then "scss" else "css")).

(** The first half of one turn of the [for] loop (up to the call of
    [processCss]): the pair [[css, className]] of the site. *)
Definition compileSite (code id : string) (scssName : option string)
    (node : TaggedTemplateWithName) : M (string * string) :=
  (populateInlinedVars id node ;;;
   templateContents <- templateContentsOf code node ;;
   lift (processCss X templateContents (originalNameOf node) (isScssTag scssName node)))%loop.

(** The second half: the binding of a named site, the import of the
    stylesheet, its registration, and the replacement of the site. *)
Definition registerSite (id : string) (scssName : option string)
    (node : TaggedTemplateWithName) (r : string * string) : M unit :=
  (let originalName := originalNameOf node in
   let isScss := isScssTag scssName node in
   let css := fst r in
   let className := snd r in
   (if originalName =? balloon then ret tt
    else modify (fun st =>
      setGeneratedClasses
        (JsMap.set originalName (selectorReference className) (generatedClasses st)) st)) ;;;
   let cssFilename := cssFilenameOf className isScss in
   modify (fun st =>
     setMagicCode
       (MagicString.append ("import " ++ DQUOTE ++ "./" ++ cssFilename ++ DQUOTE ++ ";" ++ LF)
          (magicCode st)) st) ;;;
   let fullCssPath := normalizePath (pathJoin X (pathDirname X id) cssFilename) in
   modify (fun st => setCssList (JsMap.set fullCssPath css (cssList st)) st) ;;;
   updateMagic (tt_start node) (tt_end node) (DQUOTE ++ className ++ DQUOTE))%loop.

(** One turn of the [for] loop of [transform]. *)
Definition processSite (code id : string) (scssName : option string)
    (node : TaggedTemplateWithName) : M unit :=
  (r <- compileSite code id scssName node ;; registerSite id scssName node r)%loop.

(** The [for ... of cssTemplateLiterals] loop. *)
Fixpoint processSites (code id : string) (scssName : option string)
    (nodes : list TaggedTemplateWithName) : M unit :=
  match nodes with
  | [] => ret tt
  | node :: r =>
      (processSite code id scssName node ;;; processSites code id scssName r)%loop
  end.

(** [ecsstaticImportStatements.forEach(({start, end}) => magicCode.update(start, end, ''))] *)
Fixpoint removeImports (spans : list (nat * nat)) : M unit :=
  match spans with
  | [] => ret tt
  | (start, end_) :: r =>
      (updateMagic start end_ EmptyString ;;; removeImports r)%loop
  end.

(** [[cssImportName, scssImportName].filter(Boolean)] *)
Definition truthyNames (names : list (option string)) : list string :=
  flat_map (fun n => match n with
                     | Some s => if s =? EmptyString then [] else [s]
                     | None => []
                     end) names.

(** [/(c|m)*(j|t)s(x)*$/.test(id)]: after its trailing [x]s the name ends
    in [js] or [ts]. *)
Definition isScriptFile (id : string) : bool :=
  let stem := JS.dropTrailing "x" id in
  JS.endsWith stem "js" || JS.endsWith stem "ts".

Definition initialState (code : string) (registry : JsMap.t) : LoopState :=
  Build_LoopState EmptyString JsMap.empty (MagicString.new code) registry.

(** [transform(code, id)], with [parsedAst] the tree [this.parse(code)]
    gave and [registry] the plugin's [cssList] when the call starts.  The
    result comes with the registry as the call leaves it; the source map is
    left out. *)
Definition transform (registry : JsMap.t) (code id : string) (parsedAst : Program)
    : Outcome TransformResult * JsMap.t :=
  let id := JS.beforeFirst "?" id in
  if JS.includes id "node_modules" then (Ok Untouched, registry)
  else if negb (isScriptFile id) then (Ok Untouched, registry)
  else
    match findEcsstaticImports parsedAst with
    | Throw e => (Throw e, registry)
    | Ok found =>
        match statements found with
        | [] => (Ok Untouched, registry)
        | _ :: _ =>
            let ecsstaticImportNames :=
              truthyNames [cssImportName found; scssImportName found] in
            match findCssTaggedTemplateLiterals parsedAst ecsstaticImportNames with
            | [] => (Ok Untouched, registry)
            | cssTemplateLiterals =>
                match (processSites code id (scssImportName found) cssTemplateLiterals ;;;
                       removeImports (statements found))%loop
                        (initialState code registry) with
                | (Ok _, st) => (Ok (Rewritten (MagicString.toString (magicCode st))), cssList st)
                | (Throw e, st) => (Throw e, cssList st)
                end
            end
        end
    end.

(** [resolveId(id, importer)], with [root] the [root] of the resolved vite
    configuration when [configResolved] has run. *)
Definition resolveId (registry : JsMap.t) (root : option string) (id : string)
    (importer : option string) : Outcome ResolveResult :=
  match importer with
  | None => Ok ResolveUndefined
  | Some importerPath =>
      if importerPath =? EmptyString then Ok ResolveUndefined
      else if JS.endsWith id "css" then
        let id1 :=
          if JS.startsWith id "." then normalizePath (pathJoin X (pathDirname X importerPath) id)
          else id in
        let found (i : string) :=
          if JsMap.has i registry then Ok (ResolvedId i) else Ok ResolveNull in
        if JsMap.has id1 registry then found id1
        else
          match root with
          | None => Throw (TypeError "Cannot read properties of undefined (reading 'root')")
          | Some r =>
              found (normalizePath
                       (pathJoin X r (if JS.startsWith id1 "/" then JS.sliceFrom id1 1 else id1)))
          end
      else Ok ResolveNull
  end.

(** [load(id)] *)
Definition load (registry : JsMap.t) (id : string) : option string :=
  if JsMap.has id registry then JsMap.get id registry else None.

End Plugin.

(** ** Scripts as Node runs them

    [evalWithEsbuild] hands a script to esbuild, and what esbuild returns
    to the evaluator (the package [eval], on the [vm] module of Node).
    Neither is code of the plugin.  To state what an evaluation yields,
    this module gives the meaning of the scripts of one form: statements
    [var name = 'text';], [let name = 'text';] and [const name = 'text';]
    followed by [module.exports = (`...`);], the template holding plain
    characters and [${name}] only.  Names are ASCII names that a script
    can bind; texts hold no quote, backslash or line break.  Of a script
    of another form the module says nothing: its evaluator answers with
    an error of its own. *)

Module Script.

(** A character of a name: a letter, a digit, [_] or [$]. *)
Definition isNameChar (c : ascii) : bool :=
  let n := nat_of_ascii c in
  ((65 <=? n)%nat && (n <=? 90)%nat) || ((97 <=? n)%nat && (n <=? 122)%nat)
  || ((48 <=? n)%nat && (n <=? 57)%nat) || (n =? 95)%nat || (n =? 36)%nat.

Definition isDigit (c : ascii) : bool :=
  let n := nat_of_ascii c in (48 <=? n)%nat && (n <=? 57)%nat.

Fixpoint allChars (f : ascii -> bool) (s : string) : bool :=
  match s with
  | EmptyString => true
  | String c r => f c && allChars f r
  end.

(** Names a statement of a script cannot declare or does not bind as it
    binds any other: the reserved words, the read-only properties of the
    global object, and [__proto__]. *)
Definition reserved : list string :=
  [ "break"; "case"; "catch"; "class"; "const"; "continue"; "debugger"; "default";
    "delete"; "do"; "else"; "enum"; "export"; "extends"; "false"; "finally"; "for";
    "function"; "if"; "import"; "in"; "instanceof"; "new"; "null"; "return"; "super";
    "switch"; "this"; "throw"; "true"; "try"; "typeof"; "var"; "void"; "while"; "with";
    "let"; "static"; "yield"; "await"; "implements"; "interface"; "package"; "private";
    "protected"; "public"; "eval"; "arguments"; "undefined"; "NaN"; "Infinity";
    "__proto__" ].

Definition isIdentifier (name : string) : bool :=
  match name with
  | EmptyString => false
  | String c _ =>
      negb (isDigit c) && allChars isNameChar name
        && negb (existsb (String.eqb name) reserved)
  end.

(** A character that stands for itself between single quotes. *)
Definition isTextChar (c : ascii) : bool :=
  let n := nat_of_ascii c in
  negb ((n =? 39)%nat || (n =? 92)%nat || (n =? 10)%nat || (n =? 13)%nat).

(** A character that stands for itself between backticks. *)
Definition isTemplateChar (c : ascii) : bool :=
  let n := nat_of_ascii c in
  negb ((n =? 96)%nat || (n =? 92)%nat || (n =? 36)%nat || (n =? 13)%nat).

(** A piece of a template literal: a character, or [${name}]. *)
Inductive Part :=
| Chars (c : ascii)
| Hole (name : string).

(** A script: the [var] statements in their order, the [let] and [const]
    statements in their order, and the template of
    [module.exports = (`...`);]. *)
Record t := {
  declarations : list (string * string);
  lexical : list (string * string);
  exported : list Part
}.

(** *** Writing a script *)

Definition statement (d : string * string) : string :=
  "var " ++ fst d ++ " = '" ++ snd d ++ "';".

(** The statements, one on each line. *)
Definition source (decls : list (string * string)) : string :=
  JS.join LF (map statement decls).

Fixpoint template (parts : list Part) : string :=
  match parts with
  | [] => EmptyString
  | Chars c :: r => String c (template r)
  | Hole name :: r => "${" ++ name ++ "}" ++ template r
  end.

Definition expression (parts : list Part) : string :=
  "`" ++ template parts ++ "`".

(** The characters of a text as pieces of a template. *)
Fixpoint chars (s : string) : list Part :=
  match s with
  | EmptyString => []
  | String c r => Chars c :: chars r
  end.

Definition plain (d : string * string) : bool :=
  isIdentifier (fst d) && allChars isTextChar (snd d).

Definition plainPart (p : Part) : bool :=
  match p with
  | Chars c => isTemplateChar c
  | Hole name => isIdentifier name
  end.

(** *** Reading a script *)

(** The text after the prefix [p]. *)
Fixpoint after (p s : string) : option string :=
  match p with
  | EmptyString => Some s
  | String a p' =>
      match s with
      | String b s' => if Ascii.eqb a b then after p' s' else None
      | EmptyString => None
      end
  end.

Fixpoint skipBlanks (s : string) : string :=
  match s with
  | EmptyString => EmptyString
  | String c r => if JS.isWhiteSpace c then skipBlanks r else s
  end.

(** The longest run of name characters, and what follows it. *)
Fixpoint readName (s : string) : string * string :=
  match s with
  | EmptyString => (EmptyString, EmptyString)
  | String c r =>
      if isNameChar c then let (name, rest) := readName r in (String c name, rest)
      else (EmptyString, s)
  end.

(** The text up to the closing quote, and what follows the quote. *)
Fixpoint readText (s : string) : option (string * string) :=
  match s with
  | EmptyString => None
  | String c r =>
      if Ascii.eqb c "'" then Some (EmptyString, r)
      else if isTextChar c then
        match readText r with
        | Some (text, rest) => Some (String c text, rest)
        | None => None
        end
      else None
  end.

(** [name = 'text';]: the name, the text, and what follows. *)
Definition readDeclaration (s : string) : option (string * string * string) :=
  let (name, r1) := readName s in
  if isIdentifier name then
    match after " = '" r1 with
    | Some r2 =>
        match readText r2 with
        | Some (text, r3) =>
            match after ";" r3 with
            | Some r4 => Some (name, text, r4)
            | None => None
            end
        | None => None
        end
    | None => None
    end
  else None.

(** The text after [let ] or [const ]. *)
Definition afterLexical (s : string) : option string :=
  match after "let " s with
  | Some r => Some r
  | None => after "const " s
  end.

(** The pieces up to the closing backtick, and what follows it. *)
Fixpoint readTemplate (s : string) : option (list Part * string) :=
  match s with
  | EmptyString => None
  | String c r =>
      if Ascii.eqb c "`" then Some ([], r)
      else if Ascii.eqb c "$" then
        match r with
        | String c' r' => if Ascii.eqb c' "{" then readHole r' EmptyString else None
        | EmptyString => None
        end
      else if isTemplateChar c then
        match readTemplate r with
        | Some (parts, rest) => Some (Chars c :: parts, rest)
        | None => None
        end
      else None
  end
with readHole (s : string) (name : string) : option (list Part * string) :=
  match s with
  | EmptyString => None
  | String c r =>
      if Ascii.eqb c "}" then
        if isIdentifier name then
          match readTemplate r with
          | Some (parts, rest) => Some (Hole name :: parts, rest)
          | None => None
          end
        else None
      else if isNameChar c then readHole r (name ++ String c EmptyString)
      else None
  end.

(** [module.exports = (`...`);] and nothing but blanks after it. *)
Definition readExport (s : string) : option (list Part) :=
  match after "module.exports = (`" s with
  | Some r =>
      match readTemplate r with
      | Some (parts, r1) =>
          match after ");" r1 with
          | Some r2 => if skipBlanks r2 =? EmptyString then Some parts else None
          | None => None
          end
      | None => None
      end
  | None => None
  end.

(** The script written in [s]; [fuel] bounds the number of statements.
    A [let] or [const] of the name [module] is left out of the form. *)
Fixpoint read (fuel : nat) (s : string) : option t :=
  match fuel with
  | 0 => None
  | S fuel' =>
      let s := skipBlanks s in
      match after "var " s with
      | Some r =>
          match readDeclaration r with
          | Some (name, text, rest) =>
              match read fuel' rest with
              | Some p =>
                  Some {| declarations := (name, text) :: declarations p;
                          lexical := lexical p;
                          exported := exported p |}
              | None => None
              end
          | None => None
          end
      | None =>
          match afterLexical s with
          | Some r =>
              match readDeclaration r with
              | Some (name, text, rest) =>
                  if name =? "module" then None
                  else
                    match read fuel' rest with
                    | Some p =>
                        Some {| declarations := declarations p;
                                lexical := (name, text) :: lexical p;
                                exported := exported p |}
                    | None => None
                    end
              | None => None
              end
          | None =>
              match readExport s with
              | Some parts =>
                  Some {| declarations := []; lexical := []; exported := parts |}
              | None => None
              end
          end
      end
  end.

Definition parse (s : string) : option t := read (S (String.length s)) s.

(** *** Declaring a name twice *)

(** The first of [names] that is among [seen] or among the names before
    it. *)
Fixpoint redeclared (seen names : list string) : option string :=
  match names with
  | [] => None
  | name :: r =>
      if existsb (String.eqb name) seen then Some name else redeclared (name :: seen) r
  end.

(** A name that a [let] or [const] of the script declares and that a
    [var], or a [let] or [const] before it, declares too, if there is
    one.  Such a script is not a script of ECMAScript: a name declared by
    [let] or [const] is declared once.  ([var] statements may repeat a
    name.) *)
Definition clash (p : t) : option string :=
  redeclared (map fst (declarations p)) (map fst (lexical p)).

(** *** Running a script *)

(** The value of the template.  [module] names the module object of the
    host unless a statement has bound it to a text.  A name that no
    statement and no entry of the scope binds is taken not to be a global
    of the host either: reading it throws. *)
Fixpoint value (env : JsMap.t) (rebound : bool) (parts : list Part) : Outcome string :=
  match parts with
  | [] => Ok EmptyString
  | Chars c :: r =>
      match value env rebound r with
      | Ok text => Ok (String c text)
      | Throw e => Throw e
      end
  | Hole name :: r =>
      let read :=
        if (name =? "module") && negb rebound then Some "[object Object]"
        else JsMap.get name env in
      match read with
      | Some v =>
          match value env rebound r with
          | Ok text => Ok (v ++ text)
          | Throw e => Throw e
          end
      | None => Throw (OtherError (name ++ " is not defined"))
      end
  end.

(** A script in which no name is declared twice by [let] or [const].
    The host puts the entries of [scope] among the globals, then its
    module object under [module]; every [var] statement assigns to the
    global of its name, every [let] and [const] binds its name; the
    assignment to [module.exports] reaches the module object unless
    [module] has been bound to a text, on which it is lost; the host
    hands back the [exports] of what [module] names in the end. *)
Definition run (p : t) (scope : JsMap.t) : Outcome JsValue :=
  let env :=
    fold_left (fun e d => JsMap.set (fst d) (snd d) e) (declarations p ++ lexical p) scope in
  let rebound := existsb (String.eqb "module") (map fst (declarations p)) in
  match value env rebound (exported p) with
  | Ok text => if rebound then Ok VUndefined else Ok (VString text)
  | Throw e => Throw e
  end.

(** esbuild on the text of a script: it refuses a script in which a
    [let] or [const] declares a name again (the error carries esbuild's
    message, without the position), and returns any other as it is. *)
Definition transform (program : string) : Outcome string :=
  match parse program with
  | Some p =>
      match clash p with
      | Some name =>
          Throw (OtherError ("The symbol " ++ DQUOTE ++ name ++ DQUOTE
                               ++ " has already been declared"))
      | None => Ok program
      end
  | None => Ok program
  end.

(** The evaluator on the text of a script. *)
Definition eval (code filename : string) (scope : JsMap.t) : Outcome JsValue :=
  match parse code with
  | Some p =>
      match clash p with
      | Some name =>
          Throw (OtherError ("Identifier '" ++ name ++ "' has already been declared"))
      | None => run p scope
      end
  | None => Throw (OtherError "not a script of the modelled form")
  end.

(** The template with every [${name}] replaced by the text [read] gives
    for the name. *)
Fixpoint fill (read : string -> option string) (parts : list Part) : string :=
  match parts with
  | [] => EmptyString
  | Chars c :: r => String c (fill read r)
  | Hole name :: r =>
      match read name with Some v => v | None => EmptyString end ++ fill read r
  end.

(** Every name the template reads is declared by a [var] of the script. *)
Definition Closed (p : t) : Prop :=
  forall name, In (Hole name) (exported p) -> In name (map fst (declarations p)).

(** Every name of the scope is declared by a [var] of the script. *)
Definition Declares (p : t) (scope : JsMap.t) : Prop :=
  forall name, In name (JsMap.keys scope) -> In name (map fst (declarations p)).

(** The evaluation chain of [X] treats the scripts of this form as
    ECMAScript prescribes.  esbuild refuses a script in which a [let] or
    [const] declares a name again, and accepts every other.  Of the
    accepted scripts, those made of [var] statements that declare every
    name they read are evaluated as [run] says, in a scope of names that
    the script declares. *)
Definition Runs (X : External) : Prop :=
  forall program p,
    parse program = Some p ->
    match clash p with
    | Some _ => exists e, esbuildTransformSync X program = Throw e
    | None =>
        exists code,
          esbuildTransformSync X program = Ok code
          /\ (lexical p = [] -> Closed p ->
              forall filename scope,
                Declares p scope -> nodeEval X code filename scope = run p scope)
    end.

End Script.

(** ** Stand-ins for the collaborators, to run the model on examples *)

Module Sample.

Definition isLetter (c : ascii) : bool :=
  let n := nat_of_ascii c in
  ((65 <=? n)%nat && (n <=? 90)%nat) || ((97 <=? n)%nat && (n <=? 122)%nat).

(** A hash for the examples: the letters of the text. *)
Fixpoint letters (s : string) : string :=
  match s with
  | EmptyString => EmptyString
  | String c r => if isLetter c then String c (letters r) else letters r
  end.

(** The text before the last slash. *)
Fixpoint dirname (p : string) : string :=
  match p with
  | EmptyString => EmptyString
  | String c r =>
      if JS.includes r "/" then String c (dirname r) else EmptyString
  end.

(** [a/b], without the [./] a relative [b] starts with. *)
Definition joinPath (a b : string) : string :=
  a ++ "/" ++ (if JS.startsWith b "./" then JS.sliceFrom b 2 else b).

(** An evaluator that answers with the values of its scope, one per line. *)
Definition evalScope (code filename : string) (scope : JsMap.t) : Outcome JsValue :=
  Ok (VString (JS.join LF (map snd scope))).

Definition external (eval : string -> string -> JsMap.t -> Outcome JsValue) : External :=
  {| hash := letters;
     postcssProcess := fun _ css => Ok css;
     esbuildTransformSync := fun program => Ok program;
     nodeEval := eval;
     esbuildBuild := fun _ _ => Ok EmptyString;
     pathJoin := joinPath;
     pathDirname := dirname |}.

Definition X : External := external evalScope.

(** The same collaborators with a hash that keeps its argument as it is. *)
Definition verbatim : External :=
  {| hash := fun text => text;
     postcssProcess := fun _ css => Ok css;
     esbuildTransformSync := fun program => Ok program;
     nodeEval := evalScope;
     esbuildBuild := fun _ _ => Ok EmptyString;
     pathJoin := joinPath;
     pathDirname := dirname |}.

(** [import { css } from '@acab/ecsstatic';] and [const box = css`color:red;`;] *)
Definition basicCode : string :=
  "import { css } from '@acab/ecsstatic';" ++ LF ++ "const box = css`color:red;`;".

Definition basicAst : Program :=
  {| body :=
       [ ImportDeclaration 0 38 "@acab/ecsstatic" [ImportSpecifier "css" "css"];
         OtherNode 39 67
           [ VariableDeclarator 45 66 (Identifier 45 48 "box")
               (Some (TaggedTemplateExpression 51 66 (Identifier 51 54 "css") 54 66 [])) ] ] |}.

Definition basicSite : TaggedTemplateWithName :=
  Build_TaggedTemplateWithName 51 66 (Identifier 51 54 "css") 54 66 [] (Some "box").

(** The basic file followed by
    [const outer = css`${box} span { color: blue; }`;] *)
Definition composedCode : string :=
  basicCode ++ LF ++ "const outer = css`${box} span { color: blue; }`;".

Definition composedAst : Program :=
  {| body :=
       [ ImportDeclaration 0 38 "@acab/ecsstatic" [ImportSpecifier "css" "css"];
         OtherNode 39 67
           [ VariableDeclarator 45 66 (Identifier 45 48 "box")
               (Some (TaggedTemplateExpression 51 66 (Identifier 51 54 "css") 54 66 [])) ];
         OtherNode 68 116
           [ VariableDeclarator 74 115 (Identifier 74 79 "outer")
               (Some (TaggedTemplateExpression 82 115 (Identifier 82 85 "css") 85 115
                        [Identifier 88 91 "box"])) ] ] |}.

Definition outerSite : TaggedTemplateWithName :=
  Build_TaggedTemplateWithName 82 115 (Identifier 82 85 "css") 85 115
    [Identifier 88 91 "box"] (Some "outer").

(** An evaluator for [composedCode]: the value of [box] in its scope,
    followed by the literal text of the template. *)
Definition evalCompose (code filename : string) (scope : JsMap.t) : Outcome JsValue :=
  match JsMap.get "box" scope with
  | Some v => Ok (VString (v ++ " span { color: blue; }"))
  | None => Throw (OtherError "box is not defined")
  end.

(** [import { css as a, css as b } from '@acab/ecsstatic';] with one
    template for each alias: [const x = a`color:red `;] and
    [const y = b`color:blue `;] *)
Definition aliasCode : string :=
  "import { css as a, css as b } from '@acab/ecsstatic';" ++ LF
    ++ "const x = a`color:red `;" ++ LF ++ "const y = b`color:blue `;".

Definition aliasAst : Program :=
  {| body :=
       [ ImportDeclaration 0 53 "@acab/ecsstatic"
           [ImportSpecifier "css" "a"; ImportSpecifier "css" "b"];
         OtherNode 54 78
           [ VariableDeclarator 60 77 (Identifier 60 61 "x")
               (Some (TaggedTemplateExpression 64 77 (Identifier 64 65 "a") 65 77 [])) ];
         OtherNode 79 104
           [ VariableDeclarator 85 103 (Identifier 85 86 "y")
               (Some (TaggedTemplateExpression 89 103 (Identifier 89 90 "b") 90 103 [])) ] ] |}.

(** [import * as ecs from '@acab/ecsstatic';] *)
Definition namespaceCode : string := "import * as ecs from '@acab/ecsstatic';".

Definition namespaceAst : Program :=
  {| body := [ ImportDeclaration 0 39 "@acab/ecsstatic" [ImportNamespaceSpecifier "ecs"] ] |}.

(** [const w = 5;] and [const box = css`width:${w}px;`;] after the import. *)
Definition widthCode : string :=
  "import { css } from '@acab/ecsstatic';" ++ LF ++ "const w = 5;" ++ LF
    ++ "const box = css`width:${w}px;`;".

Definition widthAst : Program :=
  {| body :=
       [ ImportDeclaration 0 38 "@acab/ecsstatic" [ImportSpecifier "css" "css"];
         OtherNode 39 51 [ VariableDeclarator 45 50 (Identifier 45 46 "w") (Some (OtherNode 49 50 [])) ];
         OtherNode 52 83
           [ VariableDeclarator 58 82 (Identifier 58 61 "box")
               (Some (TaggedTemplateExpression 64 82 (Identifier 64 67 "css") 67 82
                        [Identifier 76 77 "w"])) ] ] |}.

Definition widthSite : TaggedTemplateWithName :=
  Build_TaggedTemplateWithName 64 82 (Identifier 64 67 "css") 67 82
    [Identifier 76 77 "w"] (Some "box").

(** The collaborators with, for the evaluation chain, the esbuild and
    the evaluator of [Script]. *)
Definition node : External :=
  {| hash := letters;
     postcssProcess := fun _ css => Ok css;
     esbuildTransformSync := Script.transform;
     nodeEval := Script.eval;
     esbuildBuild := fun _ _ => Ok EmptyString;
     pathJoin := joinPath;
     pathDirname := dirname |}.

(** A file whose first style is named [module]:
    [const module = css`color:red;`;] and
    [const outer = css`${module} span{}`;] after the import. *)
Definition moduleCode : string :=
  "import { css } from '@acab/ecsstatic';" ++ LF
    ++ "const module = css`color:red;`;" ++ LF
    ++ "const outer = css`${module} span{}`;".

Definition moduleAst : Program :=
  {| body :=
       [ ImportDeclaration 0 38 "@acab/ecsstatic" [ImportSpecifier "css" "css"];
         OtherNode 39 70
           [ VariableDeclarator 45 69 (Identifier 45 51 "module")
               (Some (TaggedTemplateExpression 54 69 (Identifier 54 57 "css") 57 69 [])) ];
         OtherNode 71 107
           [ VariableDeclarator 77 106 (Identifier 77 82 "outer")
               (Some (TaggedTemplateExpression 85 106 (Identifier 85 88 "css") 88 106
                        [Identifier 91 97 "module"])) ] ] |}.

Definition moduleSite : TaggedTemplateWithName :=
  Build_TaggedTemplateWithName 54 69 (Identifier 54 57 "css") 57 69 [] (Some "module").

Definition moduleOuterSite : TaggedTemplateWithName :=
  Build_TaggedTemplateWithName 85 106 (Identifier 85 88 "css") 88 106
    [Identifier 91 97 "module"] (Some "outer").

(** A template inside an interpolation of another:
    [const outer = css`${ {x: css`b;`}.x } span{}`;] after the import.
    The member expression and the object expression are [OtherNode]s; the
    walker does not visit the name after the dot. *)
Definition nestedCode : string :=
  "import { css } from '@acab/ecsstatic';" ++ LF
    ++ "const outer = css`${ {x: css`b;`}.x } span{}`;".

Definition nestedInner : Node :=
  TaggedTemplateExpression 64 71 (Identifier 64 67 "css") 67 71 [].

Definition nestedExpressions : list Node :=
  [ OtherNode 60 74
      [ OtherNode 60 72 [ Property 61 71 false (Identifier 61 62 "x") nestedInner ] ] ].

Definition nestedAst : Program :=
  {| body :=
       [ ImportDeclaration 0 38 "@acab/ecsstatic" [ImportSpecifier "css" "css"];
         OtherNode 39 85
           [ VariableDeclarator 45 84 (Identifier 45 50 "outer")
               (Some (TaggedTemplateExpression 53 84 (Identifier 53 56 "css") 56 84
                        nestedExpressions)) ] ] |}.

Definition innerSite : TaggedTemplateWithName :=
  Build_TaggedTemplateWithName 64 71 (Identifier 64 67 "css") 67 71 [] (Some "x").

Definition enclosingSite : TaggedTemplateWithName :=
  Build_TaggedTemplateWithName 53 84 (Identifier 53 56 "css") 56 84
    nestedExpressions (Some "outer").

(** The basic file followed by a template of another tag, with an
    interpolation: [const view = html`${box}`;] *)
Definition mixedCode : string :=
  basicCode ++ LF ++ "const view = html`${box}`;".

Definition mixedAst : Program :=
  {| body :=
       [ ImportDeclaration 0 38 "@acab/ecsstatic" [ImportSpecifier "css" "css"];
         OtherNode 39 67
           [ VariableDeclarator 45 66 (Identifier 45 48 "box")
               (Some (TaggedTemplateExpression 51 66 (Identifier 51 54 "css") 54 66 [])) ];
         OtherNode 68 94
           [ VariableDeclarator 74 93 (Identifier 74 78 "view")
               (Some (TaggedTemplateExpression 81 93 (Identifier 81 85 "html") 85 93
                        [Identifier 88 91 "box"])) ] ] |}.

End Sample.


(** ** Notions used to state the properties *)

(** [l] merges [l1] and [l2], keeping the order of each. *)
Inductive Interleave {A : Type} : list A -> list A -> list A -> Prop :=
| Interleave_nil : Interleave [] [] []
| Interleave_left x l1 l2 l : Interleave l1 l2 l -> Interleave (x :: l1) l2 (x :: l)
| Interleave_right x l1 l2 l : Interleave l1 l2 l -> Interleave l1 (x :: l2) (x :: l).

(** [part] occurs in [text]. *)
Definition Occurs (part text : string) : Prop :=
  exists before after, text = before ++ part ++ after.

(** The UTF-8 text of a code point below U+10000. *)
Definition utf8 (cp : N) : string :=
  if (cp <? 128)%N then String (ascii_of_N cp) EmptyString
  else if (cp <? 2048)%N then
    String (ascii_of_N (192 + cp / 64))
      (String (ascii_of_N (128 + cp mod 64)) EmptyString)
  else
    String (ascii_of_N (224 + cp / 4096))
      (String (ascii_of_N (128 + (cp / 64) mod 64))
         (String (ascii_of_N (128 + cp mod 64)) EmptyString)).

(** The code points ECMAScript counts as white space or as line
    terminator: TAB, LF, VT, FF, CR, space, U+00A0, U+1680, U+2000 to
    U+200A, U+2028, U+2029, U+202F, U+205F, U+3000 and U+FEFF. *)
Definition whiteSpaceCodePoints : list N :=
  [9; 10; 11; 12; 13; 32; 160; 5760;
   8192; 8193; 8194; 8195; 8196; 8197; 8198; 8199; 8200; 8201; 8202;
   8232; 8233; 8239; 8287; 12288; 65279]%N.

(** A text made of white space only. *)
Inductive Blank : string -> Prop :=
| Blank_empty : Blank EmptyString
| Blank_more cp s : In cp whiteSpaceCodePoints -> Blank s -> Blank (utf8 cp ++ s).

Definition StartsBlank (s : string) : Prop :=
  exists cp rest, In cp whiteSpaceCodePoints /\ s = utf8 cp ++ rest.

Definition EndsBlank (s : string) : Prop :=
  exists cp before, In cp whiteSpaceCodePoints /\ s = before ++ utf8 cp.

(** [block] is [s] without the white space at its two ends. *)
Definition Trimmed (s block : string) : Prop :=
  (exists before after, Blank before /\ Blank after /\ s = before ++ block ++ after)
  /\ ~ StartsBlank block /\ ~ EndsBlank block.

(** A line that begins, after white space, with [@import] or [@use]. *)
Definition DirectiveLine (line : string) : Prop :=
  exists blanks rest,
    Blank blanks
    /\ (line = blanks ++ "@import" ++ rest \/ line = blanks ++ "@use" ++ rest).

(** A text without line feed and carriage return. *)
Inductive NoBreak : string -> Prop :=
| NoBreak_empty : NoBreak EmptyString
| NoBreak_more c l :
    c <> "010"%char -> c <> "013"%char -> NoBreak l -> NoBreak (String c l).

(** The lines of a text: what stands between its line terminators, CR
    LF, LF, or a CR that no LF follows. *)
Inductive LinesOf : string -> list string -> Prop :=
| LinesOf_last l : NoBreak l -> LinesOf l [l]
| LinesOf_lf l rest ls :
    NoBreak l -> LinesOf rest ls -> LinesOf (l ++ LF ++ rest) (l :: ls)
| LinesOf_crlf l rest ls :
    NoBreak l -> LinesOf rest ls -> LinesOf (l ++ CR ++ LF ++ rest) (l :: ls)
| LinesOf_cr l rest ls :
    NoBreak l -> (forall r, rest <> LF ++ r) -> LinesOf rest ls ->
    LinesOf (l ++ CR ++ rest) (l :: ls).

(** The specifiers of all import declarations of the style package, in
    source order. *)
Definition ecsstaticSpecifiers (nodes : list Node) : list Specifier :=
  flat_map (fun n => match n with
                     | ImportDeclaration _ _ source specifiers =>
                         if source =? "@acab/ecsstatic" then specifiers else []
                     | _ => []
                     end) nodes.

(** The local aliases given to a role ([css] or [scss]), in source order. *)
Definition aliases (role : string) (specifiers : list Specifier) : list string :=
  flat_map (fun sp => match sp with
                      | ImportSpecifier imported local =>
                          if imported =? role then [local] else []
                      | _ => []
                      end) specifiers.

Definition lastOf (l : list string) : option string :=
  last (map Some l) None.

(** [o], or [d] when there is none. *)
Definition orElse (o d : option string) : option string :=
  match o with Some a => Some a | None => d end.

(** The lexically last alias of a role in a program. *)
Definition lastAlias (role : string) (ast : Program) : option string :=
  lastOf (aliases role (ecsstaticSpecifiers (body ast))).

Definition hasCssOrScss (specifiers : list Specifier) : bool :=
  existsb (fun sp => match sp with
                     | ImportSpecifier imported _ => isCssOrScss imported
                     | _ => false
                     end) specifiers.

(** The spans of the import statements of the style package that contain a
    [css] or [scss] specifier, in source order. *)
Definition styleImportSpans (nodes : list Node) : list (nat * nat) :=
  flat_map (fun n => match n with
                     | ImportDeclaration start end_ source specifiers =>
                         if (source =? "@acab/ecsstatic") && hasCssOrScss specifiers
                         then [(start, end_)] else []
                     | _ => []
                     end) nodes.

(** The class name of a result of [processCss], when it returned. *)
Definition snd_ok (r : Outcome (string * string)) : option string :=
  match r with Ok p => Some (snd p) | Throw _ => None end.

(** The site declares the name [k] (and so registers a binding for it). *)
Definition declares (node : TaggedTemplateWithName) (k : string) : Prop :=
  originalNameOf node = k /\ k <> balloon.

(** Nothing of the original text between [start] and [end_] is emitted. *)
Definition Deleted (m : MagicString.t) (start end_ : nat) : Prop :=
  forall p, start <= p < end_ -> nth p (MagicString.cells m) EmptyString = EmptyString.

(** The sites the walk finds inside a site: in its tag and in the
    interpolations of its template. *)
Definition nestedSites (tagNames : list string) (site : TaggedTemplateWithName)
    : list TaggedTemplateWithName :=
  let node :=
    TaggedTemplateExpression (tt_start site) (tt_end site) (tt_tag site)
      (tt_quasi_start site) (tt_quasi_end site) (tt_quasi_expressions site) in
  (walk tagNames (Some node) (tt_tag site)
     ++ flat_map
          (walk tagNames
             (Some (TemplateLiteral (tt_quasi_start site) (tt_quasi_end site)
                      (tt_quasi_expressions site))))
          (tt_quasi_expressions site))%list.

(** In the list [l], every site stands right after the sites found
    inside it. *)
Definition NestedFirst (tagNames : list string) (l : list TaggedTemplateWithName) : Prop :=
  forall pre site post,
    l = (pre ++ site :: post)%list ->
    exists before, pre = (before ++ nestedSites tagNames site)%list.

(** The walk over the tree [n] comes to the node [d]: the children of a
    node are those the base walker of acorn-walk visits (the key of a
    property only when it is computed). *)
Inductive Visited : Node -> Node -> Prop :=
| Visited_self n : Visited n n
| Visited_template s e exprs x d :
    In x exprs -> Visited d x -> Visited d (TemplateLiteral s e exprs)
| Visited_tag s e tag qs qe exprs d :
    Visited d tag -> Visited d (TaggedTemplateExpression s e tag qs qe exprs)
| Visited_quasi s e tag qs qe exprs x d :
    In x exprs -> Visited d x -> Visited d (TaggedTemplateExpression s e tag qs qe exprs)
| Visited_id s e id init d :
    Visited d id -> Visited d (VariableDeclarator s e id init)
| Visited_init s e id i d :
    Visited d i -> Visited d (VariableDeclarator s e id (Some i))
| Visited_key s e key value d :
    Visited d key -> Visited d (Property s e true key value)
| Visited_value s e computed key value d :
    Visited d value -> Visited d (Property s e computed key value)
| Visited_child s e children x d :
    In x children -> Visited d x -> Visited d (OtherNode s e children).

(** [site] is the record of the tagged template [d]. *)
Definition siteOf (d : Node) (site : TaggedTemplateWithName) : Prop :=
  exists s e tag qs qe exprs,
    d = TaggedTemplateExpression s e tag qs qe exprs
    /\ tt_start site = s /\ tt_end site = e /\ tt_tag site = tag
    /\ tt_quasi_start site = qs /\ tt_quasi_end site = qe
    /\ tt_quasi_expressions site = exprs.

(** The text the last declaration of [name] in [decls] gives it. *)
Definition lastDeclared (name : string) (decls : list (string * string)) : option string :=
  JsMap.get name (rev decls).

(** The text a name stands for when the generated classes take precedence
    over the outer declarations: the selector of the table for a name of
    the table, and the text of its last outer declaration for another. *)
Definition precedence (outer : list (string * string)) (table : JsMap.t) (name : string)
  : option string :=
  match JsMap.get name table with
  | Some selector => Some selector
  | None => lastDeclared name outer
  end.

(** The loop of [transform] on the file reaches the site [node], after
    the sites [pre] and before the sites [post], in the state [st]. *)
Definition Reaches (X : External) (options : Options) (registry : JsMap.t)
    (code id : string) (ast : Program) (found : EcsstaticImports)
    (pre : list TaggedTemplateWithName) (node : TaggedTemplateWithName)
    (post : list TaggedTemplateWithName) (st : LoopState) : Prop :=
  JS.includes (JS.beforeFirst "?" id) "node_modules" = false
  /\ isScriptFile (JS.beforeFirst "?" id) = true
  /\ findEcsstaticImports ast = Ok found
  /\ statements found <> []
  /\ findCssTaggedTemplateLiterals ast
       (truthyNames [cssImportName found; scssImportName found])
     = (pre ++ node :: post)%list
  /\ processSites X options code (JS.beforeFirst "?" id) (scssImportName found) pre
       (initialState code registry)
     = (Ok tt, st).


(** * Properties *)

(** ** The class name ([processCss]) *)

Lemma processCss_ok X body name isScss css cls :
  processCss X (VString body) name isScss = Ok (css, cls) ->
  postcssProcess X isScss (unprocessedCss X body name) = Ok css
  /\ cls = className X body name.
Proof.
  unfold processCss.
  destruct (postcssProcess X isScss (unprocessedCss X body name)) as [out|e];
    intros H; inversion H; subst; auto.
Qed.

Lemma processCss_not_string X v name isScss :
  isString v = false -> processCss X v name isScss = Throw (splitTypeError v).
Proof.
  destruct v; simpl; intros H; try discriminate; reflexivity.
Qed.

(** C1, as stated, fails: the declared name is part of the generated class
    name.  The body [color:red;] compiled under the names [box] and [outer]
    gives [box-colorred] and [outer-colorred] with the sample hash, and no
    hash function whatever makes the two names equal.  Nor is the body
    trimmed before it is hashed: with a hash that tells every two texts
    apart, a leading blank changes the name. *)
Lemma C1_declared_name_changes_class_name :
  JS.trim "color:red;" = JS.trim "color:red;"
  /\ snd_ok (processCss Sample.X (VString "color:red;") "box" false) = Some "box-colorred"
  /\ snd_ok (processCss Sample.X (VString "color:red;") "outer" false) = Some "outer-colorred"
  /\ ~ (exists X : External,
          className X "color:red;" "box" = className X "color:red;" "outer")
  /\ JS.trim " color:red;" = JS.trim "color:red;"
  /\ className Sample.verbatim " color:red;" "box"
       <> className Sample.verbatim "color:red;" "box".
Proof.
  repeat split; try reflexivity.
  - intros [X H]. unfold className in H. simpl in H. discriminate H.
  - intros H. vm_compute in H. discriminate H.
Qed.

(** C1, amended: the class names generated for one body text are the
    prefix of each site, a dash, and one and the same hash of the body;
    with the same prefix they are identical.  [processCss] is given
    neither the file nor the position of the site, and the dialect does
    not enter the name. *)
Theorem C1_class_name_is_prefix_and_body_hash :
  forall X body name1 name2 isScss1 isScss2 css1 css2 cls1 cls2,
    processCss X (VString body) name1 isScss1 = Ok (css1, cls1) ->
    processCss X (VString body) name2 isScss2 = Ok (css2, cls2) ->
    cls1 = name1 ++ "-" ++ hash X body
    /\ cls2 = name2 ++ "-" ++ hash X body
    /\ (name1 = name2 -> cls1 = cls2).
Proof.
  intros X body name1 name2 s1 s2 css1 css2 cls1 cls2 H1 H2.
  apply processCss_ok in H1 as [_ ->].
  apply processCss_ok in H2 as [_ ->].
  unfold className. repeat split. intros ->. reflexivity.
Qed.

Lemma C1_class_name_is_prefix_and_body_hash_witness :
  processCss Sample.X (VString "color:red;") "box" false
  = Ok (LF ++ ".box-colorred{color:red;}", "box-colorred")
  /\ processCss Sample.X (VString "color:red;") "box" true
     = Ok (LF ++ ".box-colorred{color:red;}", "box-colorred")
  /\ "box-colorred" = "box" ++ "-" ++ hash Sample.X "color:red;"
  /\ "box-colorred" = "box" ++ "-" ++ hash Sample.X "color:red;"
  /\ ("box" = "box" -> "box-colorred" = "box-colorred").
Proof.
  split; [reflexivity|]. split; [reflexivity|].
  apply (C1_class_name_is_prefix_and_body_hash Sample.X "color:red;" "box" "box" false true
           (LF ++ ".box-colorred{color:red;}") (LF ++ ".box-colorred{color:red;}")).
  - reflexivity.
  - reflexivity.
Defined.

(** ** The literal text of a template without interpolation *)

Lemma substring_0_append s1 s2 n :
  n <= String.length s1 -> substring 0 n (s1 ++ s2) = substring 0 n s1.
Proof.
  revert n. induction s1 as [|c s1 IH]; intros n Hn; simpl in *.
  - assert (n = 0) by lia. subst. destruct s2; reflexivity.
  - destruct n as [|n]; [reflexivity|]. rewrite IH by lia. reflexivity.
Qed.

Lemma string_app_assoc (a b c : string) : (a ++ b) ++ c = a ++ b ++ c.
Proof. induction a as [|x a IH]; simpl; [reflexivity|]. rewrite IH. reflexivity. Qed.

Lemma length_append s1 s2 :
  String.length (s1 ++ s2) = String.length s1 + String.length s2.
Proof.
  induction s1 as [|c s1 IH]; simpl; [reflexivity|]. rewrite IH. reflexivity.
Qed.

(** Between its two backticks, a template keeps all of its text but the
    last character. *)
Lemma literalContents_between_backticks text :
  literalContents (BACKTICK ++ text ++ BACKTICK)
  = substring 0 (String.length text - 1) text.
Proof.
  unfold literalContents, JS.slice, JS.relIndex.
  rewrite !length_append. simpl String.length.
  set (n := String.length text).
  replace (Z.of_nat (1 + (n + 1)) - 2)%Z with (Z.of_nat n) by lia.
  destruct ((1 <? 0)%Z) eqn:E1; [apply Z.ltb_lt in E1; lia|].
  destruct ((Z.of_nat n <? 0)%Z) eqn:E2; [apply Z.ltb_lt in E2; lia|].
  rewrite !Z.min_l by lia.
  replace (Z.to_nat (Z.max (Z.of_nat n - 1) 0)) with (n - 1) by lia.
  change (Z.to_nat 1) with 1. simpl append.
  change (substring 1 (n - 1) (String "096" (text ++ String "096" EmptyString)))
    with (substring 0 (n - 1) (text ++ String "096" EmptyString)).
  apply substring_0_append. subst n. lia.
Qed.

(** Without interpolation, or with evaluation switched off, the evaluator
    is not called: the contents are computed from the text alone. *)
Lemma templateContentsOf_literal X options code node st :
  s_evaluateExpressions (settings options) = false \/ hasExpressions node = false ->
  templateContentsOf X options code node st
  = (Ok (VString (literalContents (rawTemplateOf code node))), st).
Proof.
  unfold templateContentsOf. intros [-> | ->]; [reflexivity|].
  rewrite andb_false_r. reflexivity.
Qed.

(** C2 fails on the code: the slice that removes the delimiters drops the
    closing backtick and one character more, for every text.  In
    [const box = css`color:red;`;] the template has no interpolation, its
    text between the backticks is [color:red;], and the contents handed to
    the compiler are [color:red]; the stylesheet registered for the file
    shows it. *)
Theorem C2_literal_text_loses_its_last_character :
  forall X options,
    (forall text,
       literalContents (BACKTICK ++ text ++ BACKTICK)
       = substring 0 (String.length text - 1) text)
    /\ hasExpressions Sample.basicSite = false
    /\ rawTemplateOf Sample.basicCode Sample.basicSite = BACKTICK ++ "color:red;" ++ BACKTICK
    /\ templateContentsOf X options Sample.basicCode Sample.basicSite
         (initialState Sample.basicCode [])
       = (Ok (VString "color:red"), initialState Sample.basicCode [])
    /\ transform Sample.X noOptions [] Sample.basicCode "/src/app.ts" Sample.basicAst
       = (Ok (Rewritten (LF ++ "const box = " ++ DQUOTE ++ "box-colorred" ++ DQUOTE ++ ";"
                           ++ "import " ++ DQUOTE ++ "./box-colorred.acab.css" ++ DQUOTE ++ ";" ++ LF)),
          [("/src/box-colorred.acab.css", LF ++ ".box-colorred{color:red}")]).
Proof.
  intros X options. split; [exact literalContents_between_backticks|].
  split; [reflexivity|]. split; [reflexivity|]. split.
  - rewrite templateContentsOf_literal by (right; reflexivity). reflexivity.
  - vm_compute. reflexivity.
Qed.

(** ** [resolveId] *)

(** C10: without an importer the hook returns [undefined] at once,
    whatever the id and the registry; the same registered id is resolved
    when an importer is given. *)
Theorem C10_resolveId_declines_without_importer :
  forall X registry root id,
    resolveId X registry root id None = Ok ResolveUndefined
    /\ resolveId X registry root id (Some EmptyString) = Ok ResolveUndefined
    /\ (JsMap.has id registry = true ->
        JS.endsWith id "css" = true ->
        JS.startsWith id "." = false ->
        forall importer, importer <> EmptyString ->
          resolveId X registry root id None = Ok ResolveUndefined
          /\ resolveId X registry root id (Some importer) = Ok (ResolvedId id)).
Proof.
  intros X registry root id. split; [reflexivity|]. split; [reflexivity|].
  intros Hhas Hcss Hdot importer Himp. split; [reflexivity|].
  unfold resolveId.
  destruct (importer =? EmptyString) eqn:E.
  - apply String.eqb_eq in E. contradiction.
  - rewrite Hcss, Hdot, Hhas. reflexivity.
Qed.

(** A registered sheet asked for by a module of the same directory, and
    the same request without importer. *)
Example resolveId_registered_sheet :
  let registry := [("/src/box-colorred.acab.css", ".box-colorred{color:red}")] in
  resolveId Sample.X registry (Some "/") "./box-colorred.acab.css" (Some "/src/app.ts")
  = Ok (ResolvedId "/src/box-colorred.acab.css")
  /\ resolveId Sample.X registry (Some "/") "/src/box-colorred.acab.css" (Some "/src/app.ts")
     = Ok (ResolvedId "/src/box-colorred.acab.css")
  /\ resolveId Sample.X registry (Some "/") "/src/box-colorred.acab.css" None
     = Ok ResolveUndefined
  /\ load registry "/src/box-colorred.acab.css" = Some ".box-colorred{color:red}".
Proof. repeat split. Qed.

(** ** The association list as a map *)

Lemma get_set_same k v m : JsMap.get k (JsMap.set k v m) = Some v.
Proof.
  induction m as [|[k' v'] m IH]; simpl.
  - rewrite String.eqb_refl. reflexivity.
  - destruct (k' =? k) eqn:E; simpl.
    + rewrite String.eqb_refl. reflexivity.
    + rewrite E. exact IH.
Qed.

Lemma get_set_other k k' v m :
  k <> k' -> JsMap.get k (JsMap.set k' v m) = JsMap.get k m.
Proof.
  intros Hne. induction m as [|[k0 v0] m IH]; simpl.
  - destruct (k' =? k) eqn:E; [apply String.eqb_eq in E; congruence|reflexivity].
  - destruct (k0 =? k') eqn:E; simpl.
    + apply String.eqb_eq in E. subst k0.
      destruct (k' =? k) eqn:E'; [apply String.eqb_eq in E'; congruence|reflexivity].
    + destruct (k0 =? k); [reflexivity|exact IH].
Qed.

Lemma has_true_iff k m : JsMap.has k m = true <-> exists v, JsMap.get k m = Some v.
Proof.
  unfold JsMap.has. destruct (JsMap.get k m) as [v|]; split.
  - intros _. exists v. reflexivity.
  - reflexivity.
  - discriminate.
  - intros [v H]. discriminate H.
Qed.

(** ** One turn of the loop *)

Lemma compileSite_frame X options code id scss node st o st' :
  compileSite X options code id scss node st = (o, st') ->
  generatedClasses st' = generatedClasses st
  /\ magicCode st' = magicCode st
  /\ cssList st' = cssList st.
Proof.
  unfold compileSite, bind, populateInlinedVars, templateContentsOf, lift.
  destruct (hasExpressions node && s_resolveImports (settings options)
            && (inlinedVars st =? EmptyString)).
  - destruct (inlineImportsUsingEsbuild X id (s_resolvePackages (settings options))).
    + destruct (s_evaluateExpressions (settings options) && hasExpressions node); simpl.
      * destruct (processTemplateLiteral _ _ _ _); intros H; inversion H; subst; auto.
      * intros H; inversion H; subst; auto.
    + intros H; inversion H; subst; auto.
  - destruct (s_evaluateExpressions (settings options) && hasExpressions node); simpl.
    + destruct (processTemplateLiteral _ _ _ _); intros H; inversion H; subst; auto.
    + intros H; inversion H; subst; auto.
Qed.

(** The table and the registry after the second half of a turn, whether
    the replacement of the site went through or not. *)
Lemma registerSite_effect X id scss node r st o st' :
  registerSite X id scss node r st = (o, st') ->
  generatedClasses st'
  = (if originalNameOf node =? balloon then generatedClasses st
     else JsMap.set (originalNameOf node) (selectorReference (snd r)) (generatedClasses st))
  /\ inlinedVars st' = inlinedVars st
  /\ cssList st'
     = JsMap.set (normalizePath (pathJoin X (pathDirname X id)
                                   (cssFilenameOf (snd r) (isScssTag scss node))))
         (fst r) (cssList st).
Proof.
  unfold registerSite, bind, modify, ret, updateMagic.
  destruct (originalNameOf node =? balloon); simpl;
    match goal with
    | |- context [MagicString.update ?a ?b ?c ?m] => destruct (MagicString.update a b c m)
    end; intros H; inversion H; subst; simpl; auto.
Qed.

Lemma processSite_ok_inv X options code id scss node st st' :
  processSite X options code id scss node st = (Ok tt, st') ->
  exists r st1,
    compileSite X options code id scss node st = (Ok r, st1)
    /\ registerSite X id scss node r st1 = (Ok tt, st').
Proof.
  unfold processSite, bind.
  destruct (compileSite X options code id scss node st) as [[r|e] st1]; intros H.
  - exists r, st1. auto.
  - discriminate H.
Qed.

Lemma processSites_app X options code id scss l1 l2 st :
  processSites X options code id scss (l1 ++ l2) st
  = match processSites X options code id scss l1 st with
    | (Ok _, st1) => processSites X options code id scss l2 st1
    | (Throw e, st1) => (Throw e, st1)
    end.
Proof.
  revert st. induction l1 as [|n l1 IH]; intros st; simpl.
  - reflexivity.
  - unfold bind. destruct (processSite X options code id scss n st) as [[u|e] st1].
    + apply IH.
    + reflexivity.
Qed.

(** The binding a named site leaves in the table. *)
Lemma processSite_binding X options code id scss node st st' r st1 :
  compileSite X options code id scss node st = (Ok r, st1) ->
  processSite X options code id scss node st = (Ok tt, st') ->
  originalNameOf node <> balloon ->
  JsMap.get (originalNameOf node) (generatedClasses st')
  = Some (":where(." ++ snd r ++ ")").
Proof.
  intros Hc Hp Hname.
  apply processSite_ok_inv in Hp as (r' & st1' & Hc' & Hr).
  rewrite Hc in Hc'. inversion Hc'; subst r' st1'.
  apply registerSite_effect in Hr as (Hg & _ & _).
  rewrite Hg.
  destruct (originalNameOf node =? balloon) eqn:E.
  - apply String.eqb_eq in E. contradiction.
  - apply get_set_same.
Qed.

(** The class name of a site, in whatever file it stands: its prefix, a
    dash, and the hash of its resolved contents. *)
Lemma compileSite_class_name X options code id scss node st css cls st1 :
  compileSite X options code id scss node st = (Ok (css, cls), st1) ->
  exists body,
    templateContentsOf X options code node st1 = (Ok (VString body), st1)
    /\ cls = originalNameOf node ++ "-" ++ hash X body.
Proof.
  unfold compileSite, bind, lift.
  destruct (populateInlinedVars X options id node st) as [[[]|e] sta]; [|discriminate].
  destruct (templateContentsOf X options code node sta) as [[v|e] stb] eqn:Ht;
    [|discriminate].
  assert (Hst : stb = sta).
  { unfold templateContentsOf in Ht.
    destruct (s_evaluateExpressions (settings options) && hasExpressions node);
      inversion Ht; reflexivity. }
  subst stb. intros H. injection H as Hp Hs. subst st1.
  destruct v as [body| | | | ]; try discriminate Hp.
  apply processCss_ok in Hp as (_ & ->).
  exists body. split; [exact Ht|reflexivity].
Qed.

(** ** The selector kept for a named site *)

(** C7, as stated, fails in its second half: no value of the options
    makes the basic file register the bare class selector for [box]. *)
Lemma C7_no_option_removes_the_guard :
  ~ (exists (options : Options) (st : LoopState),
       processSites Sample.X options Sample.basicCode "/src/app.ts" None
         [Sample.basicSite] (initialState Sample.basicCode [])
       = (Ok tt, st)
       /\ JsMap.get "box" (generatedClasses st) = Some ".box-colorred").
Proof.
  intros (options & st & Hrun & Hget).
  simpl in Hrun. unfold bind in Hrun.
  destruct (processSite Sample.X options Sample.basicCode "/src/app.ts" None
              Sample.basicSite (initialState Sample.basicCode [])) as [[[]|e] st1] eqn:Hp;
    [|discriminate Hrun].
  inversion Hrun; subst st1.
  destruct (processSite_ok_inv _ _ _ _ _ _ _ _ Hp) as (r & st2 & Hc & _).
  assert (Hb := processSite_binding _ _ _ _ _ _ _ _ _ _ Hc Hp).
  change (originalNameOf Sample.basicSite) with "box" in Hb.
  rewrite Hb in Hget by (intros H; vm_compute in H; discriminate H).
  inversion Hget.
Qed.

(** C7, amended: whatever the options, the selector registered for a site
    with a declared name is the class selector inside [:where(...)]; the
    guard is the constant [useWhere] of the module, which no option
    reaches. *)
Theorem C7_selector_reference_is_always_guarded :
  forall X options code id scss node st css cls st1 st',
    compileSite X options code id scss node st = (Ok (css, cls), st1) ->
    processSite X options code id scss node st = (Ok tt, st') ->
    originalNameOf node <> balloon ->
    JsMap.get (originalNameOf node) (generatedClasses st')
    = Some (":where(." ++ cls ++ ")").
Proof.
  intros X options code id scss node st css cls st1 st' Hc Hp Hname.
  exact (processSite_binding _ _ _ _ _ _ _ _ _ _ Hc Hp Hname).
Qed.

Lemma C7_selector_reference_is_always_guarded_witness :
  compileSite Sample.X noOptions Sample.basicCode "/src/app.ts" None Sample.basicSite
    (initialState Sample.basicCode [])
  = (Ok (LF ++ ".box-colorred{color:red}", "box-colorred"), initialState Sample.basicCode [])
  /\ originalNameOf Sample.basicSite <> balloon
  /\ JsMap.get (originalNameOf Sample.basicSite)
       (generatedClasses
          (snd (processSite Sample.X noOptions Sample.basicCode "/src/app.ts" None
                  Sample.basicSite (initialState Sample.basicCode []))))
     = Some (":where(." ++ "box-colorred" ++ ")").
Proof.
  assert (Hname : originalNameOf Sample.basicSite <> balloon)
    by (intros H; vm_compute in H; discriminate H).
  split; [reflexivity|]. split; [exact Hname|].
  apply (C7_selector_reference_is_always_guarded Sample.X noOptions Sample.basicCode
           "/src/app.ts" None Sample.basicSite (initialState Sample.basicCode [])
           (LF ++ ".box-colorred{color:red}") "box-colorred"
           (initialState Sample.basicCode [])).
  - reflexivity.
  - vm_compute. reflexivity.
  - exact Hname.
Defined.

(** ** [findEcsstaticImports] *)

Lemma lastOf_app l1 l2 : lastOf (l1 ++ l2) = orElse (lastOf l2) (lastOf l1).
Proof.
  unfold lastOf. rewrite map_app.
  induction l2 as [|x l2 IH] using rev_ind.
  - simpl. rewrite app_nil_r. reflexivity.
  - rewrite map_app. simpl. rewrite app_assoc, !last_last. reflexivity.
Qed.

Lemma aliases_app role l1 l2 :
  aliases role (l1 ++ l2) = (aliases role l1 ++ aliases role l2)%list.
Proof. unfold aliases. apply flat_map_app. Qed.

Lemma someCssOrScss_ok specifiers b :
  someCssOrScss specifiers = Ok b -> b = hasCssOrScss specifiers.
Proof.
  induction specifiers as [|sp r IH]; simpl; intros H.
  - inversion H. reflexivity.
  - destruct sp as [imported local|local|local]; try discriminate H.
    destruct (isCssOrScss imported); simpl.
    + inversion H. reflexivity.
    + apply IH. exact H.
Qed.

Lemma bindSpecifier_fold specifiers c s :
  fold_left bindSpecifier specifiers (c, s)
  = (orElse (lastOf (aliases "css" specifiers)) c,
     orElse (lastOf (aliases "scss" specifiers)) s).
Proof.
  revert c s. induction specifiers as [|sp r IH]; intros c s; simpl.
  - reflexivity.
  - rewrite (surjective_pairing (bindSpecifier (c, s) sp)), IH.
    change (aliases "css" (sp :: r)) with (aliases "css" [sp] ++ aliases "css" r)%list.
    change (aliases "scss" (sp :: r)) with (aliases "scss" [sp] ++ aliases "scss" r)%list.
    rewrite !lastOf_app.
    destruct sp as [imported local|local|local]; simpl;
      try (destruct (lastOf (aliases "css" r)), (lastOf (aliases "scss" r)); reflexivity).
    destruct (imported =? "css"), (imported =? "scss"); simpl;
      destruct (lastOf (aliases "css" r)), (lastOf (aliases "scss" r)); reflexivity.
Qed.

Lemma importsLoop_ok nodes found r :
  importsLoop nodes found = Ok r ->
  cssImportName r
  = orElse (lastOf (aliases "css" (ecsstaticSpecifiers nodes))) (cssImportName found)
  /\ scssImportName r
     = orElse (lastOf (aliases "scss" (ecsstaticSpecifiers nodes))) (scssImportName found)
  /\ statements r = (statements found ++ styleImportSpans nodes)%list.
Proof.
  revert found. induction nodes as [|n nodes IH]; intros found H; simpl in H.
  - inversion H; subst. simpl. rewrite app_nil_r. auto.
  - destruct n as [ | | | | |start end_ source specifiers| ];
      try (apply IH in H; simpl; exact H).
    simpl. destruct (source =? "@acab/ecsstatic") eqn:Esrc.
    + destruct (someCssOrScss specifiers) as [b|e] eqn:Esome; [|discriminate H].
      apply someCssOrScss_ok in Esome. subst b.
      apply IH in H. simpl in H. rewrite bindSpecifier_fold in H. simpl in H.
      destruct H as (Hc & Hs & Hst).
      rewrite !aliases_app, !lastOf_app. rewrite Hc, Hs, Hst.
      repeat split.
      * destruct (lastOf (aliases "css" (ecsstaticSpecifiers nodes))); reflexivity.
      * destruct (lastOf (aliases "scss" (ecsstaticSpecifiers nodes))); reflexivity.
      * destruct (hasCssOrScss specifiers); simpl.
        -- rewrite <- app_assoc. reflexivity.
        -- reflexivity.
    + apply IH in H. simpl. exact H.
Qed.

(** What the import detector answers when it returns: for each role the
    lexically last alias, and the spans of the statements that import a
    role. *)
Lemma findEcsstaticImports_ok ast found :
  findEcsstaticImports ast = Ok found ->
  cssImportName found = lastAlias "css" ast
  /\ scssImportName found = lastAlias "scss" ast
  /\ statements found = styleImportSpans (body ast).
Proof.
  unfold findEcsstaticImports, lastAlias. intros H.
  apply importsLoop_ok in H as (Hc & Hs & Hst). simpl in *.
  rewrite Hc, Hs, Hst. repeat split.
  - destruct (lastOf (aliases "css" (ecsstaticSpecifiers (body ast)))); reflexivity.
  - destruct (lastOf (aliases "scss" (ecsstaticSpecifiers (body ast)))); reflexivity.
Qed.

(** ** Files the transform leaves alone *)

(** When the import detector returns and finds no statement, or the
    locator finds no site, the transform answers nothing and the registry
    is as before. *)
Lemma transform_untouched X options registry code id ast found :
  findEcsstaticImports ast = Ok found ->
  statements found = []
  \/ findCssTaggedTemplateLiterals ast
       (truthyNames [cssImportName found; scssImportName found]) = [] ->
  transform X options registry code id ast = (Ok Untouched, registry).
Proof.
  intros Hfound Hnone. unfold transform.
  destruct (JS.includes (JS.beforeFirst "?" id) "node_modules"); [reflexivity|].
  destruct (negb (isScriptFile (JS.beforeFirst "?" id))); [reflexivity|].
  rewrite Hfound.
  destruct (statements found) as [|sp sps]; [reflexivity|].
  destruct Hnone as [Hnone|Hnone]; [discriminate Hnone|].
  rewrite Hnone. reflexivity.
Qed.

(** C8 fails on the code: a file whose only import of the style package is
    a namespace import imports no [css] or [scss] name and holds no tagged
    template, yet its transform throws instead of returning the file as it
    is.  [findEcsstaticImports] reads [imported.name] of a specifier that
    has no [imported]; the loop below it in the same function tests the
    specifier type first. *)
Theorem C8_namespace_import_makes_transform_throw :
  forall X options registry,
    styleImportSpans (body Sample.namespaceAst) = []
    /\ (forall tagNames, findCssTaggedTemplateLiterals Sample.namespaceAst tagNames = [])
    /\ transform X options registry Sample.namespaceCode "/src/app.ts" Sample.namespaceAst
       = (Throw (TypeError "Cannot read properties of undefined (reading 'name')"), registry).
Proof.
  intros X options registry. repeat split.
Qed.

(** ** The text handed to postcss ([processCss]) *)

Lemma filter_Interleave {A : Type} (f : A -> bool) (l : list A) :
  Interleave (filter f l) (filter (fun x => negb (f x)) l) l.
Proof.
  induction l as [|x l IH]; simpl.
  - constructor.
  - destruct (f x); simpl; constructor; exact IH.
Qed.

(** *** White space, as [trim] sees it *)

Lemma In_whiteSpace cp :
  existsb (N.eqb cp) whiteSpaceCodePoints = true -> In cp whiteSpaceCodePoints.
Proof.
  intros H. apply existsb_exists in H as (x & Hin & Heq).
  apply N.eqb_eq in Heq. subst x. exact Hin.
Qed.

Lemma ascii_of_code c n : nat_of_ascii c = n -> c = ascii_of_nat n.
Proof. intros <-. symmetry. apply ascii_nat_embedding. Qed.

Ltac code_point cp :=
  exists cp; split; [apply In_whiteSpace; reflexivity|reflexivity].

Lemma isWhiteSpace_code c :
  JS.isWhiteSpace c = true ->
  exists cp, In cp whiteSpaceCodePoints /\ String c EmptyString = utf8 cp.
Proof.
  destruct c as [[] [] [] [] [] [] [] []]; intros H; try discriminate H;
    first [code_point 9%N|code_point 10%N|code_point 11%N|code_point 12%N
          |code_point 13%N|code_point 32%N].
Qed.

Lemma isWhiteSpace2_code c1 c2 :
  JS.isWhiteSpace2 c1 c2 = true ->
  exists cp, In cp whiteSpaceCodePoints /\ String c1 (String c2 EmptyString) = utf8 cp.
Proof.
  unfold JS.isWhiteSpace2. intros H. apply andb_true_iff in H as (H1 & H2).
  apply Nat.eqb_eq, ascii_of_code in H1. apply Nat.eqb_eq, ascii_of_code in H2.
  subst c1 c2. code_point 160%N.
Qed.

Lemma isWhiteSpace3_code c1 c2 c3 :
  JS.isWhiteSpace3 c1 c2 c3 = true ->
  exists cp,
    In cp whiteSpaceCodePoints
    /\ String c1 (String c2 (String c3 EmptyString)) = utf8 cp.
Proof.
  unfold JS.isWhiteSpace3. intros H.
  repeat (apply orb_true_iff in H; destruct H as [H|H]);
    repeat (let H' := fresh "H" in apply andb_true_iff in H as (H & H'));
    repeat match goal with
           | E : (nat_of_ascii ?c =? ?n)%nat = true |- _ =>
               apply Nat.eqb_eq, ascii_of_code in E; subst c
           end.
  - code_point 5760%N.
  - destruct c3 as [[] [] [] [] [] [] [] []]; try discriminate H0;
      first [code_point 8192%N|code_point 8193%N|code_point 8194%N|code_point 8195%N
            |code_point 8196%N|code_point 8197%N|code_point 8198%N|code_point 8199%N
            |code_point 8200%N|code_point 8201%N|code_point 8202%N
            |code_point 8232%N|code_point 8233%N|code_point 8239%N].
  - code_point 8287%N.
  - code_point 12288%N.
  - code_point 65279%N.
Qed.

Lemma isBlank_code s :
  JS.isBlank s = true <-> exists cp, In cp whiteSpaceCodePoints /\ s = utf8 cp.
Proof.
  split.
  - destruct s as [|c1 [|c2 [|c3 [|c4 r]]]]; simpl; intros H; try discriminate H.
    + apply isWhiteSpace_code, H.
    + apply isWhiteSpace2_code, H.
    + apply isWhiteSpace3_code, H.
  - intros (cp & Hin & ->). simpl in Hin.
    repeat (destruct Hin as [<-|Hin]; [reflexivity|]). destruct Hin.
Qed.

Lemma string_app_nil_r (a : string) : a ++ EmptyString = a.
Proof. induction a as [|x a IH]; simpl; [reflexivity|]. rewrite IH. reflexivity. Qed.

(** [trimStart] steps over a white space character. *)
Lemma trimStart_utf8 cp s :
  In cp whiteSpaceCodePoints -> JS.trimStart (utf8 cp ++ s) = JS.trimStart s.
Proof.
  intros Hin. simpl in Hin.
  repeat (destruct Hin as [<-|Hin]; [reflexivity|]). destruct Hin.
Qed.

Lemma trimStart_Blank b s : Blank b -> JS.trimStart (b ++ s) = JS.trimStart s.
Proof.
  induction 1 as [|cp b Hin Hb IH]; [reflexivity|].
  rewrite string_app_assoc, trimStart_utf8 by exact Hin. exact IH.
Qed.

(** What [trimStart] removes is white space, and what it leaves does not
    start with white space. *)
Lemma trimStart_spec_n n : forall s,
  String.length s <= n ->
  (exists b, Blank b /\ s = b ++ JS.trimStart s)
  /\ JS.trimStart (JS.trimStart s) = JS.trimStart s.
Proof.
  induction n as [|n IH]; intros s Hlen.
  - destruct s; [|simpl in Hlen; lia]. split; [|reflexivity].
    exists EmptyString. split; [constructor|reflexivity].
  - destruct s as [|c1 r1].
    { split; [|reflexivity]. exists EmptyString. split; [constructor|reflexivity]. }
    simpl in Hlen.
    assert (Hstep : forall w r,
               String c1 r1 = w ++ r -> JS.isBlank w = true ->
               JS.trimStart (String c1 r1) = JS.trimStart r ->
               String.length r <= n ->
               (exists b, Blank b /\ String c1 r1 = b ++ JS.trimStart (String c1 r1))
               /\ JS.trimStart (JS.trimStart (String c1 r1)) = JS.trimStart (String c1 r1)).
    { intros w r Heq Hw Ht Hr. destruct (IH r Hr) as ((b & Hb & Hs) & Hidem).
      apply isBlank_code in Hw as (cp & Hin & ->).
      rewrite Ht. split; [|exact Hidem].
      exists (utf8 cp ++ b). split; [constructor; assumption|].
      rewrite Heq, string_app_assoc, <- Hs. reflexivity. }
    assert (Hself : JS.trimStart (String c1 r1) = String c1 r1 ->
               (exists b, Blank b /\ String c1 r1 = b ++ JS.trimStart (String c1 r1))
               /\ JS.trimStart (JS.trimStart (String c1 r1)) = JS.trimStart (String c1 r1)).
    { intros Hs. rewrite !Hs. split; [|reflexivity].
      exists EmptyString. split; [constructor|reflexivity]. }
    destruct (JS.isWhiteSpace c1) eqn:E1.
    { apply (Hstep (String c1 EmptyString) r1); [reflexivity|exact E1| |lia].
      simpl. rewrite E1. reflexivity. }
    destruct r1 as [|c2 r2].
    { apply Hself. simpl. rewrite E1. reflexivity. }
    destruct (JS.isWhiteSpace2 c1 c2) eqn:E2.
    { apply (Hstep (String c1 (String c2 EmptyString)) r2); [reflexivity|exact E2| |simpl in Hlen; lia].
      simpl. rewrite E1, E2. reflexivity. }
    destruct r2 as [|c3 r3].
    { apply Hself. simpl. rewrite E1, E2. reflexivity. }
    destruct (JS.isWhiteSpace3 c1 c2 c3) eqn:E3.
    { apply (Hstep (String c1 (String c2 (String c3 EmptyString))) r3);
        [reflexivity|exact E3| |simpl in Hlen; lia].
      simpl. rewrite E1, E2, E3. reflexivity. }
    apply Hself. simpl. rewrite E1, E2, E3. reflexivity.
Qed.

Lemma trimStart_spec s : exists b, Blank b /\ s = b ++ JS.trimStart s.
Proof. apply (trimStart_spec_n (String.length s) s (le_n _)). Qed.

Lemma trimStart_idempotent s : JS.trimStart (JS.trimStart s) = JS.trimStart s.
Proof. apply (trimStart_spec_n (String.length s) s (le_n _)). Qed.

Lemma utf8_length cp : 1 <= String.length (utf8 cp).
Proof.
  unfold utf8. destruct (cp <? 128)%N; [simpl; lia|].
  destruct (cp <? 2048)%N; simpl; lia.
Qed.

Lemma trimStart_not_StartsBlank s : ~ StartsBlank (JS.trimStart s).
Proof.
  intros (cp & rest & Hin & Heq).
  assert (H := trimStart_idempotent s). rewrite Heq in H at 1.
  rewrite trimStart_utf8 in H by exact Hin. rewrite Heq in H.
  destruct (trimStart_spec rest) as (b & _ & Hb).
  apply (f_equal String.length) in Hb. rewrite H in Hb.
  rewrite !length_append in Hb. pose proof (utf8_length cp). lia.
Qed.

Lemma trimEnd_cons c r :
  JS.trimEnd (String c r)
  = if JS.isBlank (String c (JS.trimEnd r)) then EmptyString else String c (JS.trimEnd r).
Proof. reflexivity. Qed.

(** What [trimEnd] removes is white space. *)
Lemma trimEnd_spec s : exists tail, Blank tail /\ s = JS.trimEnd s ++ tail.
Proof.
  induction s as [|c r (tail & Htail & Hr)].
  - exists EmptyString. split; [constructor|reflexivity].
  - rewrite trimEnd_cons. destruct (JS.isBlank (String c (JS.trimEnd r))) eqn:E.
    + apply isBlank_code in E as (cp & Hin & Hcp).
      exists (utf8 cp ++ tail). split; [constructor; assumption|].
      rewrite <- Hcp. simpl. rewrite <- Hr. reflexivity.
    + exists tail. split; [exact Htail|]. simpl. rewrite <- Hr. reflexivity.
Qed.

(** What [trimEnd] leaves does not end with white space. *)
Lemma trimEnd_not_EndsBlank s : ~ EndsBlank (JS.trimEnd s).
Proof.
  induction s as [|c r IH]; intros (cp & before & Hin & Heq).
  - simpl in Heq. pose proof (utf8_length cp) as Hl.
    apply (f_equal String.length) in Heq. rewrite length_append in Heq. simpl in Heq. lia.
  - rewrite trimEnd_cons in Heq. destruct (JS.isBlank (String c (JS.trimEnd r))) eqn:E.
    + pose proof (utf8_length cp) as Hl.
      apply (f_equal String.length) in Heq. rewrite length_append in Heq. simpl in Heq. lia.
    + destruct before as [|x before]; simpl in Heq.
      * assert (Hb : JS.isBlank (String c (JS.trimEnd r)) = true)
          by (apply isBlank_code; exists cp; auto).
        rewrite Hb in E. discriminate E.
      * inversion Heq; subst x. apply IH. exists cp, before. auto.
Qed.

Lemma trim_Trimmed s : Trimmed s (JS.trim s).
Proof.
  unfold JS.trim.
  destruct (trimStart_spec s) as (b & Hb & Hs).
  destruct (trimEnd_spec (JS.trimStart s)) as (tail & Htail & Ht).
  split; [|split].
  - exists b, tail. split; [exact Hb|]. split; [exact Htail|].
    rewrite <- Ht. exact Hs.
  - intros (cp & rest & Hin & Heq).
    apply (trimStart_not_StartsBlank s). exists cp, (rest ++ tail). split; [exact Hin|].
    rewrite Ht, Heq, string_app_assoc. reflexivity.
  - apply trimEnd_not_EndsBlank.
Qed.

Lemma prefix_app p s : prefix p s = true <-> exists rest, s = p ++ rest.
Proof.
  revert s. induction p as [|a p IH]; intros s.
  - split; [intros _; exists s; reflexivity|]. intros _. destruct s; reflexivity.
  - destruct s as [|b s]; simpl.
    + split; [discriminate|]. intros (rest & H). discriminate H.
    + destruct (ascii_dec a b) as [->|Hne].
      * rewrite IH. split; intros (rest & H); exists rest.
        -- rewrite H. reflexivity.
        -- inversion H. reflexivity.
      * split; [discriminate|]. intros (rest & H). inversion H; subst. exfalso. apply Hne. reflexivity.
Qed.

(** A character of ASCII that is no white space starts no white space
    character, so [trimEnd] keeps it. *)
Lemma trimEnd_keeps c r :
  (nat_of_ascii c <? 128)%nat = true -> JS.isWhiteSpace c = false ->
  JS.trimEnd (String c r) = String c (JS.trimEnd r).
Proof.
  intros Hc Hw. rewrite trimEnd_cons.
  assert (Hb : JS.isBlank (String c (JS.trimEnd r)) = false).
  { apply Nat.ltb_lt in Hc.
    destruct (JS.trimEnd r) as [|c2 [|c3 [|c4 t]]]; simpl; try reflexivity.
    - exact Hw.
    - unfold JS.isWhiteSpace2.
      destruct (Nat.eqb_spec (nat_of_ascii c) 194); [lia|reflexivity].
    - unfold JS.isWhiteSpace3.
      destruct (Nat.eqb_spec (nat_of_ascii c) 225); [lia|].
      destruct (Nat.eqb_spec (nat_of_ascii c) 226); [lia|].
      destruct (Nat.eqb_spec (nat_of_ascii c) 227); [lia|].
      destruct (Nat.eqb_spec (nat_of_ascii c) 239); [lia|].
      reflexivity. }
  rewrite Hb. reflexivity.
Qed.

Lemma trim_directive word b rest :
  word = "@import" \/ word = "@use" ->
  Blank b -> JS.startsWith (JS.trim (b ++ word ++ rest)) word = true.
Proof.
  intros Hw Hb. unfold JS.trim, JS.startsWith. rewrite trimStart_Blank by exact Hb.
  destruct Hw as [-> | ->].
  - change (JS.trimStart ("@import" ++ rest)) with ("@import" ++ rest).
    simpl append. rewrite !trimEnd_keeps by reflexivity.
    apply prefix_app. exists (JS.trimEnd rest). reflexivity.
  - change (JS.trimStart ("@use" ++ rest)) with ("@use" ++ rest).
    simpl append. rewrite !trimEnd_keeps by reflexivity.
    apply prefix_app. exists (JS.trimEnd rest). reflexivity.
Qed.

Lemma startsWith_trim line word :
  JS.startsWith (JS.trim line) word = true ->
  exists blanks rest, Blank blanks /\ line = blanks ++ word ++ rest.
Proof.
  unfold JS.startsWith, JS.trim. intros H. apply prefix_app in H as (rest & Hrest).
  destruct (trimStart_spec line) as (b & Hb & Hs).
  destruct (trimEnd_spec (JS.trimStart line)) as (tail & _ & Ht).
  exists b, (rest ++ tail). split; [exact Hb|].
  rewrite Hs at 1. f_equal. rewrite Ht at 1. rewrite Hrest, string_app_assoc. reflexivity.
Qed.

(** [isImportOrUse] answers [true] on the directive lines and on no
    other line. *)
Lemma isImportOrUse_spec line : isImportOrUse line = true <-> DirectiveLine line.
Proof.
  unfold isImportOrUse, DirectiveLine. split.
  - intros H. apply orb_true_iff in H as [H|H];
      apply startsWith_trim in H as (b & rest & Hb & ->); exists b, rest; auto.
  - intros (b & rest & Hb & [-> | ->]); apply orb_true_iff.
    + left. apply trim_directive; auto.
    + right. apply trim_directive; auto.
Qed.

(** *** Lines *)

Lemma LinesOf_cons c s l ls :
  c <> "010"%char -> c <> "013"%char ->
  LinesOf s (l :: ls) -> LinesOf (String c s) (String c l :: ls).
Proof.
  intros Hlf Hcr H. inversion H; subst.
  - apply LinesOf_last. constructor; assumption.
  - apply (LinesOf_lf (String c l)); [constructor|]; assumption.
  - apply (LinesOf_crlf (String c l)); [constructor|]; assumption.
  - apply (LinesOf_cr (String c l)); [constructor| |]; assumption.
Qed.

(** [splitLines] cuts the text at its line terminators. *)
Lemma splitLines_LinesOf_n n : forall s,
  String.length s <= n -> LinesOf s (JS.splitLines s).
Proof.
  induction n as [|n IH]; intros s Hlen.
  - destruct s; [|simpl in Hlen; lia]. apply LinesOf_last. constructor.
  - destruct s as [|c r]; [apply LinesOf_last; constructor|].
    simpl in Hlen. simpl.
    destruct (Ascii.eqb_spec c "013") as [->|Hcr].
    + destruct r as [|c' r'].
      * apply (LinesOf_cr EmptyString EmptyString); [constructor| |].
        -- intros r H. discriminate H.
        -- apply LinesOf_last. constructor.
      * destruct (Ascii.eqb_spec c' "010") as [->|Hlf].
        -- apply (LinesOf_crlf EmptyString r'); [constructor|].
           apply IH. simpl in Hlen. lia.
        -- apply (LinesOf_cr EmptyString (String c' r')); [constructor| |].
           ++ intros r H. inversion H. contradiction.
           ++ apply IH. lia.
    + destruct (Ascii.eqb_spec c "010") as [->|Hlf].
      * apply (LinesOf_lf EmptyString r); [constructor|]. apply IH. lia.
      * assert (H := IH r ltac:(lia)).
        destruct (JS.splitLines r) as [|l ls]; [inversion H|].
        apply LinesOf_cons; assumption.
Qed.

Lemma splitLines_LinesOf s : LinesOf s (JS.splitLines s).
Proof. apply (splitLines_LinesOf_n (String.length s) s (le_n _)). Qed.

Lemma NoBreak_eqb c l :
  NoBreak (String c l) -> Ascii.eqb c "013" = false /\ Ascii.eqb c "010" = false.
Proof.
  intros H. inversion H; subst. split; apply Ascii.eqb_neq; assumption.
Qed.

Lemma splitLines_NoBreak l : NoBreak l -> JS.splitLines l = [l].
Proof.
  induction 1 as [|c l Hlf Hcr Hl IH]; [reflexivity|].
  simpl. apply Ascii.eqb_neq in Hlf. apply Ascii.eqb_neq in Hcr.
  rewrite Hcr, Hlf, IH. reflexivity.
Qed.

Lemma splitLines_line l tail rest :
  NoBreak l ->
  JS.splitLines (tail ++ rest) = EmptyString :: JS.splitLines rest ->
  JS.splitLines (l ++ tail ++ rest) = l :: JS.splitLines rest.
Proof.
  intros Hl Htail. induction Hl as [|c l Hlf Hcr Hl IH]; [exact Htail|].
  simpl. apply Ascii.eqb_neq in Hlf. apply Ascii.eqb_neq in Hcr.
  rewrite Hcr, Hlf, IH. reflexivity.
Qed.

(** A text has no other lines than those [splitLines] gives. *)
Lemma LinesOf_splitLines s ls : LinesOf s ls -> ls = JS.splitLines s.
Proof.
  induction 1 as [l Hl|l rest ls Hl Hrest IH|l rest ls Hl Hrest IH|l rest ls Hl Hno Hrest IH].
  - symmetry. apply splitLines_NoBreak, Hl.
  - rewrite IH. symmetry. apply splitLines_line; [exact Hl|reflexivity].
  - rewrite IH. symmetry. apply (splitLines_line l (CR ++ LF)); [exact Hl|reflexivity].
  - rewrite IH. symmetry. apply splitLines_line; [exact Hl|].
    destruct rest as [|c r]; [reflexivity|].
    simpl. destruct (Ascii.eqb_spec c "010") as [->|_]; [|reflexivity].
    exfalso. apply (Hno r). reflexivity.
Qed.

(** C4: the text assembled for postcss is the block of the directive
    lines, a line break, and the class rule around the other lines.  The
    lines are those of the body, cut at its line terminators; the
    directive lines are the lines that begin, after white space, with
    [@import] or [@use], and the two groups keep the order the lines have
    in the body; the block is the directive lines joined by line feeds,
    without the white space at its two ends; the class name is the prefix
    and the hash of the whole body, directive lines included. *)
Theorem C4_directives_before_rule_hash_of_whole_body :
  forall X body name,
  exists lines directives others block,
    LinesOf body lines
    /\ Interleave directives others lines
    /\ Forall DirectiveLine directives
    /\ Forall (fun line => ~ DirectiveLine line) others
    /\ Trimmed (JS.join LF directives) block
    /\ unprocessedCss X body name
       = block ++ LF
           ++ "." ++ (name ++ "-" ++ hash X body) ++ "{" ++ JS.join LF others ++ "}"
    /\ (forall isScss css cls,
          processCss X (VString body) name isScss = Ok (css, cls) ->
          cls = name ++ "-" ++ hash X body
          /\ postcssProcess X isScss (unprocessedCss X body name) = Ok css).
Proof.
  intros X body name.
  exists (JS.splitLines body), (filter isImportOrUse (JS.splitLines body)),
    (filter (fun line => negb (isImportOrUse line)) (JS.splitLines body)),
    (importsAndUses body).
  split; [apply splitLines_LinesOf|].
  split; [apply filter_Interleave|].
  split.
  { apply Forall_forall. intros l Hin. apply filter_In in Hin as (_ & Hl).
    apply isImportOrUse_spec. exact Hl. }
  split.
  { apply Forall_forall. intros l Hin. apply filter_In in Hin as (_ & Hl).
    intros Hd. apply isImportOrUse_spec in Hd. rewrite Hd in Hl. discriminate Hl. }
  split; [apply trim_Trimmed|].
  split; [reflexivity|].
  intros isScss css cls H. apply processCss_ok in H as (Hcss & ->).
  split; [reflexivity|exact Hcss].
Qed.

(** The directive lines of a body come out first, whatever their place. *)
Example unprocessedCss_interleaved :
  unprocessedCss Sample.X ("color:red;" ++ LF ++ "  @use 'x';" ++ CR ++ LF ++ "margin:0;"
                             ++ LF ++ "@import 'y';" ++ LF) "a"
  = "@use 'x';" ++ LF ++ "@import 'y';" ++ LF
      ++ ".a-colorredusexmarginimporty{color:red;" ++ LF ++ "margin:0;" ++ LF ++ "}".
Proof. vm_compute. reflexivity. Qed.

(** ** The program built for the evaluation ([evalWithEsbuild]) *)

Lemma fold_set_other k decls env :
  ~ In k (map fst decls) ->
  JsMap.get k (fold_left (fun e d => JsMap.set (fst d) (snd d) e) decls env)
  = JsMap.get k env.
Proof.
  revert env. induction decls as [|[k0 v0] r IH]; intros env Hnot; simpl in *.
  - reflexivity.
  - rewrite IH by tauto. apply get_set_other. intros ->. tauto.
Qed.

Lemma fold_set_last k v decls env :
  NoDup (map fst decls) ->
  JsMap.get k decls = Some v ->
  JsMap.get k (fold_left (fun e d => JsMap.set (fst d) (snd d) e) decls env) = Some v.
Proof.
  revert env. induction decls as [|[k0 v0] r IH]; intros env Hnd Hget; simpl in *.
  - discriminate Hget.
  - inversion Hnd as [|? ? Hnot Hnd']; subst.
    destruct (k0 =? k) eqn:E.
    + apply String.eqb_eq in E. subst k0. inversion Hget; subst v0.
      rewrite fold_set_other by exact Hnot. apply get_set_same.
    + apply IH; assumption.
Qed.

Lemma keys_set k v m :
  JsMap.keys (JsMap.set k v m)
  = if JsMap.has k m then JsMap.keys m else (JsMap.keys m ++ [k])%list.
Proof.
  unfold JsMap.keys, JsMap.has.
  induction m as [|[k0 v0] m IH]; simpl.
  - reflexivity.
  - destruct (k0 =? k) eqn:E; simpl.
    + apply String.eqb_eq in E. subst. reflexivity.
    + rewrite IH. destruct (JsMap.get k m); reflexivity.
Qed.

Lemma get_None_not_key k m : JsMap.get k m = None -> ~ In k (JsMap.keys m).
Proof.
  unfold JsMap.keys. induction m as [|[k0 v0] m IH]; simpl; intros H.
  - tauto.
  - destruct (k0 =? k) eqn:E; [discriminate H|].
    intros [->|Hin]; [rewrite String.eqb_refl in E; discriminate E|].
    exact (IH H Hin).
Qed.

(** A table built by [set] never holds a name twice. *)
Lemma set_NoDup k v m : NoDup (JsMap.keys m) -> NoDup (JsMap.keys (JsMap.set k v m)).
Proof.
  intros Hnd. rewrite keys_set. unfold JsMap.has.
  destruct (JsMap.get k m) eqn:E; [exact Hnd|].
  apply NoDup_app; [exact Hnd|constructor; [intros []|constructor]|].
  intros x Hx [<-|[]]. exact (get_None_not_key _ _ E Hx).
Qed.

Lemma processSite_NoDup X options code id scss node st o st' :
  NoDup (JsMap.keys (generatedClasses st)) ->
  processSite X options code id scss node st = (o, st') ->
  NoDup (JsMap.keys (generatedClasses st')).
Proof.
  intros Hnd. unfold processSite, bind.
  destruct (compileSite X options code id scss node st) as [[r|e] st1] eqn:Hc;
    apply compileSite_frame in Hc as (Hg & _ & _).
  - intros Hr. apply registerSite_effect in Hr as (Hg' & _ & _).
    rewrite Hg', Hg. destruct (originalNameOf node =? balloon); [exact Hnd|].
    apply set_NoDup, Hnd.
  - intros H. inversion H; subst. rewrite Hg. exact Hnd.
Qed.

(** The table of the loop never holds a name twice. *)
Lemma processSites_NoDup X options code id scss sites : forall st o st',
  NoDup (JsMap.keys (generatedClasses st)) ->
  processSites X options code id scss sites st = (o, st') ->
  NoDup (JsMap.keys (generatedClasses st')).
Proof.
  induction sites as [|n sites IH]; intros st o st' Hnd Hrun; simpl in Hrun.
  - inversion Hrun; subst. exact Hnd.
  - unfold bind in Hrun.
    destruct (processSite X options code id scss n st) as [[[]|e] st1] eqn:Hp.
    + apply (IH st1 o st'); [|exact Hrun].
      exact (processSite_NoDup _ _ _ _ _ _ _ _ _ Hnd Hp).
    + inversion Hrun; subst. exact (processSite_NoDup _ _ _ _ _ _ _ _ _ Hnd Hp).
Qed.

(** *** Reading back the script of an evaluation *)

Lemma after_app p r : Script.after p (p ++ r) = Some r.
Proof.
  induction p as [|a p IH]; simpl; [reflexivity|].
  rewrite Ascii.eqb_refl. exact IH.
Qed.

Lemma skipBlanks_app b s :
  Script.allChars JS.isWhiteSpace b = true ->
  Script.skipBlanks (b ++ s) = Script.skipBlanks s.
Proof.
  induction b as [|c b IH]; simpl; [reflexivity|].
  intros H. apply andb_true_iff in H as (Hc & Hb). rewrite Hc. apply IH, Hb.
Qed.

Lemma readName_app name : forall rest,
  Script.allChars Script.isNameChar name = true ->
  match rest with
  | String c _ => Script.isNameChar c = false
  | EmptyString => True
  end ->
  Script.readName (name ++ rest) = (name, rest).
Proof.
  induction name as [|c name IH]; intros rest Hname Hrest; simpl in *.
  - destruct rest as [|c r]; [reflexivity|]. simpl. rewrite Hrest. reflexivity.
  - apply andb_true_iff in Hname as (Hc & Hname). rewrite Hc.
    rewrite (IH rest Hname Hrest). reflexivity.
Qed.

Lemma isTextChar_quote c : Script.isTextChar c = true -> Ascii.eqb c "'" = false.
Proof.
  unfold Script.isTextChar. intros H. apply Ascii.eqb_neq. intros ->. discriminate H.
Qed.

Lemma readText_app text : forall rest,
  Script.allChars Script.isTextChar text = true ->
  Script.readText (text ++ "'" ++ rest) = Some (text, rest).
Proof.
  induction text as [|c text IH]; intros rest Htext; simpl in *; [reflexivity|].
  apply andb_true_iff in Htext as (Hc & Htext).
  rewrite (isTextChar_quote _ Hc), Hc, (IH rest Htext). reflexivity.
Qed.

Lemma isNameChar_brace c : Script.isNameChar c = true -> Ascii.eqb c "}" = false.
Proof.
  intros H. apply Ascii.eqb_neq. intros ->. discriminate H.
Qed.

Lemma readHole_app name : forall acc rest,
  Script.allChars Script.isNameChar name = true ->
  Script.readHole (name ++ "}" ++ rest) acc
  = if Script.isIdentifier (acc ++ name) then
      match Script.readTemplate rest with
      | Some (parts, rest') => Some (Script.Hole (acc ++ name) :: parts, rest')
      | None => None
      end
    else None.
Proof.
  induction name as [|c name IH]; intros acc rest Hname.
  - rewrite string_app_nil_r. reflexivity.
  - simpl in Hname. apply andb_true_iff in Hname as (Hc & Hname).
    change (Script.readHole (String c name ++ "}" ++ rest) acc)
      with (if Ascii.eqb c "}" then
              if Script.isIdentifier acc then
                match Script.readTemplate (name ++ "}" ++ rest) with
                | Some (parts, rest') => Some (Script.Hole acc :: parts, rest')
                | None => None
                end
              else None
            else if Script.isNameChar c
                 then Script.readHole (name ++ "}" ++ rest) (acc ++ String c EmptyString)
                 else None).
    rewrite (isNameChar_brace _ Hc), Hc, (IH _ rest Hname), string_app_assoc. reflexivity.
Qed.

Lemma isIdentifier_chars name :
  Script.isIdentifier name = true -> Script.allChars Script.isNameChar name = true.
Proof.
  unfold Script.isIdentifier. destruct name as [|c r]; [discriminate|].
  intros H. apply andb_true_iff in H as (H & _). apply andb_true_iff in H as (_ & H).
  exact H.
Qed.

Lemma isTemplateChar_plain c :
  Script.isTemplateChar c = true -> Ascii.eqb c "`" = false /\ Ascii.eqb c "$" = false.
Proof.
  intros H. split; apply Ascii.eqb_neq; intros ->; discriminate H.
Qed.

Lemma readTemplate_app parts : forall rest,
  Forall (fun p => Script.plainPart p = true) parts ->
  Script.readTemplate (Script.template parts ++ "`" ++ rest) = Some (parts, rest).
Proof.
  induction parts as [|p parts IH]; intros rest Hall; [reflexivity|].
  inversion Hall as [|? ? Hp Hparts]; subst.
  destruct p as [c|name]; simpl in Hp.
  - destruct (isTemplateChar_plain _ Hp) as (Hb & Hd).
    change (Script.readTemplate (Script.template (Script.Chars c :: parts) ++ "`" ++ rest))
      with (if Ascii.eqb c "`" then Some ([], Script.template parts ++ "`" ++ rest)
            else if Ascii.eqb c "$" then
              match Script.template parts ++ "`" ++ rest with
              | String c' r' =>
                  if Ascii.eqb c' "{" then Script.readHole r' EmptyString else None
              | EmptyString => None
              end
            else if Script.isTemplateChar c then
              match Script.readTemplate (Script.template parts ++ "`" ++ rest) with
              | Some (ps, rest') => Some (Script.Chars c :: ps, rest')
              | None => None
              end
            else None).
    rewrite Hb, Hd, Hp, (IH rest Hparts). reflexivity.
  - change (Script.readTemplate (Script.template (Script.Hole name :: parts) ++ "`" ++ rest))
      with (Script.readHole ((name ++ "}" ++ Script.template parts) ++ "`" ++ rest)
              EmptyString).
    rewrite !string_app_assoc.
    change ("}" ++ Script.template parts ++ "`" ++ rest)
      with ("}" ++ (Script.template parts ++ "`" ++ rest)).
    rewrite readHole_app by (apply isIdentifier_chars; exact Hp).
    change (EmptyString ++ name) with name. rewrite Hp, (IH rest Hparts). reflexivity.
Qed.

Lemma readDeclaration_app d rest :
  Script.plain d = true ->
  Script.readDeclaration (fst d ++ " = '" ++ snd d ++ "';" ++ rest)
  = Some (fst d, snd d, rest).
Proof.
  destruct d as [name text]. unfold Script.plain, Script.readDeclaration.
  simpl fst. simpl snd. intros Hd. apply andb_true_iff in Hd as (Hname & Htext).
  rewrite (readName_app name (" = '" ++ text ++ "';" ++ rest)
             (isIdentifier_chars _ Hname) eq_refl).
  rewrite Hname, after_app.
  change (text ++ "';" ++ rest) with (text ++ "'" ++ (";" ++ rest)).
  rewrite (readText_app text _ Htext), after_app. reflexivity.
Qed.

Lemma read_S fuel s :
  Script.read (S fuel) s
  = match Script.after "var " (Script.skipBlanks s) with
    | Some r =>
        match Script.readDeclaration r with
        | Some (name, text, rest) =>
            match Script.read fuel rest with
            | Some p =>
                Some {| Script.declarations := (name, text) :: Script.declarations p;
                        Script.lexical := Script.lexical p;
                        Script.exported := Script.exported p |}
            | None => None
            end
        | None => None
        end
    | None =>
        match Script.afterLexical (Script.skipBlanks s) with
        | Some r =>
            match Script.readDeclaration r with
            | Some (name, text, rest) =>
                if name =? "module" then None
                else
                  match Script.read fuel rest with
                  | Some p =>
                      Some {| Script.declarations := Script.declarations p;
                              Script.lexical := (name, text) :: Script.lexical p;
                              Script.exported := Script.exported p |}
                  | None => None
                  end
            | None => None
            end
        | None =>
            match Script.readExport (Script.skipBlanks s) with
            | Some parts =>
                Some {| Script.declarations := []; Script.lexical := [];
                        Script.exported := parts |}
            | None => None
            end
        end
    end.
Proof. reflexivity. Qed.

Lemma read_skip fuel b s :
  Script.allChars JS.isWhiteSpace b = true ->
  Script.read fuel (b ++ s) = Script.read fuel s.
Proof.
  intros Hb. destruct fuel as [|fuel]; [reflexivity|].
  rewrite !read_S, (skipBlanks_app _ _ Hb). reflexivity.
Qed.

Lemma read_statement fuel d rest p :
  Script.plain d = true ->
  Script.read fuel rest = Some p ->
  Script.read (S fuel) (Script.statement d ++ rest)
  = Some {| Script.declarations := d :: Script.declarations p;
            Script.lexical := Script.lexical p;
            Script.exported := Script.exported p |}.
Proof.
  intros Hd Hrest. unfold Script.statement. rewrite !string_app_assoc, read_S.
  change (Script.skipBlanks ("var " ++ fst d ++ " = '" ++ snd d ++ "';" ++ rest))
    with ("var " ++ fst d ++ " = '" ++ snd d ++ "';" ++ rest).
  rewrite after_app, (readDeclaration_app d rest Hd), Hrest.
  destruct d; reflexivity.
Qed.

Lemma source_cons d ds :
  Script.source (d :: ds)
  = Script.statement d ++ (match ds with [] => EmptyString | _ => LF end) ++ Script.source ds.
Proof.
  unfold Script.source. destruct ds as [|d' ds]; simpl map.
  - simpl. rewrite string_app_nil_r. reflexivity.
  - reflexivity.
Qed.

(** A run of statements is read statement by statement. *)
Lemma read_source decls : forall fuel before rest p,
  Script.allChars JS.isWhiteSpace before = true ->
  Forall (fun d => Script.plain d = true) decls ->
  Script.read (S fuel) rest = Some p ->
  Script.read (List.length decls + S fuel) (before ++ Script.source decls ++ rest)
  = Some {| Script.declarations := decls ++ Script.declarations p;
            Script.lexical := Script.lexical p;
            Script.exported := Script.exported p |}.
Proof.
  induction decls as [|d ds IH]; intros fuel before rest p Hb Hall Hrest.
  - rewrite read_skip by exact Hb.
    change (Script.read (S fuel) rest
            = Some {| Script.declarations := Script.declarations p;
                      Script.lexical := Script.lexical p;
                      Script.exported := Script.exported p |}).
    rewrite Hrest. destruct p; reflexivity.
  - inversion Hall as [|? ? Hd Hds]; subst.
    rewrite read_skip by exact Hb. rewrite source_cons, !string_app_assoc.
    change (List.length (d :: ds) + S fuel) with (S (List.length ds + S fuel)).
    rewrite (read_statement _ d _ _ Hd (IH fuel (match ds with [] => EmptyString | _ => LF end) rest p
                  ltac:(destruct ds; reflexivity) Hds Hrest)).
    reflexivity.
Qed.

Lemma readExport_app parts :
  Forall (fun p => Script.plainPart p = true) parts ->
  Script.readExport ("module.exports = (" ++ Script.expression parts ++ ");") = Some parts.
Proof.
  intros Hall. unfold Script.readExport, Script.expression. rewrite !string_app_assoc.
  change (Script.after "module.exports = (`"
            ("module.exports = (" ++ "`" ++ Script.template parts ++ "`" ++ ");"))
    with (Some (Script.template parts ++ "`" ++ ");")).
  lazy beta iota. rewrite (readTemplate_app parts _ Hall). reflexivity.
Qed.

Lemma read_export fuel parts :
  Forall (fun p => Script.plainPart p = true) parts ->
  Script.read (S fuel) ("module.exports = (" ++ Script.expression parts ++ ");")
  = Some {| Script.declarations := []; Script.lexical := []; Script.exported := parts |}.
Proof.
  intros Hall.
  change (Script.read (S fuel) ("module.exports = (" ++ Script.expression parts ++ ");"))
    with (match Script.readExport ("module.exports = (" ++ Script.expression parts ++ ");") with
          | Some ps =>
              Some {| Script.declarations := []; Script.lexical := [];
                      Script.exported := ps |}
          | None => None
          end).
  rewrite (readExport_app parts Hall). reflexivity.
Qed.

(** More fuel reads the same script. *)
Lemma read_more fuel : forall s p fuel',
  Script.read fuel s = Some p -> fuel <= fuel' -> Script.read fuel' s = Some p.
Proof.
  induction fuel as [|fuel IH]; intros s p fuel' H Hle; [discriminate H|].
  destruct fuel' as [|fuel']; [lia|].
  rewrite read_S in *.
  destruct (Script.after "var " (Script.skipBlanks s)) as [r|].
  - destruct (Script.readDeclaration r) as [[[name text] rest]|]; [|exact H].
    destruct (Script.read fuel rest) as [q|] eqn:E; [|discriminate H].
    rewrite (IH _ _ fuel' E ltac:(lia)). exact H.
  - destruct (Script.afterLexical (Script.skipBlanks s)) as [r|]; [|exact H].
    destruct (Script.readDeclaration r) as [[[name text] rest]|]; [|exact H].
    destruct (name =? "module"); [exact H|].
    destruct (Script.read fuel rest) as [q|] eqn:E; [|discriminate H].
    rewrite (IH _ _ fuel' E ltac:(lia)). exact H.
Qed.

Lemma length_statement d : 1 <= String.length (Script.statement d).
Proof. unfold Script.statement. simpl. lia. Qed.

Lemma length_source decls : List.length decls <= String.length (Script.source decls).
Proof.
  induction decls as [|d ds IH]; [simpl; lia|].
  rewrite source_cons, !length_append. pose proof (length_statement d). simpl List.length. lia.
Qed.

(** The script [evalWithEsbuild] writes from an outer source that is a
    run of [var] statements is read back as those statements, the
    declarations of the table after them, and the exported template. *)
Lemma parse_syntheticProgram outer table parts :
  Forall (fun d => Script.plain d = true) outer ->
  Forall (fun d => Script.plain d = true) (JsMap.entries table) ->
  Forall (fun p => Script.plainPart p = true) parts ->
  Script.parse (syntheticProgram (Script.expression parts) (Script.source outer) table)
  = Some {| Script.declarations := outer ++ JsMap.entries table;
            Script.lexical := [];
            Script.exported := parts |}.
Proof.
  intros Houter Htable Hparts.
  unfold Script.parse, syntheticProgram, generatedClassesDecls.
  change (map varDecl (JsMap.entries table)) with (map Script.statement (JsMap.entries table)).
  fold (Script.source (JsMap.entries table)).
  set (export := "module.exports = (" ++ Script.expression parts ++ ");").
  set (sep := LF ++ LF ++ TAB ++ TAB).
  assert (Hsep : Script.allChars JS.isWhiteSpace sep = true) by reflexivity.
  assert (Hrun :
            Script.read (List.length outer + S (List.length (JsMap.entries table) + 1))
              (Script.source outer ++ sep ++ Script.source (JsMap.entries table) ++ sep ++ export)
            = Some {| Script.declarations := outer ++ JsMap.entries table;
                      Script.lexical := [];
                      Script.exported := parts |}).
  { assert (Hinner :
              Script.read (S (List.length (JsMap.entries table) + 1))
                (sep ++ Script.source (JsMap.entries table) ++ sep ++ export)
              = Some {| Script.declarations := JsMap.entries table;
                        Script.lexical := [];
                        Script.exported := parts |}).
    { replace (S (List.length (JsMap.entries table) + 1))
        with (List.length (JsMap.entries table) + 2) by lia.
      rewrite (read_source (JsMap.entries table) 1 sep (sep ++ export)
                 {| Script.declarations := []; Script.lexical := [];
                    Script.exported := parts |} Hsep Htable).
      - simpl Script.declarations. rewrite app_nil_r. reflexivity.
      - rewrite read_skip by exact Hsep. apply read_export, Hparts. }
    exact (read_source outer _ EmptyString _ _ eq_refl Houter Hinner). }
  apply (read_more _ _ _ _ Hrun).
  change (LF ++ LF ++ TAB ++ TAB ++ Script.source (JsMap.entries table)
            ++ LF ++ LF ++ TAB ++ TAB ++ export)
    with (sep ++ Script.source (JsMap.entries table) ++ sep ++ export).
  rewrite !length_append.
  pose proof (length_source outer). pose proof (length_source (JsMap.entries table)).
  change (String.length sep) with 4. lia.
Qed.

Lemma not_rebound names :
  ~ In "module" names -> existsb (String.eqb "module") names = false.
Proof.
  intros H. destruct (existsb (String.eqb "module") names) eqn:E; [|reflexivity].
  apply existsb_exists in E as (x & Hin & Heq). apply String.eqb_eq in Heq. subst x.
  contradiction.
Qed.

Lemma get_Some_key k v m : JsMap.get k m = Some v -> In k (JsMap.keys m).
Proof.
  unfold JsMap.keys. induction m as [|[k0 v0] m IH]; simpl; intros H; [discriminate H|].
  destruct (k0 =? k) eqn:E.
  - left. apply String.eqb_eq. exact E.
  - right. apply IH, H.
Qed.

Lemma key_get_Some k m : In k (JsMap.keys m) -> exists v, JsMap.get k m = Some v.
Proof.
  unfold JsMap.keys. induction m as [|[k0 v0] m IH]; simpl; intros H; [contradiction|].
  destruct (k0 =? k) eqn:E; [eexists; reflexivity|].
  destruct H as [H|H]; [|exact (IH H)].
  apply String.eqb_neq in E. contradiction.
Qed.

Lemma get_app k m1 m2 :
  JsMap.get k (m1 ++ m2)%list
  = match JsMap.get k m1 with Some v => Some v | None => JsMap.get k m2 end.
Proof.
  induction m1 as [|[k0 v0] m1 IH]; simpl; [reflexivity|].
  destruct (k0 =? k); [reflexivity|exact IH].
Qed.

(** After a run of assignments a name holds what its last assignment
    gave it, or what it held before. *)
Lemma get_fold_set k decls : forall env,
  JsMap.get k (fold_left (fun e d => JsMap.set (fst d) (snd d) e) decls env)
  = match lastDeclared k decls with Some v => Some v | None => JsMap.get k env end.
Proof.
  unfold lastDeclared.
  induction decls as [|[k0 v0] r IH]; intros env; simpl; [reflexivity|].
  rewrite IH, get_app. destruct (JsMap.get k (rev r)) as [v|]; [reflexivity|].
  simpl. destruct (k0 =? k) eqn:E.
  - apply String.eqb_eq in E. subst k0. apply get_set_same.
  - apply get_set_other. intros ->. rewrite String.eqb_refl in E. discriminate E.
Qed.

Lemma lastDeclared_key k decls :
  In k (map fst decls) -> exists v, lastDeclared k decls = Some v.
Proof.
  intros H. apply (key_get_Some k (rev decls)).
  unfold JsMap.keys. rewrite map_rev. apply in_rev. rewrite rev_involutive. exact H.
Qed.

(** The environment of the script gives every declared name the text
    that [precedence] gives it. *)
Lemma get_precedence outer table name :
  NoDup (JsMap.keys table) ->
  In name (map fst outer) \/ In name (JsMap.keys table) ->
  exists v,
    precedence outer table name = Some v
    /\ JsMap.get name
         (fold_left (fun e d => JsMap.set (fst d) (snd d) e)
            (outer ++ JsMap.entries table) table)
       = Some v.
Proof.
  intros Hnd Hin. unfold precedence. rewrite fold_left_app.
  destruct (JsMap.get name table) as [v|] eqn:Eget.
  - exists v. split; [reflexivity|]. apply fold_set_last; assumption.
  - destruct Hin as [Hin|Hin].
    + destruct (lastDeclared_key _ _ Hin) as (v & Hv). exists v. split; [exact Hv|].
      rewrite fold_set_other by (exact (get_None_not_key _ _ Eget)).
      rewrite get_fold_set, Hv. reflexivity.
    + destruct (key_get_Some _ _ Hin) as (v & Hv). rewrite Hv in Eget. discriminate Eget.
Qed.

(** The value of the template in an environment that gives every name it
    reads the text that [read] gives. *)
Lemma value_fill read env parts :
  (forall name, In (Script.Hole name) parts ->
                name <> "module"
                /\ exists v, read name = Some v /\ JsMap.get name env = Some v) ->
  Script.value env false parts = Ok (Script.fill read parts).
Proof.
  induction parts as [|p parts IH]; intros Hholes; [reflexivity|].
  assert (Hrest : Script.value env false parts = Ok (Script.fill read parts)).
  { apply IH. intros name Hin. apply Hholes. right. exact Hin. }
  destruct p as [c|name]; simpl.
  - rewrite Hrest. reflexivity.
  - destruct (Hholes name (or_introl eq_refl)) as (Hne & v & Hread & Hv).
    apply String.eqb_neq in Hne. rewrite Hne. simpl. rewrite Hv, Hread, Hrest. reflexivity.
Qed.

(** The stand-in of the examples treats the scripts as [Script.Runs]
    asks. *)
Lemma node_Runs : Script.Runs Sample.node.
Proof.
  intros program p Hp. simpl. unfold Script.transform. rewrite Hp.
  destruct (Script.clash p) as [name|] eqn:Eclash.
  - eexists. reflexivity.
  - exists program. split; [reflexivity|].
    intros _ _ filename scope _. unfold Script.eval. rewrite Hp, Eclash. reflexivity.
Qed.




(** Without the declarations of the table the same script reads the outer
    binding: it is their place after the outer source that decides. *)
Example outer_binding_alone :
  evalWithEsbuild Sample.node "`${box} span`" "var box = '🎈';" []
  = Ok (VString "🎈 span").
Proof. vm_compute. reflexivity. Qed.

(** ** The table of generated classes along the loop *)

Lemma processSite_table X options code id scss node st st' :
  processSite X options code id scss node st = (Ok tt, st') ->
  exists r st1,
    compileSite X options code id scss node st = (Ok r, st1)
    /\ generatedClasses st'
       = (if originalNameOf node =? balloon then generatedClasses st
          else JsMap.set (originalNameOf node) (selectorReference (snd r))
                 (generatedClasses st)).
Proof.
  intros Hp. apply processSite_ok_inv in Hp as (r & st1 & Hc & Hr).
  exists r, st1. split; [exact Hc|].
  apply registerSite_effect in Hr as (Hg & _ & _).
  apply compileSite_frame in Hc as (Hg1 & _ & _).
  rewrite Hg, Hg1. reflexivity.
Qed.

(** Sites that do not declare [k] leave its binding as it is. *)
Lemma processSites_keeps X options code id scss k l st st' :
  processSites X options code id scss l st = (Ok tt, st') ->
  (forall later, In later l -> ~ declares later k) ->
  JsMap.get k (generatedClasses st') = JsMap.get k (generatedClasses st).
Proof.
  revert st. induction l as [|n l IH]; intros st Hrun Hnone; simpl in Hrun.
  - inversion Hrun. reflexivity.
  - unfold bind in Hrun.
    destruct (processSite X options code id scss n st) as [[[]|e] st1] eqn:Hp;
      [|discriminate Hrun].
    rewrite (IH st1 Hrun) by (intros later Hin; apply Hnone; right; exact Hin).
    apply processSite_table in Hp as (r & st2 & _ & Hg). rewrite Hg.
    destruct (originalNameOf n =? balloon) eqn:E; [reflexivity|].
    apply get_set_other. intros Hk.
    apply (Hnone n (or_introl eq_refl)). split; [symmetry; exact Hk|].
    intros Hb. subst k. rewrite Hb, String.eqb_refl in E. discriminate E.
Qed.

(** A run over [l1 ++ l2] that ends well went through the end of [l1]. *)
Lemma processSites_app_ok X options code id scss l1 l2 st st' :
  processSites X options code id scss (l1 ++ l2) st = (Ok tt, st') ->
  exists st1,
    processSites X options code id scss l1 st = (Ok tt, st1)
    /\ processSites X options code id scss l2 st1 = (Ok tt, st').
Proof.
  rewrite processSites_app.
  destruct (processSites X options code id scss l1 st) as [[[]|e] st1]; intros H.
  - exists st1. auto.
  - discriminate H.
Qed.

Lemma processSites_single X options code id scss node st st' :
  processSites X options code id scss [node] st = (Ok tt, st') ->
  processSite X options code id scss node st = (Ok tt, st').
Proof.
  simpl. unfold bind, ret.
  destruct (processSite X options code id scss node st) as [[[]|e] st1]; intros H;
    inversion H; subst; reflexivity.
Qed.

(** Every entry of the table was registered by an earlier site. *)
Lemma table_entry_origin X options code id scss st0 pre : forall st k v,
  processSites X options code id scss pre st0 = (Ok tt, st) ->
  JsMap.get k (generatedClasses st) = Some v ->
  JsMap.get k (generatedClasses st0) = Some v
  /\ (forall n, In n pre -> ~ declares n k)
  \/ exists p1 node p2 sta r stb,
       pre = (p1 ++ node :: p2)%list
       /\ processSites X options code id scss p1 st0 = (Ok tt, sta)
       /\ compileSite X options code id scss node sta = (Ok r, stb)
       /\ declares node k
       /\ v = selectorReference (snd r)
       /\ (forall later, In later p2 -> ~ declares later k).
Proof.
  induction pre as [|n q IH] using rev_ind; intros st k v Hrun Hget.
  - simpl in Hrun. inversion Hrun; subst. left. split; [exact Hget|]. intros n [].
  - apply processSites_app_ok in Hrun as (stq & Hq & Hn).
    apply processSites_single in Hn.
    destruct (processSite_table _ _ _ _ _ _ _ _ Hn) as (r & stb & Hc & Hg).
    rewrite Hg in Hget.
    destruct (originalNameOf n =? balloon) eqn:Eb.
    + (* an anonymous site: the table is that of the sites before it *)
      assert (Hn_no : ~ declares n k).
      { intros [Hk Hkb]. apply Hkb. rewrite <- Hk. apply String.eqb_eq. exact Eb. }
      destruct (IH stq k v Hq Hget) as [[H0 Hnone]|(p1 & m & p2 & sta & r' & stb' & He & Hp1 & Hc' & Hd & Hv & Hl)].
      * left. split; [exact H0|]. intros x Hin. apply in_app_or in Hin.
        destruct Hin as [Hin|[<-|[]]]; [apply Hnone; exact Hin|exact Hn_no].
      * right. exists p1, m, (p2 ++ [n])%list, sta, r', stb'.
        repeat split; try assumption.
        -- rewrite He, <- app_assoc. reflexivity.
        -- apply Hd.
        -- apply Hd.
        -- intros later Hin. apply in_app_or in Hin.
           destruct Hin as [Hin|[<-|[]]]; [apply Hl; exact Hin|exact Hn_no].
    + destruct (String.eqb_spec (originalNameOf n) k) as [Hk|Hk].
      * (* the site just processed declares [k] *)
        subst k. rewrite get_set_same in Hget. inversion Hget; subst v.
        right. exists q, n, [], stq, r, stb. repeat split; try assumption.
        -- intros Hb. rewrite Hb, String.eqb_refl in Eb. discriminate Eb.
        -- intros later [].
      * rewrite get_set_other in Hget by (intros ->; apply Hk; reflexivity).
        assert (Hn_no : ~ declares n k) by (intros [Hk' _]; contradiction).
        destruct (IH stq k v Hq Hget) as [[H0 Hnone]|(p1 & m & p2 & sta & r' & stb' & He & Hp1 & Hc' & Hd & Hv & Hl)].
        -- left. split; [exact H0|]. intros x Hin. apply in_app_or in Hin.
           destruct Hin as [Hin|[<-|[]]]; [apply Hnone; exact Hin|exact Hn_no].
        -- right. exists p1, m, (p2 ++ [n])%list, sta, r', stb'.
           repeat split; try assumption.
           ++ rewrite He, <- app_assoc. reflexivity.
           ++ apply Hd.
           ++ apply Hd.
           ++ intros later Hin. apply in_app_or in Hin.
              destruct Hin as [Hin|[<-|[]]]; [apply Hl; exact Hin|exact Hn_no].
Qed.

(** The registry is written, never read: a run from another registry
    takes the same turns and builds the same table. *)
Lemma compileSite_registry X options code id scss node st o st' c :
  compileSite X options code id scss node st = (o, st') ->
  compileSite X options code id scss node (setCssList c st) = (o, setCssList c st').
Proof.
  destruct st as [iv gc mc cl].
  unfold compileSite, bind, populateInlinedVars, templateContentsOf, lift,
    setCssList, setInlinedVars.
  cbn [inlinedVars generatedClasses magicCode cssList].
  destruct (hasExpressions node && s_resolveImports (settings options) && (iv =? EmptyString)).
  - destruct (inlineImportsUsingEsbuild X id (s_resolvePackages (settings options)));
      cbn [inlinedVars generatedClasses magicCode cssList].
    + destruct (s_evaluateExpressions (settings options) && hasExpressions node).
      * destruct (processTemplateLiteral _ _ _ _);
          intros H; inversion H; subst; reflexivity.
      * intros H; inversion H; subst; reflexivity.
    + intros H; inversion H; subst; reflexivity.
  - destruct (s_evaluateExpressions (settings options) && hasExpressions node).
    + destruct (processTemplateLiteral _ _ _ _);
        intros H; inversion H; subst; reflexivity.
    + intros H; inversion H; subst; reflexivity.
Qed.

Lemma registerSite_registry X id scss node r st o st' c :
  registerSite X id scss node r st = (o, st') ->
  exists c', registerSite X id scss node r (setCssList c st) = (o, setCssList c' st').
Proof.
  destruct st as [iv gc mc cl].
  unfold registerSite, bind, modify, ret, updateMagic, setCssList, setGeneratedClasses,
    setMagicCode; simpl.
  destruct (originalNameOf node =? balloon); simpl;
    match goal with
    | |- context [MagicString.update ?a ?b ?c ?m] => destruct (MagicString.update a b c m)
    end; simpl; intros H; inversion H; subst; eexists; reflexivity.
Qed.

Lemma processSite_registry X options code id scss node st o st' c :
  processSite X options code id scss node st = (o, st') ->
  exists c', processSite X options code id scss node (setCssList c st)
             = (o, setCssList c' st').
Proof.
  unfold processSite, bind.
  destruct (compileSite X options code id scss node st) as [[r|e] st1] eqn:Hc;
    rewrite (compileSite_registry _ _ _ _ _ _ _ _ _ c Hc).
  - apply registerSite_registry.
  - intros H; inversion H; subst. exists c. reflexivity.
Qed.

Lemma processSites_registry X options code id scss l : forall st o st' c,
  processSites X options code id scss l st = (o, st') ->
  exists c', processSites X options code id scss l (setCssList c st)
             = (o, setCssList c' st').
Proof.
  induction l as [|n l IH]; intros st o st' c Hrun; simpl in *.
  - inversion Hrun; subst. exists c. reflexivity.
  - unfold bind in *.
    destruct (processSite X options code id scss n st) as [[[]|e] st1] eqn:Hp.
    + destruct (processSite_registry _ _ _ _ _ _ _ _ _ c Hp) as (c1 & ->).
      apply IH. exact Hrun.
    + destruct (processSite_registry _ _ _ _ _ _ _ _ _ c Hp) as (c1 & ->).
      inversion Hrun; subst. exists c1. reflexivity.
Qed.

Lemma populateInlinedVars_frame X options id node st o st' :
  populateInlinedVars X options id node st = (o, st') ->
  generatedClasses st' = generatedClasses st.
Proof.
  unfold populateInlinedVars.
  destruct (hasExpressions node && s_resolveImports (settings options)
            && (inlinedVars st =? EmptyString)).
  - destruct (inlineImportsUsingEsbuild X id (s_resolvePackages (settings options)));
      intros H; inversion H; subst; reflexivity.
  - intros H; inversion H; subst; reflexivity.
Qed.

(** ** An evaluation that does not give a string *)

(** The turn of a site whose evaluation gives something else than a
    string throws the [TypeError] of [.split], with the registry as the
    earlier turns left it. *)
Lemma processSite_not_string X options code id scss node st st1 v :
  populateInlinedVars X options id node st = (Ok tt, st1) ->
  s_evaluateExpressions (settings options) = true ->
  hasExpressions node = true ->
  evalWithEsbuild X (rawTemplateOf code node) (inlinedVars st1) (generatedClasses st1) = Ok v ->
  isString v = false ->
  processSite X options code id scss node st = (Throw (splitTypeError v), st1).
Proof.
  intros Hpop Hev Hex Heval Hv.
  unfold processSite, compileSite, bind. rewrite Hpop.
  unfold templateContentsOf. rewrite Hev, Hex. simpl.
  unfold processTemplateLiteral. rewrite Heval. unfold lift.
  rewrite (processCss_not_string _ _ _ _ Hv). reflexivity.
Qed.

(** C6, as stated, fails in its last part.  In the file
    [const module = css`color:red;`; const outer = css`${module} span{}`;]
    the script written for the second template declares
    [var module = ':where(.module-colorred)';]: the assignment to
    [module.exports] is made on that text and is lost, and the host hands
    back the [exports] of a text, which is [undefined].  The transform
    throws the [TypeError] of [undefined.split], and the message of the
    error holds neither the text of the template nor the expression
    [module]. *)
Lemma C6_error_does_not_carry_the_expression :
  rawTemplateOf Sample.moduleCode Sample.moduleOuterSite = "`${module} span{}`"
  /\ syntheticProgram "`${module} span{}`" EmptyString [("module", ":where(.module-colorred)")]
     = LF ++ LF ++ TAB ++ TAB ++ "var module = ':where(.module-colorred)';"
         ++ LF ++ LF ++ TAB ++ TAB ++ "module.exports = (`${module} span{}`);"
  /\ evalWithEsbuild Sample.node "`${module} span{}`" EmptyString
       [("module", ":where(.module-colorred)")]
     = Ok VUndefined
  /\ transform Sample.node noOptions [] Sample.moduleCode "/src/app.ts" Sample.moduleAst
     = (Throw (TypeError "Cannot read properties of undefined (reading 'split')"),
        [("/src/module-colorred.acab.css", LF ++ ".module-colorred{color:red}")])
  /\ JS.includes "Cannot read properties of undefined (reading 'split')"
       "`${module} span{}`" = false
  /\ JS.includes "Cannot read properties of undefined (reading 'split')" "module" = false.
Proof.
  repeat split; vm_compute; reflexivity.
Qed.

(** C6, amended: when the evaluation of a site gives a value that is not
    a string, the transform of the file throws and hands back no rewritten
    code.  The error is the [TypeError] raised by [.split] on that value:
    it is fixed by the value alone.  The registry keeps what the sites
    before the failing one have put in it. *)
Theorem C6_non_string_result_fails_the_transform :
  forall X options registry code id ast found pre node post st st1 v,
    JS.includes (JS.beforeFirst "?" id) "node_modules" = false ->
    isScriptFile (JS.beforeFirst "?" id) = true ->
    findEcsstaticImports ast = Ok found ->
    statements found <> [] ->
    findCssTaggedTemplateLiterals ast
      (truthyNames [cssImportName found; scssImportName found])
    = (pre ++ node :: post)%list ->
    processSites X options code (JS.beforeFirst "?" id) (scssImportName found) pre
      (initialState code registry)
    = (Ok tt, st) ->
    populateInlinedVars X options (JS.beforeFirst "?" id) node st = (Ok tt, st1) ->
    s_evaluateExpressions (settings options) = true ->
    hasExpressions node = true ->
    evalWithEsbuild X (rawTemplateOf code node) (inlinedVars st1) (generatedClasses st1) = Ok v ->
    isString v = false ->
    transform X options registry code id ast = (Throw (splitTypeError v), cssList st).
Proof.
  intros X options registry code id ast found pre node post st st1 v
    Hmod Hscript Hfound Hst Hsites Hpre Hpop Hev Hex Heval Hv.
  unfold transform. rewrite Hmod, Hscript, Hfound. simpl negb. cbv iota.
  destruct (statements found) as [|sp sps] eqn:Est; [contradiction|].
  rewrite Hsites.
  destruct (pre ++ node :: post)%list as [|x l] eqn:El.
  - destruct pre; discriminate El.
  - rewrite <- El. unfold bind at 1.
    rewrite processSites_app, Hpre. simpl processSites. unfold bind at 1.
    rewrite (processSite_not_string _ _ _ _ _ _ _ _ _ Hpop Hev Hex Heval Hv).
    assert (Hc : cssList st1 = cssList st).
    { unfold populateInlinedVars in Hpop.
      destruct (hasExpressions node && s_resolveImports (settings options)
                && (inlinedVars st =? EmptyString)).
      - destruct (inlineImportsUsingEsbuild X (JS.beforeFirst "?" id)
                    (s_resolvePackages (settings options)));
          inversion Hpop; subst; reflexivity.
      - inversion Hpop; subst; reflexivity. }
    rewrite Hc. reflexivity.
Qed.

Lemma C6_non_string_result_fails_the_transform_witness :
  let st :=
    snd (processSites Sample.node noOptions Sample.moduleCode "/src/app.ts" None
           [Sample.moduleSite] (initialState Sample.moduleCode [])) in
  generatedClasses st = [("module", ":where(.module-colorred)")]
  /\ evalWithEsbuild Sample.node
       (rawTemplateOf Sample.moduleCode Sample.moduleOuterSite) EmptyString
       (generatedClasses st)
     = Ok VUndefined
  /\ isString VUndefined = false
  /\ transform Sample.node noOptions [] Sample.moduleCode "/src/app.ts" Sample.moduleAst
     = (Throw (splitTypeError VUndefined), cssList st).
Proof.
  intros st.
  split; [reflexivity|]. split; [vm_compute; reflexivity|]. split; [reflexivity|].
  apply (C6_non_string_result_fails_the_transform
           Sample.node noOptions [] Sample.moduleCode "/src/app.ts" Sample.moduleAst
           (Build_EcsstaticImports (Some "css") None [(0, 38)])
           [Sample.moduleSite] Sample.moduleOuterSite [] st st VUndefined).
  - reflexivity.
  - reflexivity.
  - reflexivity.
  - discriminate.
  - reflexivity.
  - reflexivity.
  - reflexivity.
  - reflexivity.
  - reflexivity.
  - vm_compute. reflexivity.
  - reflexivity.
Defined.

(** ** The sites the locator finds *)

(** Induction on a tree, with the hypothesis for every child. *)
Lemma Node_nested_ind (P : Node -> Prop) :
  (forall s e name, P (Identifier s e name)) ->
  (forall s e exprs, Forall P exprs -> P (TemplateLiteral s e exprs)) ->
  (forall s e tag qs qe exprs,
      P tag -> Forall P exprs -> P (TaggedTemplateExpression s e tag qs qe exprs)) ->
  (forall s e id init,
      P id -> match init with Some i => P i | None => True end ->
      P (VariableDeclarator s e id init)) ->
  (forall s e computed key value, P key -> P value -> P (Property s e computed key value)) ->
  (forall s e source specifiers, P (ImportDeclaration s e source specifiers)) ->
  (forall s e children, Forall P children -> P (OtherNode s e children)) ->
  forall n, P n.
Proof.
  intros HI HT HG HV HP HD HO.
  fix IH 1. intros n.
  destruct n as [s e name|s e exprs|s e tag qs qe exprs|s e id init
                |s e computed key value|s e source specifiers|s e children].
  - apply HI.
  - apply HT.
    exact ((fix all (l : list Node) : Forall P l :=
              match l with
              | [] => Forall_nil P
              | x :: r => Forall_cons x (IH x) (all r)
              end) exprs).
  - apply HG.
    + apply IH.
    + exact ((fix all (l : list Node) : Forall P l :=
                match l with
                | [] => Forall_nil P
                | x :: r => Forall_cons x (IH x) (all r)
                end) exprs).
  - apply HV.
    + apply IH.
    + destruct init as [i|]; [apply IH|exact I].
  - apply HP; apply IH.
  - apply HD.
  - apply HO.
    exact ((fix all (l : list Node) : Forall P l :=
              match l with
              | [] => Forall_nil P
              | x :: r => Forall_cons x (IH x) (all r)
              end) children).
Qed.

Lemma in_flat_map_walk (P : Node -> Prop) tagNames prev children site :
  Forall P children ->
  In site (flat_map (walk tagNames prev) children) ->
  exists child, P child /\ In site (walk tagNames prev child).
Proof.
  intros Hall Hin. apply in_flat_map in Hin as (child & Hchild & Hsite).
  exists child. split; [|exact Hsite].
  rewrite Forall_forall in Hall. apply Hall. exact Hchild.
Qed.

(** Every site the walk reports is tagged by one of the names given. *)
Lemma walk_tag tagNames node : forall prev site,
  In site (walk tagNames prev node) ->
  exists name,
    identifierName (tt_tag site) = Some name /\ includesName tagNames name = true.
Proof.
  induction node as [s e name|s e exprs IHe|s e tag qs qe exprs IHt IHe|s e id init IHid IHinit
                    |s e computed key value IHk IHv|s e source specifiers|s e children IHc]
    using Node_nested_ind; intros prev site Hin; simpl in Hin.
  - destruct Hin.
  - apply (in_flat_map_walk _ _ _ _ _ IHe) in Hin as (child & Hchild & Hsite).
    exact (Hchild _ _ Hsite).
  - apply in_app_or in Hin as [Hin|Hin]; [exact (IHt _ _ Hin)|].
    apply in_app_or in Hin as [Hin|Hin].
    + apply (in_flat_map_walk _ _ _ _ _ IHe) in Hin as (child & Hchild & Hsite).
      exact (Hchild _ _ Hsite).
    + destruct tag as [ts te name| | | | | | ]; try destruct Hin.
      destruct (includesName tagNames name) eqn:E; [|destruct Hin].
      destruct Hin as [<-|[]]. exists name. split; [reflexivity|exact E].
  - apply in_app_or in Hin as [Hin|Hin]; [exact (IHid _ _ Hin)|].
    destruct init as [i|]; [|destruct Hin]. exact (IHinit _ _ Hin).
  - apply in_app_or in Hin as [Hin|Hin]; [|exact (IHv _ _ Hin)].
    destruct computed; [exact (IHk _ _ Hin)|destruct Hin].
  - destruct Hin.
  - apply (in_flat_map_walk _ _ _ _ _ IHc) in Hin as (child & Hchild & Hsite).
    exact (Hchild _ _ Hsite).
Qed.

Lemma findCssTaggedTemplateLiterals_tag ast tagNames site :
  In site (findCssTaggedTemplateLiterals ast tagNames) ->
  exists name,
    identifierName (tt_tag site) = Some name /\ includesName tagNames name = true.
Proof.
  unfold findCssTaggedTemplateLiterals. intros Hin.
  apply in_flat_map in Hin as (n & _ & Hsite). exact (walk_tag _ _ _ _ Hsite).
Qed.

Lemma includesName_truthy c s name :
  includesName (truthyNames [c; s]) name = true -> c = Some name \/ s = Some name.
Proof.
  unfold includesName, truthyNames. intros H.
  apply existsb_exists in H as (x & Hin & Heq).
  apply String.eqb_eq in Heq. subst x. simpl in Hin.
  apply in_app_or in Hin as [Hin|Hin].
  - left. destruct c as [c|]; [|destruct Hin].
    destruct (c =? EmptyString); [destruct Hin|].
    destruct Hin as [->|[]]. reflexivity.
  - right. rewrite app_nil_r in Hin. destruct s as [s|]; [|destruct Hin].
    destruct (s =? EmptyString); [destruct Hin|].
    destruct Hin as [->|[]]. reflexivity.
Qed.

(** *** The order of the list *)

Lemma NestedFirst_nil tagNames : NestedFirst tagNames [].
Proof. intros pre site post H. destruct pre; discriminate H. Qed.

Lemma NestedFirst_app tagNames l1 l2 :
  NestedFirst tagNames l1 -> NestedFirst tagNames l2 -> NestedFirst tagNames (l1 ++ l2).
Proof.
  intros H1 H2 pre site post Heq.
  apply app_eq_app in Heq as (l & [(Hl1 & Hrest)|(Hpre & Hl2)]).
  - destruct l as [|x l].
    + rewrite app_nil_r in Hl1. subst l1. simpl in Hrest.
      destruct (H2 [] site post (eq_sym Hrest)) as (before & Hb).
      exists (pre ++ before)%list. rewrite <- app_assoc, <- Hb, app_nil_r. reflexivity.
    + inversion Hrest; subst x. apply (H1 pre site l). exact Hl1.
  - destruct (H2 l site post Hl2) as (before & Hb).
    exists (l1 ++ before)%list. rewrite Hpre, Hb, app_assoc. reflexivity.
Qed.

Lemma NestedFirst_flat_map tagNames (f : Node -> list TaggedTemplateWithName) children :
  Forall (fun child => NestedFirst tagNames (f child)) children ->
  NestedFirst tagNames (flat_map f children).
Proof.
  induction 1 as [|child children Hc _ IH]; simpl.
  - apply NestedFirst_nil.
  - apply NestedFirst_app; assumption.
Qed.

(** The walk lists the sites in post-order. *)
Lemma walk_NestedFirst tagNames node : forall prev,
  NestedFirst tagNames (walk tagNames prev node).
Proof.
  induction node as [s e name|s e exprs IHe|s e tag qs qe exprs IHt IHe|s e id init IHid IHinit
                    |s e computed key value IHk IHv|s e source specifiers|s e children IHc]
    using Node_nested_ind; intros prev; simpl.
  - apply NestedFirst_nil.
  - apply NestedFirst_flat_map.
    apply Forall_forall. intros child Hin. rewrite Forall_forall in IHe. apply IHe, Hin.
  - assert (Hin : NestedFirst tagNames
                    (walk tagNames (Some (TaggedTemplateExpression s e tag qs qe exprs)) tag
                       ++ flat_map (walk tagNames (Some (TemplateLiteral qs qe exprs))) exprs)).
    { apply NestedFirst_app; [apply IHt|].
      apply NestedFirst_flat_map.
      apply Forall_forall. intros child Hc. rewrite Forall_forall in IHe. apply IHe, Hc. }
    rewrite app_assoc.
    destruct tag as [ts te name| | | | | | ];
      try (simpl visitTaggedTemplate; rewrite app_nil_r; exact Hin).
    simpl visitTaggedTemplate.
    destruct (includesName tagNames name); [|rewrite app_nil_r; exact Hin].
    intros pre site post Heq.
    apply app_eq_app in Heq as (l & [(Hl1 & Hrest)|(Hpre & Hl2)]).
    + destruct l as [|x l].
      * rewrite app_nil_r in Hl1. simpl in Hrest. inversion Hrest; subst site post.
        exists []. rewrite <- Hl1. reflexivity.
      * inversion Hrest; subst x. apply (Hin pre site l). exact Hl1.
    + destruct l as [|x l]; [|destruct l; discriminate Hl2].
      simpl in Hl2. inversion Hl2; subst site post.
      exists []. rewrite Hpre, app_nil_r. reflexivity.
  - apply NestedFirst_app; [apply IHid|].
    destruct init as [i|]; [apply IHinit|apply NestedFirst_nil].
  - apply NestedFirst_app; [|apply IHv].
    destruct computed; [apply IHk|apply NestedFirst_nil].
  - apply NestedFirst_nil.
  - apply NestedFirst_flat_map.
    apply Forall_forall. intros child Hin. rewrite Forall_forall in IHc. apply IHc, Hin.
Qed.

Lemma findCssTaggedTemplateLiterals_NestedFirst ast tagNames :
  NestedFirst tagNames (findCssTaggedTemplateLiterals ast tagNames).
Proof.
  unfold findCssTaggedTemplateLiterals. apply NestedFirst_flat_map.
  apply Forall_forall. intros child _. apply walk_NestedFirst.
Qed.

(** *** Completeness *)

(** Every tagged template the walk comes to whose tag is one of the
    names is reported. *)
Lemma walk_complete tagNames d node :
  Visited d node ->
  forall prev s e ts te name qs qe exprs,
    d = TaggedTemplateExpression s e (Identifier ts te name) qs qe exprs ->
    includesName tagNames name = true ->
    exists site, In site (walk tagNames prev node) /\ siteOf d site.
Proof.
  induction 1 as [n|s0 e0 exprs0 x d Hx Hv IH|s0 e0 tag qs0 qe0 exprs0 d Hv IH
                 |s0 e0 tag qs0 qe0 exprs0 x d Hx Hv IH|s0 e0 id init d Hv IH
                 |s0 e0 id i d Hv IH|s0 e0 key value d Hv IH
                 |s0 e0 computed key value d Hv IH|s0 e0 children x d Hx Hv IH];
    intros prev s e ts te name qs qe exprs Hd Hname.
  - subst n. simpl. rewrite Hname.
    eexists. split.
    + apply in_or_app. right. left. reflexivity.
    + exists s, e, (Identifier ts te name), qs, qe, exprs. simpl. repeat split.
  - destruct (IH (Some (TemplateLiteral s0 e0 exprs0)) _ _ _ _ _ _ _ _ Hd Hname)
      as (site & Hin & Hsite).
    exists site. split; [|exact Hsite]. simpl. apply in_flat_map. exists x. auto.
  - destruct (IH (Some (TaggedTemplateExpression s0 e0 tag qs0 qe0 exprs0))
                _ _ _ _ _ _ _ _ Hd Hname) as (site & Hin & Hsite).
    exists site. split; [|exact Hsite]. simpl. apply in_or_app. left. exact Hin.
  - destruct (IH (Some (TemplateLiteral qs0 qe0 exprs0)) _ _ _ _ _ _ _ _ Hd Hname)
      as (site & Hin & Hsite).
    exists site. split; [|exact Hsite]. simpl.
    apply in_or_app. right. apply in_or_app. left. apply in_flat_map. exists x. auto.
  - destruct (IH (Some (VariableDeclarator s0 e0 id init)) _ _ _ _ _ _ _ _ Hd Hname)
      as (site & Hin & Hsite).
    exists site. split; [|exact Hsite]. simpl. apply in_or_app. left. exact Hin.
  - destruct (IH (Some (VariableDeclarator s0 e0 id (Some i))) _ _ _ _ _ _ _ _ Hd Hname)
      as (site & Hin & Hsite).
    exists site. split; [|exact Hsite]. simpl. apply in_or_app. right. exact Hin.
  - destruct (IH (Some (Property s0 e0 true key value)) _ _ _ _ _ _ _ _ Hd Hname)
      as (site & Hin & Hsite).
    exists site. split; [|exact Hsite]. simpl. apply in_or_app. left. exact Hin.
  - destruct (IH (Some (Property s0 e0 computed key value)) _ _ _ _ _ _ _ _ Hd Hname)
      as (site & Hin & Hsite).
    exists site. split; [|exact Hsite]. simpl. apply in_or_app. right. exact Hin.
  - destruct (IH (Some (OtherNode s0 e0 children)) _ _ _ _ _ _ _ _ Hd Hname)
      as (site & Hin & Hsite).
    exists site. split; [|exact Hsite]. simpl. apply in_flat_map. exists x. auto.
Qed.

Lemma findCssTaggedTemplateLiterals_complete ast tagNames statement d
    s e ts te name qs qe exprs :
  In statement (body ast) ->
  Visited d statement ->
  d = TaggedTemplateExpression s e (Identifier ts te name) qs qe exprs ->
  includesName tagNames name = true ->
  exists site, In site (findCssTaggedTemplateLiterals ast tagNames) /\ siteOf d site.
Proof.
  intros Hst Hv Hd Hname.
  destruct (walk_complete tagNames d statement Hv None _ _ _ _ _ _ _ _ Hd Hname)
    as (site & Hin & Hsite).
  exists site. split; [|exact Hsite].
  unfold findCssTaggedTemplateLiterals. apply in_flat_map. exists statement. auto.
Qed.

(** The name of a role that the detector keeps is among the tag names. *)
Lemma includesName_of_truthy c s name :
  name <> EmptyString -> c = Some name \/ s = Some name ->
  includesName (truthyNames [c; s]) name = true.
Proof.
  intros Hne Hor. unfold includesName, truthyNames.
  apply existsb_exists. exists name. split; [|apply String.eqb_refl].
  apply String.eqb_neq in Hne. simpl.
  destruct Hor as [-> | ->].
  - rewrite Hne. left. reflexivity.
  - apply in_or_app. right. rewrite Hne. left. reflexivity.
Qed.

(** ** The bindings a site sees *)




(** ** The rewritten text *)

Lemma overwrite_length s e c cs : forall pos,
  List.length (MagicString.overwrite s e c pos cs) = List.length cs.
Proof.
  induction cs as [|x cs IH]; intros pos; simpl; [reflexivity|].
  rewrite IH. reflexivity.
Qed.

Lemma overwrite_nth s e c cs : forall pos p,
  p < List.length cs ->
  nth p (MagicString.overwrite s e c pos cs) EmptyString
  = if (pos + p =? s)%nat then c
    else if (s <? pos + p)%nat && (pos + p <? e)%nat then EmptyString
    else nth p cs EmptyString.
Proof.
  induction cs as [|x cs IH]; intros pos p Hp; simpl in *; [lia|].
  destruct p as [|p].
  - rewrite Nat.add_0_r. reflexivity.
  - rewrite IH by lia. replace (S pos + p) with (pos + S p) by lia. reflexivity.
Qed.

Lemma update_cells start end_ content m m' :
  MagicString.update start end_ content m = Ok m' ->
  MagicString.cells m' = MagicString.overwrite start end_ content 0 (MagicString.cells m)
  /\ MagicString.outro m' = MagicString.outro m
  /\ start < end_.
Proof.
  unfold MagicString.update.
  destruct (String.length (MagicString.original m) <? end_)%nat; [discriminate|].
  destruct (end_ <=? start)%nat eqn:E; [discriminate|].
  destruct (existsb _ _); [discriminate|].
  intros H. inversion H; subst; simpl. apply Nat.leb_gt in E. auto.
Qed.

(** A deletion empties its range and leaves emptied cells empty. *)
Lemma update_deletes start end_ m m' :
  MagicString.update start end_ EmptyString m = Ok m' ->
  Deleted m' start end_
  /\ forall a b, Deleted m a b -> Deleted m' a b.
Proof.
  intros H. apply update_cells in H as (Hcells & _ & Hlt).
  assert (Hcell : forall p,
             nth p (MagicString.cells m') EmptyString = EmptyString
             \/ ~ (start <= p < end_)
                /\ nth p (MagicString.cells m') EmptyString
                   = nth p (MagicString.cells m) EmptyString).
  { intros p. rewrite Hcells.
    destruct (Nat.lt_ge_cases p (List.length (MagicString.cells m))) as [Hp|Hp].
    - rewrite overwrite_nth by exact Hp. simpl.
      destruct (p =? start)%nat eqn:E1; [left; reflexivity|].
      destruct ((start <? p)%nat && (p <? end_)%nat) eqn:E2; [left; reflexivity|].
      right. split; [|reflexivity].
      apply Nat.eqb_neq in E1. apply andb_false_iff in E2.
      destruct E2 as [E2|E2]; [apply Nat.ltb_ge in E2|apply Nat.ltb_ge in E2]; lia.
    - left. apply nth_overflow. rewrite overwrite_length. exact Hp. }
  split.
  - intros p Hp. destruct (Hcell p) as [H|[Hout _]]; [exact H|contradiction].
  - intros a b Hab p Hp. destruct (Hcell p) as [H|[_ H]]; [exact H|].
    rewrite H. apply Hab. exact Hp.
Qed.

(** A replacement leaves the cells outside its range as they are. *)
Lemma update_outside start end_ content m m' p :
  MagicString.update start end_ content m = Ok m' ->
  ~ (start <= p < end_) ->
  nth p (MagicString.cells m') EmptyString = nth p (MagicString.cells m) EmptyString.
Proof.
  intros H Hout. apply update_cells in H as (Hcells & _ & Hlt). rewrite Hcells.
  destruct (Nat.lt_ge_cases p (List.length (MagicString.cells m))) as [Hp|Hp].
  - rewrite overwrite_nth by exact Hp. simpl.
    destruct (p =? start)%nat eqn:E1; [apply Nat.eqb_eq in E1; lia|].
    destruct ((start <? p)%nat && (p <? end_)%nat) eqn:E2; [|reflexivity].
    apply andb_true_iff in E2 as [E2 E3].
    apply Nat.ltb_lt in E2. apply Nat.ltb_lt in E3. lia.
  - rewrite !nth_overflow; [reflexivity|exact Hp|rewrite overwrite_length; exact Hp].
Qed.

Lemma updateMagic_ok start end_ content st st' :
  updateMagic start end_ content st = (Ok tt, st') ->
  MagicString.update start end_ content (magicCode st) = Ok (magicCode st').
Proof.
  unfold updateMagic.
  destruct (MagicString.update start end_ content (magicCode st));
    intros H; inversion H; subst; reflexivity.
Qed.

Lemma removeImports_deletes spans : forall st st',
  removeImports spans st = (Ok tt, st') ->
  (forall a b, Deleted (magicCode st) a b -> Deleted (magicCode st') a b)
  /\ (forall start end_, In (start, end_) spans -> Deleted (magicCode st') start end_)
  /\ (forall p, (forall start end_, In (start, end_) spans -> ~ (start <= p < end_)) ->
        nth p (MagicString.cells (magicCode st')) EmptyString
        = nth p (MagicString.cells (magicCode st)) EmptyString).
Proof.
  induction spans as [|[s e] spans IH]; intros st st' H; simpl in H.
  - inversion H; subst. repeat split; auto. intros start end_ [].
  - unfold bind in H.
    destruct (updateMagic s e EmptyString st) as [[[]|err] st1] eqn:Hu; [|discriminate H].
    apply updateMagic_ok in Hu.
    destruct (update_deletes _ _ _ _ Hu) as (Hdel & Hkeep).
    destruct (IH _ _ H) as (Hkeep' & Hall & Hout).
    repeat split.
    + intros a b Hab. apply Hkeep', Hkeep, Hab.
    + intros start end_ [Heq|Hin].
      * inversion Heq; subst. apply Hkeep', Hdel.
      * apply Hall, Hin.
    + intros p Hp. rewrite Hout by (intros a b Hin; apply Hp; right; exact Hin).
      apply (update_outside _ _ _ _ _ _ Hu). apply Hp. left. reflexivity.
Qed.

(** The turn of a site rewrites the span of the site and nothing else. *)
Lemma processSite_outside X options code id scss node st st' p :
  processSite X options code id scss node st = (Ok tt, st') ->
  ~ (tt_start node <= p < tt_end node) ->
  nth p (MagicString.cells (magicCode st')) EmptyString
  = nth p (MagicString.cells (magicCode st)) EmptyString.
Proof.
  intros Hp Hout. apply processSite_ok_inv in Hp as (r & st1 & Hc & Hr).
  apply compileSite_frame in Hc as (_ & Hm & _). rewrite <- Hm.
  unfold registerSite, bind, modify, ret in Hr.
  destruct (originalNameOf node =? balloon); simpl in Hr;
    apply updateMagic_ok in Hr; simpl in Hr;
    rewrite (update_outside _ _ _ _ _ _ Hr Hout); reflexivity.
Qed.

Lemma processSites_outside X options code id scss sites p : forall st st',
  processSites X options code id scss sites st = (Ok tt, st') ->
  (forall site, In site sites -> ~ (tt_start site <= p < tt_end site)) ->
  nth p (MagicString.cells (magicCode st')) EmptyString
  = nth p (MagicString.cells (magicCode st)) EmptyString.
Proof.
  induction sites as [|n sites IH]; intros st st' Hrun Hout; simpl in Hrun.
  - inversion Hrun; subst. reflexivity.
  - unfold bind in Hrun.
    destruct (processSite X options code id scss n st) as [[[]|e] st1] eqn:Hp;
      [|discriminate Hrun].
    rewrite (IH _ _ Hrun) by (intros site Hin; apply Hout; right; exact Hin).
    apply (processSite_outside _ _ _ _ _ _ _ _ _ Hp). apply Hout. left. reflexivity.
Qed.

(** A statement without [css] or [scss] specifier gives no alias. *)
Lemma aliases_none role specifiers :
  isCssOrScss role = true -> hasCssOrScss specifiers = false ->
  aliases role specifiers = [].
Proof.
  intros Hrole. induction specifiers as [|sp sps IH]; simpl; [reflexivity|].
  intros H. apply orb_false_iff in H as (Hsp & Hsps).
  destruct sp as [imported local|local|local]; simpl; try (apply IH; exact Hsps).
  destruct (String.eqb_spec imported role) as [->|_]; [|apply IH; exact Hsps].
  rewrite Hrole in Hsp. discriminate Hsp.
Qed.

(** A role that has an alias has a statement to delete. *)
Lemma aliases_spans role nodes :
  isCssOrScss role = true ->
  aliases role (ecsstaticSpecifiers nodes) <> [] -> styleImportSpans nodes <> [].
Proof.
  intros Hrole. induction nodes as [|n nodes IH]; simpl; [intros H; contradiction|].
  destruct n as [ | | | | |start end_ source specifiers| ]; try exact IH.
  destruct (source =? "@acab/ecsstatic"); [|exact IH].
  rewrite aliases_app. simpl.
  destruct (hasCssOrScss specifiers) eqn:E; [intros _; discriminate|].
  rewrite (aliases_none _ _ Hrole E). exact IH.
Qed.

Lemma lastAlias_spans role ast name :
  isCssOrScss role = true -> lastAlias role ast = Some name ->
  styleImportSpans (body ast) <> [].
Proof.
  unfold lastAlias. intros Hrole Hlast. apply (aliases_spans role _ Hrole).
  intros Hnil. rewrite Hnil in Hlast. discriminate Hlast.
Qed.

(** C9: the import detector keeps, for each role, the lexically last
    alias.  The locator reports every tagged template of the tree whose
    tag is the last [css] alias or the last [scss] alias, and no other
    template: one tagged by an earlier alias is not a site.  A script file
    that holds a template tagged by a last alias is never handed back
    untouched; and when the transform hands back rewritten code, every
    import statement of the style package that holds a [css] or [scss]
    specifier is emptied, while every character outside these statements
    and outside the located sites (a template tagged by an earlier alias,
    for one) is emitted as it stands. *)
Theorem C9_last_alias_is_matched_and_style_imports_are_deleted :
  forall X options registry code id ast found,
    findEcsstaticImports ast = Ok found ->
    let sites :=
      findCssTaggedTemplateLiterals ast
        (truthyNames [cssImportName found; scssImportName found]) in
    cssImportName found = lastAlias "css" ast
    /\ scssImportName found = lastAlias "scss" ast
    /\ statements found = styleImportSpans (body ast)
    /\ (forall site, In site sites ->
          exists name,
            identifierName (tt_tag site) = Some name
            /\ (lastAlias "css" ast = Some name \/ lastAlias "scss" ast = Some name))
    /\ (forall statement d s e ts te name qs qe exprs,
          In statement (body ast) ->
          Visited d statement ->
          d = TaggedTemplateExpression s e (Identifier ts te name) qs qe exprs ->
          name <> EmptyString ->
          lastAlias "css" ast = Some name \/ lastAlias "scss" ast = Some name ->
          (exists site, In site sites /\ siteOf d site)
          /\ (JS.includes (JS.beforeFirst "?" id) "node_modules" = false ->
              isScriptFile (JS.beforeFirst "?" id) = true ->
              fst (transform X options registry code id ast) <> Ok Untouched))
    /\ (forall out registry',
          transform X options registry code id ast = (Ok (Rewritten out), registry') ->
          exists st,
            (processSites X options code (JS.beforeFirst "?" id) (scssImportName found) sites ;;;
             removeImports (statements found))%loop (initialState code registry)
            = (Ok tt, st)
            /\ out = MagicString.toString (magicCode st)
            /\ (forall start end_,
                  In (start, end_) (styleImportSpans (body ast)) ->
                  Deleted (magicCode st) start end_)
            /\ (forall p,
                  (forall site, In site sites -> ~ (tt_start site <= p < tt_end site)) ->
                  (forall start end_,
                     In (start, end_) (styleImportSpans (body ast)) -> ~ (start <= p < end_)) ->
                  nth p (MagicString.cells (magicCode st)) EmptyString
                  = nth p (MagicString.cellsOf code) EmptyString)).
Proof.
  intros X options registry code id ast found Hfound sites.
  destruct (findEcsstaticImports_ok _ _ Hfound) as (Hc & Hs & Hst).
  split; [exact Hc|]. split; [exact Hs|]. split; [exact Hst|]. split; [|split].
  - intros site Hin.
    apply findCssTaggedTemplateLiterals_tag in Hin as (name & Htag & Hinc).
    exists name. split; [exact Htag|].
    apply includesName_truthy in Hinc. rewrite <- Hc, <- Hs. exact Hinc.
  - intros statement d s e ts te name qs qe exprs Hstatement Hvisited Hd Hname Hlast.
    assert (Hinc : includesName (truthyNames [cssImportName found; scssImportName found]) name
                   = true).
    { apply includesName_of_truthy; [exact Hname|]. rewrite Hc, Hs. exact Hlast. }
    destruct (findCssTaggedTemplateLiterals_complete _ _ _ _ _ _ _ _ _ _ _ _
                Hstatement Hvisited Hd Hinc) as (site & Hin & Hsite).
    split; [exists site; split; assumption|].
    intros Hmod Hscript. unfold transform. rewrite Hmod, Hscript, Hfound. simpl negb. cbv iota.
    assert (Hspans : statements found <> []).
    { rewrite Hst. destruct Hlast as [Hl|Hl];
        [apply (lastAlias_spans "css" _ name)|apply (lastAlias_spans "scss" _ name)];
        auto. }
    destruct (statements found) as [|sp sps]; [contradiction|].
    subst sites.
    destruct (findCssTaggedTemplateLiterals ast
                (truthyNames [cssImportName found; scssImportName found])) as [|x l];
      [destruct Hin|].
    destruct ((processSites X options code (JS.beforeFirst "?" id) (scssImportName found)
                 (x :: l) ;;; removeImports (sp :: sps))%loop (initialState code registry))
      as [[[]|err] st]; simpl; discriminate.
  - intros out registry' Ht. unfold transform in Ht.
    destruct (JS.includes (JS.beforeFirst "?" id) "node_modules"); [discriminate Ht|].
    destruct (negb (isScriptFile (JS.beforeFirst "?" id))); [discriminate Ht|].
    rewrite Hfound in Ht.
    destruct (statements found) as [|sp sps] eqn:Est; [discriminate Ht|].
    fold sites in Ht.
    destruct sites as [|x l] eqn:Esites; [discriminate Ht|].
    destruct ((processSites X options code (JS.beforeFirst "?" id) (scssImportName found)
                 (x :: l) ;;; removeImports (sp :: sps))%loop (initialState code registry))
      as [[[]|e] st] eqn:Hrun; [|discriminate Ht].
    inversion Ht; subst out registry'.
    exists st. split; [reflexivity|]. split; [reflexivity|].
    unfold bind in Hrun.
    destruct (processSites X options code (JS.beforeFirst "?" id) (scssImportName found)
                (x :: l) (initialState code registry)) as [[[]|e] st1] eqn:Hsites;
      [|discriminate Hrun].
    destruct (removeImports_deletes _ _ _ Hrun) as (_ & Hdel & Hout).
    rewrite <- Hst. split.
    + exact Hdel.
    + intros p Hp Hq. rewrite (Hout p Hq).
      apply (processSites_outside _ _ _ _ _ _ _ _ _ Hsites Hp).
Qed.

Lemma C9_last_alias_is_matched_and_style_imports_are_deleted_witness :
  let later := TaggedTemplateExpression 89 103 (Identifier 89 90 "b") 90 103 [] in
  findEcsstaticImports Sample.aliasAst
  = Ok (Build_EcsstaticImports (Some "b") None [(0, 53)])
  /\ lastAlias "css" Sample.aliasAst = Some "b"
  /\ styleImportSpans (body Sample.aliasAst) = [(0, 53)]
  /\ (exists site,
        In site (findCssTaggedTemplateLiterals Sample.aliasAst ["b"]) /\ siteOf later site)
  /\ fst (transform Sample.X noOptions [] Sample.aliasCode "/src/app.ts" Sample.aliasAst)
     <> Ok Untouched
  /\ transform Sample.X noOptions [] Sample.aliasCode "/src/app.ts" Sample.aliasAst
     = (Ok (Rewritten
              (LF ++ "const x = a`color:red `;" ++ LF
                 ++ "const y = " ++ DQUOTE ++ "y-colorblue" ++ DQUOTE ++ ";"
                 ++ "import " ++ DQUOTE ++ "./y-colorblue.acab.css" ++ DQUOTE ++ ";" ++ LF)),
        [("/src/y-colorblue.acab.css", LF ++ ".y-colorblue{color:blue}")]).
Proof.
  intros later.
  assert (Hfound : findEcsstaticImports Sample.aliasAst
                   = Ok (Build_EcsstaticImports (Some "b") None [(0, 53)]))
    by reflexivity.
  split; [exact Hfound|].
  destruct (C9_last_alias_is_matched_and_style_imports_are_deleted
              Sample.X noOptions [] Sample.aliasCode "/src/app.ts" Sample.aliasAst _ Hfound)
    as (Hc & _ & Hst & _ & Hlocated & _).
  split; [symmetry; exact Hc|]. split; [symmetry; exact Hst|].
  destruct (Hlocated
              (OtherNode 79 104
                 [VariableDeclarator 85 103 (Identifier 85 86 "y") (Some later)])
              later 89 103 89 90 "b" 90 103 [])
    as (Hsite & Huntouched).
  - right. right. left. reflexivity.
  - apply (Visited_child _ _ _ (VariableDeclarator 85 103 (Identifier 85 86 "y") (Some later)));
      [left; reflexivity|].
    apply Visited_init. apply Visited_self.
  - reflexivity.
  - discriminate.
  - left. reflexivity.
  - split; [exact Hsite|]. split; [apply Huntouched; reflexivity|].
    vm_compute. reflexivity.
Defined.

(** Two aliases of [css] in one statement: the template tagged by the
    first is emitted as it was written, the one tagged by the second is
    replaced, and the statement that imported both is gone. *)
Example earlier_alias_left_untransformed :
  findCssTaggedTemplateLiterals Sample.aliasAst ["b"]
  = [Build_TaggedTemplateWithName 89 103 (Identifier 89 90 "b") 90 103 [] (Some "y")]
  /\ transform Sample.X noOptions [] Sample.aliasCode "/src/app.ts" Sample.aliasAst
     = (Ok (Rewritten
              (LF ++ "const x = a`color:red `;" ++ LF
                 ++ "const y = " ++ DQUOTE ++ "y-colorblue" ++ DQUOTE ++ ";"
                 ++ "import " ++ DQUOTE ++ "./y-colorblue.acab.css" ++ DQUOTE ++ ";" ++ LF)),
        [("/src/y-colorblue.acab.css", LF ++ ".y-colorblue{color:blue}")]).
Proof. split; vm_compute; reflexivity. Qed.

(** The sheet of a site stays in the registry when a later site of the
    file makes the transform throw. *)
Example registry_keeps_earlier_sheets :
  transform Sample.node noOptions [] Sample.moduleCode "/src/app.ts" Sample.moduleAst
  = (Throw (TypeError "Cannot read properties of undefined (reading 'split')"),
     [("/src/module-colorred.acab.css", LF ++ ".module-colorred{color:red}")]).
Proof. vm_compute. reflexivity. Qed.

(** The composition of the two sites of [composedCode]: the second sees
    the guarded selector of the first. *)
Example composition_uses_guarded_selector :
  snd (transform (Sample.external Sample.evalCompose) noOptions [] Sample.composedCode
         "/src/app.ts" Sample.composedAst)
  = [("/src/box-colorred.acab.css", LF ++ ".box-colorred{color:red}");
     ("/src/outer-whereboxcolorredspancolorblue.acab.css",
      LF ++ ".outer-whereboxcolorredspancolorblue{:where(.box-colorred) span { color: blue; }}")].
Proof. vm_compute. reflexivity. Qed.

(** * The rest of the plugin *)

(** ** Lifecycle hooks and sessions *)

(** [buildStart() { cssList.clear() }] *)
Definition buildStart (registry : JsMap.t) : JsMap.t := JsMap.empty.

(** [buildEnd() { cssList.clear() }] *)
Definition buildEnd (registry : JsMap.t) : JsMap.t := JsMap.empty.

(** A call of the host that can change the registry. *)
Inductive Hook :=
| BuildStart
| BuildEnd
| Transform (code id : string) (parsedAst : Program).

Definition runHook (X : External) (options : Options) (registry : JsMap.t) (h : Hook)
    : JsMap.t :=
  match h with
  | BuildStart => buildStart registry
  | BuildEnd => buildEnd registry
  | Transform code id parsedAst => snd (transform X options registry code id parsedAst)
  end.

(** The registry after a run of hooks on a fresh plugin
    ([const cssList = new Map()]). *)
Definition session (X : External) (options : Options) (hooks : list Hook) : JsMap.t :=
  fold_left (runHook X options) hooks JsMap.empty.

(** The collaborators of [X] with another bundler. *)
Definition withBuild (X : External) (build : string -> list string -> Outcome string)
    : External :=
  {| hash := hash X;
     postcssProcess := postcssProcess X;
     esbuildTransformSync := esbuildTransformSync X;
     nodeEval := nodeEval X;
     esbuildBuild := build;
     pathJoin := pathJoin X;
     pathDirname := pathDirname X |}.

(** The collaborators of [X] with another evaluation chain. *)
Definition withEvaluator (X : External) (transformSync : string -> Outcome string)
    (eval : string -> string -> JsMap.t -> Outcome JsValue) : External :=
  {| hash := hash X;
     postcssProcess := postcssProcess X;
     esbuildTransformSync := transformSync;
     nodeEval := eval;
     esbuildBuild := esbuildBuild X;
     pathJoin := pathJoin X;
     pathDirname := pathDirname X |}.

(** The path under which the sheet of a class is registered for the file
    [id]. *)
Definition sheetPath (X : External) (id className : string) (isScss : bool) : string :=
  normalizePath (pathJoin X (pathDirname X id) (cssFilenameOf className isScss)).

(** The import statement appended for the sheet in [file]. *)
Definition importLine (file : string) : string :=
  "import " ++ DQUOTE ++ "./" ++ file ++ DQUOTE ++ ";" ++ LF.

(** Collaborators that fail, for the examples. *)
Module Failing.

Definition evalThrows (code filename : string) (scope : JsMap.t) : Outcome JsValue :=
  Throw (OtherError "w is not defined").

Definition withPostcssError (X : External) : External :=
  {| hash := hash X;
     postcssProcess := fun _ _ => Throw (OtherError "CssSyntaxError: Unclosed block");
     esbuildTransformSync := esbuildTransformSync X;
     nodeEval := nodeEval X;
     esbuildBuild := esbuildBuild X;
     pathJoin := pathJoin X;
     pathDirname := pathDirname X |}.

Definition buildThrows (fileId : string) (noExternal : list string) : Outcome string :=
  Throw (OtherError "Build failed with 1 error").

End Failing.

(** The text under rewriting is [code], with one cell for each of its
    characters. *)
Definition rewrites (code : string) (m : MagicString.t) : Prop :=
  MagicString.original m = code
  /\ List.length (MagicString.cells m) = String.length code.

(** [d] occurs in the tree [n] ([n] itself included; the template of a
    tagged template counts as a node of its own). *)
Inductive Subnode : Node -> Node -> Prop :=
| Subnode_self n : Subnode n n
| Subnode_template s e exprs x d :
    In x exprs -> Subnode d x -> Subnode d (TemplateLiteral s e exprs)
| Subnode_tag s e tag qs qe exprs d :
    Subnode d tag -> Subnode d (TaggedTemplateExpression s e tag qs qe exprs)
| Subnode_quasi s e tag qs qe exprs d :
    Subnode d (TemplateLiteral qs qe exprs) ->
    Subnode d (TaggedTemplateExpression s e tag qs qe exprs)
| Subnode_id s e id init d :
    Subnode d id -> Subnode d (VariableDeclarator s e id init)
| Subnode_init s e id i d :
    Subnode d i -> Subnode d (VariableDeclarator s e id (Some i))
| Subnode_key s e computed key value d :
    Subnode d key -> Subnode d (Property s e computed key value)
| Subnode_value s e computed key value d :
    Subnode d value -> Subnode d (Property s e computed key value)
| Subnode_child s e children x d :
    In x children -> Subnode d x -> Subnode d (OtherNode s e children).

(** [d] declares [k] with, as its initializer or value, a node that spans
    [start .. end_]: [k = <the node>] or [k: <the node>]. *)
Definition Declares (d : Node) (k : string) (start end_ : nat) : Prop :=
  (exists s e ks ke init,
      d = VariableDeclarator s e (Identifier ks ke k) (Some init)
      /\ nodeStart init = start /\ nodeEnd init = end_)
  \/ (exists s e computed ks ke value,
        d = Property s e computed (Identifier ks ke k) value
        /\ nodeStart value = start /\ nodeEnd value = end_).

(** A specifier that is not a named one. *)
Definition unnamed (sp : Specifier) : bool :=
  match sp with ImportSpecifier _ _ => false | _ => true end.

(** A named specifier of another name than [css] and [scss]. *)
Definition otherName (sp : Specifier) : bool :=
  match sp with ImportSpecifier imported _ => negb (isCssOrScss imported) | _ => false end.

(** In a list of specifiers, a default or namespace specifier stands
    before the first [css] or [scss] one. *)
Definition UnnamedFirst (specifiers : list Specifier) : Prop :=
  exists before sp after,
    specifiers = (before ++ sp :: after)%list
    /\ unnamed sp = true
    /\ Forall (fun s => otherName s = true) before.

(** The node is an import declaration of the style package. *)
Definition importsPackage (n : Node) : bool :=
  match n with
  | ImportDeclaration _ _ source _ => source =? "@acab/ecsstatic"
  | _ => false
  end.

(** ** [resolveId] and [load] *)

(** X1: when [resolveId] answers with an id, the request had an importer
    and ended in [css], and the id is a key of the registry, so [load]
    returns the sheet registered for it: the hook never hands out an id
    that cannot be loaded. *)
Theorem X1_resolveId_answers_only_loadable_ids :
  forall X registry root id importer i,
    resolveId X registry root id importer = Ok (ResolvedId i) ->
    (exists css, JsMap.get i registry = Some css /\ load registry i = Some css)
    /\ JS.endsWith id "css" = true
    /\ (exists importerPath, importer = Some importerPath /\ importerPath <> EmptyString).
Proof.
  intros X registry root id importer i H.
  unfold resolveId in H.
  destruct importer as [imp|]; [|discriminate H].
  destruct (imp =? EmptyString) eqn:Eimp; [discriminate H|].
  destruct (JS.endsWith id "css") eqn:Ecss; [|discriminate H].
  assert (Hload : forall j, JsMap.has j registry = true ->
                    exists css, JsMap.get j registry = Some css /\ load registry j = Some css).
  { intros j Hj. unfold load. rewrite Hj. unfold JsMap.has in Hj.
    destruct (JsMap.get j registry) as [css|]; [|discriminate Hj].
    exists css. auto. }
  assert (Himp : exists importerPath, Some imp = Some importerPath /\ importerPath <> EmptyString).
  { exists imp. split; [reflexivity|]. intros ->. discriminate Eimp. }
  set (id1 := if JS.startsWith id "." then normalizePath (pathJoin X (pathDirname X imp) id)
              else id) in H.
  destruct (JsMap.has id1 registry) eqn:E1.
  - inversion H; subst i. auto.
  - destruct root as [r|]; [|discriminate H].
    match type of H with
    | context [JsMap.has ?j registry] => destruct (JsMap.has j registry) eqn:E2
    end; [|discriminate H].
    inversion H; subst i. auto.
Qed.

Lemma X1_resolveId_answers_only_loadable_ids_witness :
  resolveId Sample.X [("/src/box-colorred.acab.css", ".box-colorred{color:red}")] None
    "./box-colorred.acab.css" (Some "/src/app.ts")
  = Ok (ResolvedId "/src/box-colorred.acab.css")
  /\ exists css,
       JsMap.get "/src/box-colorred.acab.css"
         [("/src/box-colorred.acab.css", ".box-colorred{color:red}")] = Some css
       /\ load [("/src/box-colorred.acab.css", ".box-colorred{color:red}")]
            "/src/box-colorred.acab.css" = Some css.
Proof.
  split; [reflexivity|].
  apply (X1_resolveId_answers_only_loadable_ids Sample.X
           [("/src/box-colorred.acab.css", ".box-colorred{color:red}")] None
           "./box-colorred.acab.css" (Some "/src/app.ts") "/src/box-colorred.acab.css").
  reflexivity.
Defined.

(** X2: [resolveId] throws in one situation only: the configuration has
    not been resolved yet (no [root]) and the request, made with an
    importer, is for a [css] id that is not registered as it stands (made
    absolute when relative).  The error is then the [TypeError] of reading
    [root]; once [configResolved] has run, the hook always answers. *)
Theorem X2_resolveId_throws_only_without_root :
  forall X registry id importer,
    (forall e,
       resolveId X registry None id importer = Throw e <->
       e = TypeError "Cannot read properties of undefined (reading 'root')"
       /\ exists importerPath,
            importer = Some importerPath
            /\ importerPath <> EmptyString
            /\ JS.endsWith id "css" = true
            /\ JsMap.has (if JS.startsWith id "."
                          then normalizePath (pathJoin X (pathDirname X importerPath) id)
                          else id) registry = false)
    /\ (forall root, exists answer, resolveId X registry (Some root) id importer = Ok answer).
Proof.
  intros X registry id importer. split.
  - intros e. unfold resolveId. split.
    + intros H. destruct importer as [imp|]; [|discriminate H].
      destruct (imp =? EmptyString) eqn:Eimp; [discriminate H|].
      destruct (JS.endsWith id "css") eqn:Ecss; [|discriminate H].
      destruct (JsMap.has (if JS.startsWith id "."
                           then normalizePath (pathJoin X (pathDirname X imp) id)
                           else id) registry) eqn:E1; [discriminate H|].
      inversion H. split; [reflexivity|].
      exists imp. repeat split; try assumption. intros ->. discriminate Eimp.
    + intros (-> & imp & -> & Hne & Hcss & Hhas).
      destruct (imp =? EmptyString) eqn:Eimp;
        [apply String.eqb_eq in Eimp; contradiction|].
      rewrite Hcss, Hhas. reflexivity.
  - intros root. unfold resolveId.
    destruct importer as [imp|]; [|eexists; reflexivity].
    destruct (imp =? EmptyString); [eexists; reflexivity|].
    destruct (JS.endsWith id "css"); [|eexists; reflexivity].
    destruct (JsMap.has _ registry); [eexists; reflexivity|].
    destruct (JsMap.has _ registry); eexists; reflexivity.
Qed.

(** ** The registry along a transform and a session *)

Lemma has_set k k' v m :
  JsMap.has k (JsMap.set k' v m) = (k' =? k) || JsMap.has k m.
Proof.
  unfold JsMap.has. destruct (String.eqb_spec k' k) as [->|Hne].
  - rewrite get_set_same. reflexivity.
  - rewrite get_set_other by (intros ->; apply Hne; reflexivity). reflexivity.
Qed.

Lemma normalizeChar_idempotent c :
  JS.lowerChar (if Ascii.eqb (JS.lowerChar (if Ascii.eqb c "092" then "/" else c)) "092"
                then "/" else JS.lowerChar (if Ascii.eqb c "092" then "/" else c))%char
  = JS.lowerChar (if Ascii.eqb c "092" then "/" else c)%char.
Proof.
  destruct c as [[] [] [] [] [] [] [] []]; reflexivity.
Qed.

Lemma normalizePath_idempotent p : normalizePath (normalizePath p) = normalizePath p.
Proof.
  unfold normalizePath. induction p as [|c p IH]; simpl; [reflexivity|].
  rewrite IH. f_equal. apply normalizeChar_idempotent.
Qed.

Lemma sheetPath_normalized X id cls b :
  normalizePath (sheetPath X id cls b) = sheetPath X id cls b.
Proof. unfold sheetPath. apply normalizePath_idempotent. Qed.

(** What one turn does to the registry, however it ends. *)
Lemma processSite_cssList X options code id scss node st o st' :
  processSite X options code id scss node st = (o, st') ->
  cssList st' = cssList st
  \/ exists cls css b, cssList st' = JsMap.set (sheetPath X id cls b) css (cssList st).
Proof.
  unfold processSite, bind.
  destruct (compileSite X options code id scss node st) as [[r|e] st1] eqn:Hc;
    apply compileSite_frame in Hc as (_ & _ & Hl).
  - intros Hr. apply registerSite_effect in Hr as (_ & _ & Hr).
    right. exists (snd r), (fst r), (isScssTag scss node). rewrite Hr, Hl. reflexivity.
  - intros H. inversion H; subst. left. exact Hl.
Qed.

Lemma processSites_cssList X options code id scss sites : forall st o st',
  processSites X options code id scss sites st = (o, st') ->
  (forall k, JsMap.has k (cssList st) = true -> JsMap.has k (cssList st') = true)
  /\ (forall k, JsMap.has k (cssList st') = true ->
        JsMap.has k (cssList st) = true \/ exists cls b, k = sheetPath X id cls b).
Proof.
  induction sites as [|n sites IH]; intros st o st' Hrun; simpl in Hrun.
  - inversion Hrun; subst. auto.
  - unfold bind in Hrun.
    assert (Hstep : forall st1 o1,
               processSite X options code id scss n st = (o1, st1) ->
               (forall k, JsMap.has k (cssList st) = true -> JsMap.has k (cssList st1) = true)
               /\ (forall k, JsMap.has k (cssList st1) = true ->
                     JsMap.has k (cssList st) = true \/ exists cls b, k = sheetPath X id cls b)).
    { intros st1 o1 Hp. apply processSite_cssList in Hp as [->|(cls & css & b & ->)].
      - auto.
      - split; intros k Hk; rewrite has_set in *.
        + rewrite Hk. apply orb_true_r.
        + apply orb_true_iff in Hk as [Hk|Hk]; [|left; exact Hk].
          apply String.eqb_eq in Hk. right. exists cls, b. symmetry. exact Hk. }
    destruct (processSite X options code id scss n st) as [[[]|e] st1] eqn:Hp.
    + destruct (Hstep _ _ eq_refl) as (Hm & Hk). destruct (IH _ _ _ Hrun) as (Hm' & Hk').
      split.
      * intros k H. apply Hm', Hm, H.
      * intros k H. destruct (Hk' k H) as [H1|H1]; [apply Hk; exact H1|right; exact H1].
    + inversion Hrun; subst. exact (Hstep _ _ eq_refl).
Qed.

Lemma updateMagic_cssList start end_ content st o st' :
  updateMagic start end_ content st = (o, st') -> cssList st' = cssList st.
Proof.
  unfold updateMagic.
  destruct (MagicString.update start end_ content (magicCode st));
    intros H; inversion H; subst; reflexivity.
Qed.

Lemma removeImports_cssList spans : forall st o st',
  removeImports spans st = (o, st') -> cssList st' = cssList st.
Proof.
  induction spans as [|[s e] spans IH]; intros st o st' H; simpl in H.
  - inversion H; subst. reflexivity.
  - unfold bind in H.
    destruct (updateMagic s e EmptyString st) as [[[]|err] st1] eqn:Hu;
      apply updateMagic_cssList in Hu.
    + rewrite (IH _ _ _ H). exact Hu.
    + inversion H; subst. exact Hu.
Qed.

(** The registry a transform leaves: the keys it had, and paths of sheets
    of the file. *)
Lemma transform_registry X options registry code id ast :
  (forall k, JsMap.has k registry = true ->
     JsMap.has k (snd (transform X options registry code id ast)) = true)
  /\ (forall k, JsMap.has k (snd (transform X options registry code id ast)) = true ->
        JsMap.has k registry = true
        \/ exists cls b, k = sheetPath X (JS.beforeFirst "?" id) cls b).
Proof.
  unfold transform.
  destruct (JS.includes (JS.beforeFirst "?" id) "node_modules"); [simpl; auto|].
  destruct (negb (isScriptFile (JS.beforeFirst "?" id))); [simpl; auto|].
  destruct (findEcsstaticImports ast) as [found|e]; [|simpl; auto].
  destruct (statements found) as [|sp sps]; [simpl; auto|].
  destruct (findCssTaggedTemplateLiterals ast
              (truthyNames [cssImportName found; scssImportName found])) as [|x l];
    [simpl; auto|].
  unfold bind.
  destruct (processSites X options code (JS.beforeFirst "?" id) (scssImportName found)
              (x :: l) (initialState code registry)) as [[[]|e] st1] eqn:Hsites;
    apply processSites_cssList in Hsites; simpl in Hsites.
  - destruct (removeImports (sp :: sps) st1) as [[[]|e] st2] eqn:Hrem;
      apply removeImports_cssList in Hrem; simpl; rewrite Hrem; exact Hsites.
  - simpl. exact Hsites.
Qed.

(** X3: a transform never takes a sheet out of the registry, whether it
    returns rewritten code, returns nothing or throws: every path
    registered before the call is registered after it. *)
Theorem X3_transform_never_unregisters :
  forall X options registry code id ast k,
    JsMap.has k registry = true ->
    JsMap.has k (snd (transform X options registry code id ast)) = true.
Proof.
  intros X options registry code id ast k Hk.
  apply (proj1 (transform_registry X options registry code id ast)). exact Hk.
Qed.

Lemma X3_transform_never_unregisters_witness :
  JsMap.has "/lib/x-a.acab.css" [("/lib/x-a.acab.css", ".x-a{}")] = true
  /\ fst (transform Sample.node noOptions [("/lib/x-a.acab.css", ".x-a{}")]
            Sample.widthCode "/src/app.ts" Sample.widthAst)
     = Throw (OtherError "w is not defined")
  /\ JsMap.has "/lib/x-a.acab.css"
       (snd (transform Sample.node noOptions [("/lib/x-a.acab.css", ".x-a{}")]
               Sample.widthCode "/src/app.ts" Sample.widthAst)) = true.
Proof.
  split; [reflexivity|]. split; [vm_compute; reflexivity|].
  apply (X3_transform_never_unregisters Sample.node noOptions
           [("/lib/x-a.acab.css", ".x-a{}")] Sample.widthCode "/src/app.ts"
           Sample.widthAst "/lib/x-a.acab.css").
  reflexivity.
Defined.

Lemma session_keys X options hooks : forall registry,
  (forall k, JsMap.has k registry = true -> normalizePath k = k) ->
  forall k, JsMap.has k (fold_left (runHook X options) hooks registry) = true ->
            normalizePath k = k.
Proof.
  induction hooks as [|h hooks IH]; intros registry Hinv k Hk; simpl in Hk.
  - apply Hinv, Hk.
  - apply (IH (runHook X options registry h)); [|exact Hk].
    intros k' Hk'. destruct h as [| |code id ast]; simpl in Hk'; try discriminate Hk'.
    apply (proj2 (transform_registry X options registry code id ast)) in Hk'
      as [Hk'|(cls & b & ->)].
    + apply Hinv, Hk'.
    + apply sheetPath_normalized.
Qed.

(** X4: in a session of the plugin (any run of [buildStart], [buildEnd]
    and [transform] calls on a registry created empty), every registered
    path is in normal form: normalizing it again (slashes, lower case)
    changes nothing.  [resolveId] looks ids up after this normalization,
    so a key in another form could never be found. *)
Theorem X4_registered_paths_are_normalized :
  forall X options hooks k,
    JsMap.has k (session X options hooks) = true ->
    normalizePath k = k.
Proof.
  intros X options hooks k Hk.
  apply (session_keys X options hooks JsMap.empty); [|exact Hk].
  intros k' Hk'. discriminate Hk'.
Qed.

Lemma X4_registered_paths_are_normalized_witness :
  JsMap.has "/src/box-colorred.acab.css"
    (session Sample.X noOptions
       [BuildStart; Transform Sample.basicCode "/SRC/App.ts" Sample.basicAst]) = true
  /\ normalizePath "/src/box-colorred.acab.css" = "/src/box-colorred.acab.css".
Proof.
  split; [reflexivity|].
  apply (X4_registered_paths_are_normalized Sample.X noOptions
           [BuildStart; Transform Sample.basicCode "/SRC/App.ts" Sample.basicAst]).
  reflexivity.
Defined.

(** ** The import injected for a site *)

Lemma toLowerCase_app a b :
  JS.toLowerCase (a ++ b) = JS.toLowerCase a ++ JS.toLowerCase b.
Proof. induction a as [|x a IH]; simpl; [reflexivity|]. rewrite IH. reflexivity. Qed.

Lemma substring_whole s : substring 0 (String.length s) s = s.
Proof. induction s as [|c s IH]; simpl; [reflexivity|]. rewrite IH. reflexivity. Qed.

Lemma substring_after q p :
  substring (String.length q) (String.length p) (q ++ p) = p.
Proof. induction q as [|c q IH]; simpl; [apply substring_whole|exact IH]. Qed.

Lemma endsWith_app q p : JS.endsWith (q ++ p) p = true.
Proof.
  unfold JS.endsWith. rewrite length_append.
  replace (String.length q + String.length p - String.length p) with (String.length q) by lia.
  rewrite substring_after, String.eqb_refl.
  apply andb_true_iff. split; [apply Nat.leb_le; lia|reflexivity].
Qed.

(** The file name of a sheet ends in [css], in both dialects. *)
Lemma cssFilenameOf_css cls b :
  exists stem, cssFilenameOf cls b = stem ++ "css".
Proof.
  unfold cssFilenameOf. rewrite toLowerCase_app.
  destruct b.
  - exists (JS.toLowerCase cls ++ ".acab.s"). rewrite string_app_assoc. reflexivity.
  - exists (JS.toLowerCase cls ++ ".acab."). rewrite string_app_assoc. reflexivity.
Qed.

(** The specifier of the injected import, asked by the file itself, is
    answered with the path of the sheet as soon as that path is
    registered. *)
Lemma resolveId_injected X registry root id cls b :
  id <> EmptyString ->
  pathJoin X (pathDirname X id) ("./" ++ cssFilenameOf cls b)
  = pathJoin X (pathDirname X id) (cssFilenameOf cls b) ->
  JsMap.has (sheetPath X id cls b) registry = true ->
  resolveId X registry root ("./" ++ cssFilenameOf cls b) (Some id)
  = Ok (ResolvedId (sheetPath X id cls b)).
Proof.
  intros Hid Hjoin Hhas. unfold resolveId.
  destruct (id =? EmptyString) eqn:E; [apply String.eqb_eq in E; contradiction|].
  destruct (cssFilenameOf_css cls b) as (stem & Hstem).
  assert (Hcss : JS.endsWith ("./" ++ cssFilenameOf cls b) "css" = true).
  { rewrite Hstem, <- string_app_assoc. apply endsWith_app. }
  rewrite Hcss.
  assert (Hdot : JS.startsWith ("./" ++ cssFilenameOf cls b) "." = true) by reflexivity.
  rewrite Hdot, Hjoin. cbv zeta beta. fold (sheetPath X id cls b).
  rewrite !Hhas. reflexivity.
Qed.

Lemma Occurs_app_l part a b : Occurs part a -> Occurs part (a ++ b).
Proof.
  intros (x & y & ->). exists x, (y ++ b). rewrite !string_app_assoc. reflexivity.
Qed.

Lemma Occurs_app_r part a b : Occurs part b -> Occurs part (a ++ b).
Proof.
  intros (x & y & ->). exists (a ++ x), y. rewrite !string_app_assoc. reflexivity.
Qed.

Lemma updateMagic_outro start end_ content st st' :
  updateMagic start end_ content st = (Ok tt, st') ->
  MagicString.outro (magicCode st') = MagicString.outro (magicCode st).
Proof.
  intros H. apply updateMagic_ok in H. apply update_cells in H as (_ & H & _). exact H.
Qed.

(** A turn that ends well has appended the import of its sheet. *)
Lemma processSite_outro X options code id scss node st st' r st1 :
  compileSite X options code id scss node st = (Ok r, st1) ->
  processSite X options code id scss node st = (Ok tt, st') ->
  MagicString.outro (magicCode st')
  = MagicString.outro (magicCode st)
      ++ importLine (cssFilenameOf (snd r) (isScssTag scss node)).
Proof.
  intros Hc Hp. apply processSite_ok_inv in Hp as (r' & st1' & Hc' & Hr).
  rewrite Hc in Hc'. inversion Hc'; subst r' st1'.
  apply compileSite_frame in Hc as (_ & Hm & _).
  unfold registerSite, bind, modify, ret in Hr.
  destruct (originalNameOf node =? balloon); simpl in Hr;
    apply updateMagic_outro in Hr; simpl in Hr; rewrite Hr, Hm; reflexivity.
Qed.

Lemma processSites_outro X options code id scss sites : forall st st',
  processSites X options code id scss sites st = (Ok tt, st') ->
  exists more,
    MagicString.outro (magicCode st') = MagicString.outro (magicCode st) ++ more.
Proof.
  induction sites as [|n sites IH]; intros st st' Hrun; simpl in Hrun.
  - inversion Hrun; subst. exists EmptyString.
    clear. induction (MagicString.outro (magicCode st')) as [|c s IH]; simpl;
      [reflexivity|]. rewrite <- IH. reflexivity.
  - unfold bind in Hrun.
    destruct (processSite X options code id scss n st) as [[[]|e] st1] eqn:Hp;
      [|discriminate Hrun].
    destruct (processSite_ok_inv _ _ _ _ _ _ _ _ Hp) as (r & st2 & Hc & _).
    destruct (IH _ _ Hrun) as (more & Hmore).
    rewrite (processSite_outro _ _ _ _ _ _ _ _ _ _ Hc Hp) in Hmore.
    eexists. rewrite Hmore, string_app_assoc. reflexivity.
Qed.

Lemma removeImports_outro spans : forall st st',
  removeImports spans st = (Ok tt, st') ->
  MagicString.outro (magicCode st') = MagicString.outro (magicCode st).
Proof.
  induction spans as [|[s e] spans IH]; intros st st' H; simpl in H.
  - inversion H; subst. reflexivity.
  - unfold bind in H.
    destruct (updateMagic s e EmptyString st) as [[[]|err] st1] eqn:Hu; [|discriminate H].
    rewrite (IH _ _ H). apply (updateMagic_outro _ _ _ _ _ Hu).
Qed.

(** What lies behind a transform that hands back rewritten code. *)
Lemma transform_rewritten_inv X options registry code id ast out registry' :
  transform X options registry code id ast = (Ok (Rewritten out), registry') ->
  exists found sts stf,
    findEcsstaticImports ast = Ok found
    /\ processSites X options code (JS.beforeFirst "?" id) (scssImportName found)
         (findCssTaggedTemplateLiterals ast
            (truthyNames [cssImportName found; scssImportName found]))
         (initialState code registry)
       = (Ok tt, sts)
    /\ removeImports (statements found) sts = (Ok tt, stf)
    /\ out = MagicString.toString (magicCode stf)
    /\ registry' = cssList stf.
Proof.
  unfold transform.
  destruct (JS.includes (JS.beforeFirst "?" id) "node_modules"); [discriminate|].
  destruct (negb (isScriptFile (JS.beforeFirst "?" id))); [discriminate|].
  destruct (findEcsstaticImports ast) as [found|e]; [|discriminate].
  destruct (statements found) as [|sp sps] eqn:Est; [discriminate|].
  destruct (findCssTaggedTemplateLiterals ast
              (truthyNames [cssImportName found; scssImportName found])) as [|x l] eqn:El;
    [discriminate|].
  unfold bind.
  destruct (processSites X options code (JS.beforeFirst "?" id) (scssImportName found)
              (x :: l) (initialState code registry)) as [[[]|e] sts] eqn:Hsites;
    [|discriminate].
  destruct (removeImports (sp :: sps) sts) as [[[]|e] stf] eqn:Hrem; [|discriminate].
  intros H. inversion H; subst.
  exists found, sts, stf. rewrite El, Est. repeat split; assumption.
Qed.

(** X5: for every site of a file whose transform hands back rewritten
    code, the code holds the import of the site's sheet; and, provided
    [path.join] drops the leading [./] of that import (as node's does),
    [resolveId] called with the import and the file as importer answers
    with the path of the sheet, and [load] on that path returns a sheet:
    that of the site itself when it is the last site of the file. *)
Theorem X5_injected_import_resolves_and_loads :
  forall X options registry code id ast found pre node post st css cls st1 out registry' root,
    let file := cssFilenameOf cls (isScssTag (scssImportName found) node) in
    let path := sheetPath X (JS.beforeFirst "?" id) cls (isScssTag (scssImportName found) node) in
    Reaches X options registry code id ast found pre node post st ->
    compileSite X options code (JS.beforeFirst "?" id) (scssImportName found) node st
    = (Ok (css, cls), st1) ->
    transform X options registry code id ast = (Ok (Rewritten out), registry') ->
    pathJoin X (pathDirname X (JS.beforeFirst "?" id)) ("./" ++ file)
    = pathJoin X (pathDirname X (JS.beforeFirst "?" id)) file ->
    Occurs (importLine file) out
    /\ resolveId X registry' root ("./" ++ file) (Some (JS.beforeFirst "?" id))
       = Ok (ResolvedId path)
    /\ exists sheet, load registry' path = Some sheet /\ (post = [] -> sheet = css).
Proof.
  intros X options registry code id ast found pre node post st css cls st1 out registry' root
    file path (Hmod & Hscript & Hfound & Hst & Hsites & Hpre) Hc Ht Hjoin.
  apply transform_rewritten_inv in Ht
    as (found' & sts & stf & Hfound' & Hrun & Hrem & Hout & Hreg).
  rewrite Hfound in Hfound'. inversion Hfound'; subst found'. clear Hfound'.
  rewrite Hsites in Hrun.
  apply processSites_app_ok in Hrun as (sa & Hpre' & Hrest).
  rewrite Hpre in Hpre'. inversion Hpre'; subst sa. clear Hpre'.
  change (node :: post) with ([node] ++ post)%list in Hrest.
  apply processSites_app_ok in Hrest as (stn & Hn & Hpost).
  apply processSites_single in Hn.
  assert (Hline := processSite_outro _ _ _ _ _ _ _ _ _ _ Hc Hn). simpl in Hline.
  destruct (processSite_ok_inv _ _ _ _ _ _ _ _ Hn) as (r & st1' & Hc' & Hr).
  rewrite Hc in Hc'. inversion Hc'; subst r st1'. clear Hc'.
  apply registerSite_effect in Hr as (_ & _ & Hl). simpl in Hl.
  fold (sheetPath X (JS.beforeFirst "?" id) cls (isScssTag (scssImportName found) node)) in Hl.
  fold path in Hl.
  assert (Hhasn : JsMap.has path (cssList stn) = true).
  { rewrite Hl, has_set, String.eqb_refl. reflexivity. }
  assert (Hhas : JsMap.has path registry' = true).
  { subst registry'. rewrite (removeImports_cssList _ _ _ _ Hrem).
    apply (proj1 (processSites_cssList _ _ _ _ _ _ _ _ _ Hpost)). exact Hhasn. }
  split; [|split].
  - subst out. unfold MagicString.toString. apply Occurs_app_r.
    rewrite (removeImports_outro _ _ _ Hrem).
    destruct (processSites_outro _ _ _ _ _ _ _ _ Hpost) as (more & ->).
    rewrite Hline. apply Occurs_app_l, Occurs_app_r.
    exists EmptyString, EmptyString. fold file.
    clear. induction (importLine file) as [|c s IH]; simpl; [reflexivity|].
    simpl in IH. rewrite <- IH. reflexivity.
  - apply resolveId_injected; [|exact Hjoin|exact Hhas].
    intros Hid. rewrite Hid in Hscript. discriminate Hscript.
  - unfold load. rewrite Hhas. unfold JsMap.has in Hhas.
    destruct (JsMap.get path registry') as [sheet|] eqn:Hget; [|discriminate Hhas].
    exists sheet. split; [reflexivity|].
    intros ->. simpl in Hpost. inversion Hpost; subst stn.
    subst registry'. rewrite (removeImports_cssList _ _ _ _ Hrem), Hl, get_set_same in Hget.
    inversion Hget. reflexivity.
Qed.

Lemma X5_injected_import_resolves_and_loads_witness :
  Reaches Sample.X noOptions [] Sample.basicCode "/src/app.ts?v=1" Sample.basicAst
    (Build_EcsstaticImports (Some "css") None [(0, 38)]) [] Sample.basicSite []
    (initialState Sample.basicCode [])
  /\ Occurs (importLine "box-colorred.acab.css")
       (LF ++ "const box = " ++ DQUOTE ++ "box-colorred" ++ DQUOTE ++ ";"
          ++ "import " ++ DQUOTE ++ "./box-colorred.acab.css" ++ DQUOTE ++ ";" ++ LF)
  /\ resolveId Sample.X [("/src/box-colorred.acab.css", LF ++ ".box-colorred{color:red}")]
       None "./box-colorred.acab.css" (Some "/src/app.ts")
     = Ok (ResolvedId "/src/box-colorred.acab.css")
  /\ exists sheet,
       load [("/src/box-colorred.acab.css", LF ++ ".box-colorred{color:red}")]
         "/src/box-colorred.acab.css" = Some sheet
       /\ (@nil TaggedTemplateWithName = [] -> sheet = LF ++ ".box-colorred{color:red}").
Proof.
  assert (Hreach : Reaches Sample.X noOptions [] Sample.basicCode "/src/app.ts?v=1"
                     Sample.basicAst (Build_EcsstaticImports (Some "css") None [(0, 38)])
                     [] Sample.basicSite [] (initialState Sample.basicCode [])).
  { unfold Reaches. repeat split; try reflexivity. discriminate. }
  split; [exact Hreach|].
  apply (X5_injected_import_resolves_and_loads Sample.X noOptions [] Sample.basicCode
           "/src/app.ts?v=1" Sample.basicAst _ [] Sample.basicSite [] _
           (LF ++ ".box-colorred{color:red}") "box-colorred"
           (initialState Sample.basicCode []) _ _ None Hreach).
  - reflexivity.
  - reflexivity.
  - reflexivity.
Defined.

(** ** Failures inside the loop *)

(** When the first half of the turn of a site throws, the transform
    throws the same error, with the registry as the earlier sites left
    it. *)
Lemma transform_throws_at_site X options registry code id ast found pre node post st e st1 :
  Reaches X options registry code id ast found pre node post st ->
  compileSite X options code (JS.beforeFirst "?" id) (scssImportName found) node st
  = (Throw e, st1) ->
  transform X options registry code id ast = (Throw e, cssList st).
Proof.
  intros (Hmod & Hscript & Hfound & Hst & Hsites & Hpre) Hc.
  unfold transform. rewrite Hmod, Hscript, Hfound. simpl negb. cbv iota.
  destruct (statements found) as [|sp sps] eqn:Est; [contradiction|].
  rewrite Hsites.
  destruct (pre ++ node :: post)%list as [|x l] eqn:El.
  - destruct pre; discriminate El.
  - rewrite <- El. unfold bind at 1.
    rewrite processSites_app, Hpre. simpl processSites. unfold bind at 1.
    unfold processSite, bind. rewrite Hc.
    apply compileSite_frame in Hc as (_ & _ & ->). reflexivity.
Qed.

(** X6: when the evaluation of a site throws (in esbuild's transform or in
    the evaluator), [processTemplateLiteral] throws the same error again
    and the transform of the file fails with exactly that error: no
    rewritten code is handed back, and the registry is as the earlier
    sites of the file left it. *)
Theorem X6_evaluation_error_aborts_the_transform :
  forall X options registry code id ast found pre node post st st1 e,
    Reaches X options registry code id ast found pre node post st ->
    populateInlinedVars X options (JS.beforeFirst "?" id) node st = (Ok tt, st1) ->
    s_evaluateExpressions (settings options) = true ->
    hasExpressions node = true ->
    evalWithEsbuild X (rawTemplateOf code node) (inlinedVars st1) (generatedClasses st1)
    = Throw e ->
    transform X options registry code id ast = (Throw e, cssList st).
Proof.
  intros X options registry code id ast found pre node post st st1 e
    Hreach Hpop Hev Hex Heval.
  apply (transform_throws_at_site _ _ _ _ _ _ _ _ _ _ _ _ st1 Hreach).
  unfold compileSite, bind. rewrite Hpop.
  unfold templateContentsOf. rewrite Hev, Hex. simpl.
  unfold processTemplateLiteral. rewrite Heval. reflexivity.
Qed.

Lemma X6_evaluation_error_aborts_the_transform_witness :
  evalWithEsbuild (Sample.external Failing.evalThrows)
    (rawTemplateOf Sample.composedCode Sample.outerSite) EmptyString
    [("box", ":where(.box-colorred)")]
  = Throw (OtherError "w is not defined")
  /\ transform (Sample.external Failing.evalThrows) noOptions [] Sample.composedCode
       "/src/app.ts" Sample.composedAst
     = (Throw (OtherError "w is not defined"),
        [("/src/box-colorred.acab.css", LF ++ ".box-colorred{color:red}")]).
Proof.
  split; [reflexivity|].
  apply (X6_evaluation_error_aborts_the_transform
           (Sample.external Failing.evalThrows) noOptions [] Sample.composedCode "/src/app.ts"
           Sample.composedAst (Build_EcsstaticImports (Some "css") None [(0, 38)])
           [Sample.basicSite] Sample.outerSite []
           (snd (processSites (Sample.external Failing.evalThrows) noOptions
                   Sample.composedCode "/src/app.ts" None [Sample.basicSite]
                   (initialState Sample.composedCode [])))
           (snd (processSites (Sample.external Failing.evalThrows) noOptions
                   Sample.composedCode "/src/app.ts" None [Sample.basicSite]
                   (initialState Sample.composedCode [])))).
  - unfold Reaches. repeat split; try (vm_compute; reflexivity). discriminate.
  - vm_compute. reflexivity.
  - reflexivity.
  - reflexivity.
  - vm_compute. reflexivity.
Defined.

(** X7: when postcss rejects the text assembled for a site, the transform
    of the file fails with the error of postcss as it is: no rewritten
    code, and nothing registered for that site or the sites after it. *)
Theorem X7_postcss_error_aborts_the_transform :
  forall X options registry code id ast found pre node post st st1 body e,
    Reaches X options registry code id ast found pre node post st ->
    populateInlinedVars X options (JS.beforeFirst "?" id) node st = (Ok tt, st1) ->
    templateContentsOf X options code node st1 = (Ok (VString body), st1) ->
    postcssProcess X (isScssTag (scssImportName found) node)
      (unprocessedCss X body (originalNameOf node))
    = Throw e ->
    transform X options registry code id ast = (Throw e, cssList st).
Proof.
  intros X options registry code id ast found pre node post st st1 body e
    Hreach Hpop Hbody Hpost.
  apply (transform_throws_at_site _ _ _ _ _ _ _ _ _ _ _ _ st1 Hreach).
  unfold compileSite, bind. rewrite Hpop, Hbody.
  unfold lift, processCss. rewrite Hpost. reflexivity.
Qed.

Lemma X7_postcss_error_aborts_the_transform_witness :
  postcssProcess (Failing.withPostcssError Sample.X) false
    (unprocessedCss (Failing.withPostcssError Sample.X) "color:red" "box")
  = Throw (OtherError "CssSyntaxError: Unclosed block")
  /\ transform (Failing.withPostcssError Sample.X) noOptions
       [("/lib/x-a.acab.css", ".x-a{}")] Sample.basicCode "/src/app.ts" Sample.basicAst
     = (Throw (OtherError "CssSyntaxError: Unclosed block"), [("/lib/x-a.acab.css", ".x-a{}")]).
Proof.
  split; [reflexivity|].
  apply (X7_postcss_error_aborts_the_transform
           (Failing.withPostcssError Sample.X) noOptions [("/lib/x-a.acab.css", ".x-a{}")]
           Sample.basicCode "/src/app.ts" Sample.basicAst
           (Build_EcsstaticImports (Some "css") None [(0, 38)])
           [] Sample.basicSite []
           (initialState Sample.basicCode [("/lib/x-a.acab.css", ".x-a{}")])
           (initialState Sample.basicCode [("/lib/x-a.acab.css", ".x-a{}")])
           "color:red").
  - unfold Reaches. repeat split; try reflexivity. discriminate.
  - reflexivity.
  - reflexivity.
  - reflexivity.
Defined.

(** X8: when the bundling of the file's imports throws at the first site
    with interpolations (import resolution on, nothing inlined yet), the
    transform fails with that error.  The setting of
    [evaluateExpressions] plays no part: with the evaluation switched off
    and [resolveImports] set, the bundle is still built, and its failure
    still aborts the file. *)
Theorem X8_bundling_error_aborts_the_transform :
  forall X options registry code id ast found pre node post st e,
    Reaches X options registry code id ast found pre node post st ->
    hasExpressions node = true ->
    s_resolveImports (settings options) = true ->
    inlinedVars st = EmptyString ->
    esbuildBuild X (JS.beforeFirst "?" id) (s_resolvePackages (settings options)) = Throw e ->
    transform X options registry code id ast = (Throw e, cssList st).
Proof.
  intros X options registry code id ast found pre node post st e Hreach Hex Hri Hin Hb.
  apply (transform_throws_at_site _ _ _ _ _ _ _ _ _ _ _ _ st Hreach).
  unfold compileSite, bind, populateInlinedVars, inlineImportsUsingEsbuild.
  rewrite Hex, Hri, Hin, Hb. reflexivity.
Qed.

Lemma X8_bundling_error_aborts_the_transform_witness :
  s_evaluateExpressions (settings (Build_Options (Some false) (Some true) None)) = false
  /\ transform (withBuild Sample.X Failing.buildThrows)
       (Build_Options (Some false) (Some true) None) [] Sample.widthCode "/src/app.ts"
       Sample.widthAst
     = (Throw (OtherError "Build failed with 1 error"), []).
Proof.
  split; [reflexivity|].
  apply (X8_bundling_error_aborts_the_transform
           (withBuild Sample.X Failing.buildThrows)
           (Build_Options (Some false) (Some true) None) [] Sample.widthCode "/src/app.ts"
           Sample.widthAst (Build_EcsstaticImports (Some "css") None [(0, 38)])
           [] Sample.widthSite [] (initialState Sample.widthCode [])).
  - unfold Reaches. repeat split; try reflexivity. discriminate.
  - reflexivity.
  - reflexivity.
  - reflexivity.
  - reflexivity.
Defined.

(** ** What the loop does not consult *)

Lemma processSite_inlinedVars X options code id scss node st o st' :
  s_resolveImports (settings options) = false \/ inlinedVars st <> EmptyString ->
  processSite X options code id scss node st = (o, st') ->
  inlinedVars st' = inlinedVars st.
Proof.
  intros Hoff. unfold processSite, bind.
  destruct (compileSite X options code id scss node st) as [[r|e] st1] eqn:Hc.
  - intros Hr. apply registerSite_effect in Hr as (_ & -> & _).
    unfold compileSite, bind, populateInlinedVars in Hc.
    assert (Hcond : hasExpressions node && s_resolveImports (settings options)
                    && (inlinedVars st =? EmptyString) = false).
    { destruct Hoff as [->|Hne]; [rewrite andb_false_r; reflexivity|].
      destruct (String.eqb_spec (inlinedVars st) EmptyString); [contradiction|].
      apply andb_false_r. }
    rewrite Hcond in Hc. unfold templateContentsOf, lift in Hc.
    destruct (s_evaluateExpressions (settings options) && hasExpressions node);
      [destruct (processTemplateLiteral _ _ _ _)|]; inversion Hc; reflexivity.
  - intros H. inversion H; subst.
    unfold compileSite, bind, populateInlinedVars in Hc.
    assert (Hcond : hasExpressions node && s_resolveImports (settings options)
                    && (inlinedVars st =? EmptyString) = false).
    { destruct Hoff as [->|Hne]; [rewrite andb_false_r; reflexivity|].
      destruct (String.eqb_spec (inlinedVars st) EmptyString); [contradiction|].
      apply andb_false_r. }
    rewrite Hcond in Hc. unfold templateContentsOf, lift in Hc.
    destruct (s_evaluateExpressions (settings options) && hasExpressions node);
      [destruct (processTemplateLiteral _ _ _ _)|]; inversion Hc; reflexivity.
Qed.

Lemma processSite_withBuild X build options code id scss node st :
  s_resolveImports (settings options) = false \/ inlinedVars st <> EmptyString ->
  processSite (withBuild X build) options code id scss node st
  = processSite X options code id scss node st.
Proof.
  intros Hoff.
  assert (Hcond : hasExpressions node && s_resolveImports (settings options)
                  && (inlinedVars st =? EmptyString) = false).
  { destruct Hoff as [->|Hne]; [rewrite andb_false_r; reflexivity|].
    destruct (String.eqb_spec (inlinedVars st) EmptyString); [contradiction|].
    apply andb_false_r. }
  unfold processSite, compileSite, bind, populateInlinedVars. rewrite Hcond. reflexivity.
Qed.

Lemma processSites_withBuild X build options code id scss sites : forall st,
  s_resolveImports (settings options) = false \/ inlinedVars st <> EmptyString ->
  processSites (withBuild X build) options code id scss sites st
  = processSites X options code id scss sites st.
Proof.
  induction sites as [|n sites IH]; intros st Hoff; simpl; [reflexivity|].
  unfold bind. rewrite (processSite_withBuild _ _ _ _ _ _ _ _ Hoff).
  destruct (processSite X options code id scss n st) as [[[]|e] st1] eqn:Hp; [|reflexivity].
  apply IH. destruct Hoff as [Hoff|Hne]; [left; exact Hoff|].
  right. rewrite (processSite_inlinedVars _ _ _ _ _ _ _ _ _ (or_intror Hne) Hp). exact Hne.
Qed.

(** X9: while the resolution of imports is off (the default, unless
    packages to resolve are named or the option is set), the transform of
    a file does not depend on the bundler at all: with any other bundler
    in its place it gives the same result and the same registry.  No
    import of the file is ever bundled. *)
Theorem X9_bundler_unused_without_import_resolution :
  forall X build options registry code id ast,
    s_resolveImports (settings options) = false ->
    transform (withBuild X build) options registry code id ast
    = transform X options registry code id ast.
Proof.
  intros X build options registry code id ast Hoff. unfold transform.
  destruct (JS.includes (JS.beforeFirst "?" id) "node_modules"); [reflexivity|].
  destruct (negb (isScriptFile (JS.beforeFirst "?" id))); [reflexivity|].
  destruct (findEcsstaticImports ast) as [found|e]; [|reflexivity].
  destruct (statements found) as [|sp sps]; [reflexivity|].
  destruct (findCssTaggedTemplateLiterals ast
              (truthyNames [cssImportName found; scssImportName found])) as [|x l];
    [reflexivity|].
  unfold bind. rewrite (processSites_withBuild _ _ _ _ _ _ _ _ (or_introl Hoff)).
  reflexivity.
Qed.

Lemma X9_bundler_unused_without_import_resolution_witness :
  s_resolveImports (settings noOptions) = false
  /\ transform (withBuild (Sample.external Sample.evalCompose) Failing.buildThrows)
       noOptions [] Sample.composedCode "/src/app.ts" Sample.composedAst
     = transform (Sample.external Sample.evalCompose) noOptions [] Sample.composedCode
         "/src/app.ts" Sample.composedAst.
Proof.
  split; [reflexivity|].
  apply (X9_bundler_unused_without_import_resolution
           (Sample.external Sample.evalCompose) Failing.buildThrows noOptions []
           Sample.composedCode "/src/app.ts" Sample.composedAst).
  reflexivity.
Defined.

(** X10: once the loop holds a non-empty bundle in [inlinedVars], the
    bundle stays for all the sites that follow and the bundler is not
    consulted again: the rest of the loop runs the same with any other
    bundler. *)
Theorem X10_inlined_bundle_is_kept :
  forall X build options code id scss sites st o st',
    inlinedVars st <> EmptyString ->
    processSites X options code id scss sites st = (o, st') ->
    inlinedVars st' = inlinedVars st
    /\ processSites (withBuild X build) options code id scss sites st = (o, st').
Proof.
  intros X build options code id scss sites st o st' Hne Hrun. split.
  - revert st Hne Hrun. induction sites as [|n sites IH]; intros st Hne Hrun; simpl in Hrun.
    + inversion Hrun; subst. reflexivity.
    + unfold bind in Hrun.
      destruct (processSite X options code id scss n st) as [[[]|e] st1] eqn:Hp.
      * assert (H1 := processSite_inlinedVars _ _ _ _ _ _ _ _ _ (or_intror Hne) Hp).
        rewrite <- H1. apply IH; [rewrite H1; exact Hne|exact Hrun].
      * inversion Hrun; subst.
        apply (processSite_inlinedVars _ _ _ _ _ _ _ _ _ (or_intror Hne) Hp).
  - rewrite (processSites_withBuild _ _ _ _ _ _ _ _ (or_intror Hne)). exact Hrun.
Qed.

Lemma X10_inlined_bundle_is_kept_witness :
  let options := Build_Options None (Some true) None in
  let st := setInlinedVars "var w = 5;" (initialState Sample.widthCode []) in
  inlinedVars st <> EmptyString
  /\ inlinedVars
       (snd (processSites Sample.X options Sample.widthCode "/src/app.ts" None
               [Sample.widthSite] st))
     = inlinedVars st.
Proof.
  intros options st.
  assert (Hne : inlinedVars st <> EmptyString) by discriminate.
  split; [exact Hne|].
  apply (X10_inlined_bundle_is_kept Sample.X Failing.buildThrows options Sample.widthCode
           "/src/app.ts" None [Sample.widthSite] st
           (fst (processSites Sample.X options Sample.widthCode "/src/app.ts" None
                   [Sample.widthSite] st))
           _ Hne).
  vm_compute. reflexivity.
Defined.

Lemma processSite_withEvaluator X transformSync eval options code id scss node st :
  s_evaluateExpressions (settings options) = false \/ hasExpressions node = false ->
  processSite (withEvaluator X transformSync eval) options code id scss node st
  = processSite X options code id scss node st.
Proof.
  intros Hoff.
  assert (Hcond : s_evaluateExpressions (settings options) && hasExpressions node = false).
  { destruct Hoff as [->| ->]; [reflexivity|apply andb_false_r]. }
  unfold processSite, compileSite, bind, templateContentsOf. rewrite Hcond. reflexivity.
Qed.

Lemma processSites_withEvaluator X transformSync eval options code id scss sites : forall st,
  s_evaluateExpressions (settings options) = false
  \/ Forall (fun site => hasExpressions site = false) sites ->
  processSites (withEvaluator X transformSync eval) options code id scss sites st
  = processSites X options code id scss sites st.
Proof.
  induction sites as [|n sites IH]; intros st Hoff; simpl; [reflexivity|].
  unfold bind. rewrite processSite_withEvaluator.
  - destruct (processSite X options code id scss n st) as [[[]|e] st1]; [|reflexivity].
    apply IH. destruct Hoff as [Hoff|Hall]; [left; exact Hoff|].
    right. inversion Hall; assumption.
  - destruct Hoff as [Hoff|Hall]; [left; exact Hoff|].
    right. inversion Hall; assumption.
Qed.

(** X11: with [evaluateExpressions] off, or in a file none of whose
    located templates has an interpolation, the transform does not depend
    on esbuild's transform nor on the evaluator: no text of the file is
    ever evaluated, and the result is the same with any other evaluation
    chain in their place.  The located templates are those of the tags
    the import detector has found: a template of another tag may hold
    interpolations. *)
Theorem X11_nothing_evaluated_without_interpolation :
  forall X transformSync eval options registry code id ast,
    s_evaluateExpressions (settings options) = false
    \/ (forall found,
          findEcsstaticImports ast = Ok found ->
          Forall (fun site => hasExpressions site = false)
            (findCssTaggedTemplateLiterals ast
               (truthyNames [cssImportName found; scssImportName found]))) ->
    transform (withEvaluator X transformSync eval) options registry code id ast
    = transform X options registry code id ast.
Proof.
  intros X transformSync eval options registry code id ast Hoff. unfold transform.
  destruct (JS.includes (JS.beforeFirst "?" id) "node_modules"); [reflexivity|].
  destruct (negb (isScriptFile (JS.beforeFirst "?" id))); [reflexivity|].
  destruct (findEcsstaticImports ast) as [found|e] eqn:Efound; [|reflexivity].
  destruct (statements found) as [|sp sps]; [reflexivity|].
  destruct (findCssTaggedTemplateLiterals ast
              (truthyNames [cssImportName found; scssImportName found])) as [|x l] eqn:El;
    [reflexivity|].
  unfold bind. rewrite processSites_withEvaluator; [reflexivity|].
  destruct Hoff as [Hoff|Hall]; [left; exact Hoff|].
  right. rewrite <- El. apply Hall. reflexivity.
Qed.

Lemma X11_nothing_evaluated_without_interpolation_witness :
  findCssTaggedTemplateLiterals Sample.mixedAst ["css"] = [Sample.basicSite]
  /\ findCssTaggedTemplateLiterals Sample.mixedAst ["html"]
     = [Build_TaggedTemplateWithName 81 93 (Identifier 81 85 "html") 85 93
          [Identifier 88 91 "box"] (Some "view")]
  /\ transform (withEvaluator Sample.X (fun _ => Throw (OtherError "unused"))
                  Failing.evalThrows)
       noOptions [] Sample.mixedCode "/src/app.ts" Sample.mixedAst
     = transform Sample.X noOptions [] Sample.mixedCode "/src/app.ts" Sample.mixedAst.
Proof.
  split; [reflexivity|]. split; [reflexivity|].
  apply (X11_nothing_evaluated_without_interpolation Sample.X
           (fun _ => Throw (OtherError "unused")) Failing.evalThrows noOptions []
           Sample.mixedCode "/src/app.ts" Sample.mixedAst).
  right. intros found Hfound. vm_compute in Hfound. inversion Hfound; subst found.
  repeat constructor.
Defined.

(** ** The import detector on other imports *)

Lemma importsLoop_other_packages nodes : forall found,
  Forall (fun n => importsPackage n = false) nodes ->
  importsLoop nodes found = Ok found.
Proof.
  induction nodes as [|n nodes IH]; intros found Hall; simpl; [reflexivity|].
  inversion Hall as [|? ? Hn Hrest]; subst.
  destruct n as [ | | | | |s e source specifiers| ]; try (apply IH; exact Hrest).
  simpl in Hn. rewrite Hn. apply IH. exact Hrest.
Qed.

(** X12: a file that has no import declaration of the style package is
    handed back untouched, with the registry as it was, whatever else it
    imports (default and namespace imports of other packages included)
    and whatever tagged templates it holds. *)
Theorem X12_files_without_the_package_are_untouched :
  forall X options registry code id ast,
    Forall (fun n => importsPackage n = false) (body ast) ->
    transform X options registry code id ast = (Ok Untouched, registry).
Proof.
  intros X options registry code id ast Hall.
  apply (transform_untouched X options registry code id ast
           (Build_EcsstaticImports None None [])).
  - unfold findEcsstaticImports. apply importsLoop_other_packages. exact Hall.
  - left. reflexivity.
Qed.

Lemma X12_files_without_the_package_are_untouched_witness :
  let ast :=
    {| body :=
         [ ImportDeclaration 0 26 "react" [ImportDefaultSpecifier "React"];
           OtherNode 27 50
             [ VariableDeclarator 33 49 (Identifier 33 34 "x")
                 (Some (TaggedTemplateExpression 37 49 (Identifier 37 40 "css") 40 49 [])) ] ] |} in
  Forall (fun n => importsPackage n = false) (body ast)
  /\ transform Sample.X noOptions [] "import React from 'react'; const x = css`a:b`;"
       "/src/app.tsx" ast
     = (Ok Untouched, []).
Proof.
  intros ast.
  assert (Hall : Forall (fun n => importsPackage n = false) (body ast))
    by (repeat constructor).
  split; [exact Hall|].
  apply (X12_files_without_the_package_are_untouched Sample.X noOptions []
           "import React from 'react'; const x = css`a:b`;" "/src/app.tsx" ast Hall).
Defined.

Lemma someCssOrScss_throws specifiers e :
  someCssOrScss specifiers = Throw e <->
  e = TypeError "Cannot read properties of undefined (reading 'name')"
  /\ UnnamedFirst specifiers.
Proof.
  split.
  - induction specifiers as [|sp r IH]; simpl; intros H; [discriminate H|].
    destruct sp as [imported local|local|local].
    + destruct (isCssOrScss imported) eqn:E; [discriminate H|].
      destruct (IH H) as (He & before & u & after & Hr & Hu & Hb).
      split; [exact He|].
      exists (ImportSpecifier imported local :: before), u, after.
      repeat split; [rewrite Hr; reflexivity|exact Hu|].
      constructor; [simpl; rewrite E; reflexivity|exact Hb].
    + inversion H. split; [reflexivity|].
      exists [], (ImportDefaultSpecifier local), r. repeat split. constructor.
    + inversion H. split; [reflexivity|].
      exists [], (ImportNamespaceSpecifier local), r. repeat split. constructor.
  - intros (-> & before & u & after & -> & Hu & Hb).
    induction before as [|sp before IH]; simpl.
    + destruct u; [discriminate Hu|reflexivity|reflexivity].
    + inversion Hb as [|? ? Hsp Hrest]; subst.
      destruct sp as [imported local|local|local]; try discriminate Hsp.
      simpl in Hsp. apply negb_true_iff in Hsp. rewrite Hsp. apply IH. exact Hrest.
Qed.

Lemma importsLoop_throws nodes : forall found e,
  importsLoop nodes found = Throw e <->
  e = TypeError "Cannot read properties of undefined (reading 'name')"
  /\ exists start end_ specifiers,
       In (ImportDeclaration start end_ "@acab/ecsstatic" specifiers) nodes
       /\ UnnamedFirst specifiers.
Proof.
  induction nodes as [|n nodes IH]; intros found e; simpl.
  - split; [discriminate|]. intros (_ & s & e' & sps & [] & _).
  - assert (Hskip : forall f,
               importsPackage n = false ->
               (importsLoop nodes f = Throw e <->
                e = TypeError "Cannot read properties of undefined (reading 'name')"
                /\ exists start end_ specifiers,
                     (n = ImportDeclaration start end_ "@acab/ecsstatic" specifiers
                      \/ In (ImportDeclaration start end_ "@acab/ecsstatic" specifiers) nodes)
                     /\ UnnamedFirst specifiers)).
    { intros f Hn. rewrite IH. split.
      - intros (He & s & e' & sps & Hin & Hu). split; [exact He|].
        exists s, e', sps. auto.
      - intros (He & s & e' & sps & [Heq|Hin] & Hu).
        + subst n. simpl in Hn. discriminate Hn.
        + split; [exact He|]. exists s, e', sps. auto. }
    destruct n as [ | | | | |s0 e0 source specifiers| ]; try (apply Hskip; reflexivity).
    destruct (source =? "@acab/ecsstatic") eqn:Esrc; [|apply Hskip; exact Esrc].
    apply String.eqb_eq in Esrc. subst source.
    destruct (someCssOrScss specifiers) as [b|e1] eqn:Esome.
    + rewrite IH. split.
      * intros (He & s & e' & sps & Hin & Hu). split; [exact He|].
        exists s, e', sps. auto.
      * intros (He & s & e' & sps & [Heq|Hin] & Hu).
        -- inversion Heq; subst s e' sps.
           assert (Hthrow : someCssOrScss specifiers = Throw e)
             by (apply someCssOrScss_throws; auto).
           rewrite Hthrow in Esome. discriminate Esome.
        -- split; [exact He|]. exists s, e', sps. auto.
    + apply someCssOrScss_throws in Esome as (-> & Hu). split.
      * intros H. inversion H. split; [reflexivity|].
        exists s0, e0, specifiers. auto.
      * intros (-> & _). reflexivity.
Qed.

(** X13: the import detector throws exactly when some import statement of
    the style package has a default or namespace specifier standing
    before its first [css] or [scss] specifier (or has none of these
    two); the error is then the [TypeError] of reading [name] of
    [undefined].  In every other case it returns. *)
Theorem X13_import_detector_throws_on_unnamed_specifier :
  forall ast e,
    findEcsstaticImports ast = Throw e <->
    e = TypeError "Cannot read properties of undefined (reading 'name')"
    /\ exists start end_ specifiers,
         In (ImportDeclaration start end_ "@acab/ecsstatic" specifiers) (body ast)
         /\ UnnamedFirst specifiers.
Proof.
  intros ast e. unfold findEcsstaticImports. apply importsLoop_throws.
Qed.

(** A default import beside the [css] specifier comes first in the list
    and makes the detector throw; a named import of another name does
    not. *)
Example default_specifier_throws :
  findEcsstaticImports
    {| body := [ImportDeclaration 0 45 "@acab/ecsstatic"
                  [ImportDefaultSpecifier "ecs"; ImportSpecifier "css" "css"]] |}
  = Throw (TypeError "Cannot read properties of undefined (reading 'name')")
  /\ findEcsstaticImports
       {| body := [ImportDeclaration 0 45 "@acab/ecsstatic"
                     [ImportSpecifier "other" "other"; ImportSpecifier "css" "c"]] |}
     = Ok (Build_EcsstaticImports (Some "c") None [(0, 45)]).
Proof. split; reflexivity. Qed.

(** ** Line breaks and the rule body *)

Lemma splitLines_nonempty s : JS.splitLines s <> [].
Proof.
  destruct s as [|c r]; simpl; [discriminate|].
  destruct (Ascii.eqb c "013").
  - destruct r as [|c' r']; [discriminate|]. destruct (Ascii.eqb c' "010"); discriminate.
  - destruct (Ascii.eqb c "010"); [discriminate|].
    destruct (JS.splitLines r); discriminate.
Qed.

Lemma join_char_first sep c l ls :
  JS.join sep (String c l :: ls) = String c (JS.join sep (l :: ls)).
Proof. destruct ls; reflexivity. Qed.

Lemma includes_CR_cons c r :
  JS.includes (String c r) CR = false ->
  Ascii.eqb c "013" = false /\ JS.includes r CR = false.
Proof.
  intros H.
  change (JS.includes (String c r) CR) with (prefix CR (String c r) || JS.includes r CR) in H.
  apply orb_false_iff in H as (Hp & Hr). split; [|exact Hr].
  unfold CR in Hp. cbn -[ascii_dec] in Hp.
  destruct (ascii_dec "013" c) as [<-|Hne]; [destruct r; discriminate Hp|].
  apply Ascii.eqb_neq. intros ->. apply Hne. reflexivity.
Qed.

(** Splitting a text without carriage return into lines and joining the
    lines with line feeds gives the text back. *)
Lemma join_splitLines s :
  JS.includes s CR = false -> JS.join LF (JS.splitLines s) = s.
Proof.
  induction s as [|c r IH]; intros H; [reflexivity|].
  apply includes_CR_cons in H as (Hc & Hr). specialize (IH Hr).
  simpl. rewrite Hc.
  destruct (JS.splitLines r) as [|l ls] eqn:El; [destruct (splitLines_nonempty r El)|].
  destruct (Ascii.eqb c "010") eqn:Elf.
  - apply Ascii.eqb_eq in Elf. subst c.
    change (JS.join LF (EmptyString :: l :: ls)) with (LF ++ JS.join LF (l :: ls)).
    rewrite IH. reflexivity.
  - rewrite join_char_first, IH. reflexivity.
Qed.

Lemma filter_none_keeps_all {A : Type} (f : A -> bool) (l : list A) :
  filter f l = [] -> filter (fun x => negb (f x)) l = l.
Proof.
  induction l as [|x l IH]; simpl; [reflexivity|].
  destruct (f x); simpl; [discriminate|]. intros H. rewrite IH by exact H. reflexivity.
Qed.

Lemma not_directive line : isImportOrUse line = false -> ~ DirectiveLine line.
Proof.
  intros H Hd. apply isImportOrUse_spec in Hd. rewrite Hd in H. discriminate H.
Qed.

Lemma filter_no_directive lines :
  Forall (fun line => ~ DirectiveLine line) lines -> filter isImportOrUse lines = [].
Proof.
  induction 1 as [|line lines Hline _ IH]; simpl; [reflexivity|].
  destruct (isImportOrUse line) eqn:E; [|exact IH].
  apply isImportOrUse_spec in E. contradiction.
Qed.

(** X14: for a body none of whose lines begins, after white space, with
    [@import] or [@use], and that holds no carriage return, the text
    handed to postcss is a line break and the class rule around the body
    exactly as it is: nothing of the body is lost, reordered or
    reformatted before postcss sees it. *)
Theorem X14_body_without_directives_is_wrapped_verbatim :
  forall X body name,
    JS.includes body CR = false ->
    (forall lines, LinesOf body lines -> Forall (fun line => ~ DirectiveLine line) lines) ->
    unprocessedCss X body name
    = LF ++ "." ++ name ++ "-" ++ hash X body ++ "{" ++ body ++ "}".
Proof.
  intros X body name Hcr Hlines.
  assert (Hnone : filter isImportOrUse (JS.splitLines body) = []).
  { apply filter_no_directive, Hlines, splitLines_LinesOf. }
  unfold unprocessedCss, importsAndUses, codeWithoutImportsAndUses, className.
  rewrite Hnone, (filter_none_keeps_all _ _ Hnone), (join_splitLines _ Hcr).
  simpl. rewrite !string_app_assoc. reflexivity.
Qed.

Lemma X14_body_without_directives_is_wrapped_verbatim_witness :
  let body := "color:red;" ++ LF ++ "  &:hover { color:blue; }" ++ LF in
  JS.includes body CR = false
  /\ JS.splitLines body = ["color:red;"; "  &:hover { color:blue; }"; EmptyString]
  /\ unprocessedCss Sample.X body "box"
     = LF ++ "." ++ "box" ++ "-" ++ hash Sample.X body ++ "{" ++ body ++ "}".
Proof.
  intros body. split; [reflexivity|]. split; [reflexivity|].
  apply (X14_body_without_directives_is_wrapped_verbatim Sample.X body "box").
  - reflexivity.
  - intros lines Hlines. apply LinesOf_splitLines in Hlines. subst lines.
    repeat constructor; apply not_directive; reflexivity.
Defined.

(** A line indented with a no-break space is a directive line as well:
    the code moves it before the rule. *)
Example directive_after_no_break_space :
  unprocessedCss Sample.X ("color:red;" ++ LF ++ utf8 160 ++ "@import 'y';") "a"
  = "@import 'y';" ++ LF ++ ".a-colorredimporty{color:red;}".
Proof. vm_compute. reflexivity. Qed.

(** ** The files the transform looks at *)

Lemma substring_0_0 s : substring 0 0 s = EmptyString.
Proof. destruct s; reflexivity. Qed.

Lemma substring_split s : forall n,
  n <= String.length s ->
  s = substring 0 n s ++ substring n (String.length s - n) s.
Proof.
  induction s as [|c r IH]; intros n Hn; simpl in Hn.
  - assert (n = 0) by lia. subst. reflexivity.
  - destruct n as [|n].
    + rewrite substring_0_0, Nat.sub_0_r. symmetry. apply substring_whole.
    + simpl. f_equal. apply IH. lia.
Qed.

Lemma endsWith_suffix s p : JS.endsWith s p = true -> exists q, s = q ++ p.
Proof.
  unfold JS.endsWith. intros H. apply andb_true_iff in H as (Hle & Heq).
  apply Nat.leb_le in Hle. apply String.eqb_eq in Heq.
  exists (substring 0 (String.length s - String.length p) s).
  assert (H := substring_split s (String.length s - String.length p) ltac:(lia)).
  replace (String.length s - (String.length s - String.length p))
    with (String.length p) in H by lia.
  rewrite Heq in H. exact H.
Qed.

Lemma app_same_length_tail a b : String.length a = String.length b ->
  forall q q', q ++ a = q' ++ b -> a = b.
Proof.
  intros Hlen q. induction q as [|c q IH]; intros q' H.
  - destruct q' as [|c' q']; [exact H|].
    apply (f_equal String.length) in H. simpl in H. rewrite length_append in H. lia.
  - destruct q' as [|c' q'].
    + apply (f_equal String.length) in H. simpl in H. rewrite length_append in H. lia.
    + simpl in H. inversion H. apply (IH q'). assumption.
Qed.

Lemma dropTrailing_keeps x c q :
  Ascii.eqb c x = false ->
  JS.dropTrailing x (q ++ String c EmptyString) = q ++ String c EmptyString.
Proof.
  intros Hc. induction q as [|a q IH]; simpl.
  - rewrite Hc. reflexivity.
  - rewrite IH. destruct (q ++ String c EmptyString) eqn:E; [|reflexivity].
    destruct q; discriminate E.
Qed.

Lemma isScriptFile_css q : isScriptFile (q ++ "css") = false.
Proof.
  unfold isScriptFile.
  change (q ++ "css") with (q ++ "cs" ++ String "s" EmptyString).
  rewrite <- string_app_assoc, dropTrailing_keeps by reflexivity.
  rewrite string_app_assoc.
  change (q ++ "cs" ++ String "s" EmptyString) with (q ++ "c" ++ "ss").
  rewrite <- string_app_assoc.
  apply orb_false_iff. split.
  - destruct (JS.endsWith ((q ++ "c") ++ "ss") "js") eqn:E; [|reflexivity].
    apply endsWith_suffix in E as (q' & E).
    apply app_same_length_tail in E; [discriminate E|reflexivity].
  - destruct (JS.endsWith ((q ++ "c") ++ "ss") "ts") eqn:E; [|reflexivity].
    apply endsWith_suffix in E as (q' & E).
    apply app_same_length_tail in E; [discriminate E|reflexivity].
Qed.

(** X15: a module whose id (before any query) ends in [css] is never
    transformed: the hook answers nothing and leaves the registry alone.
    In particular the virtual sheets the plugin registers (their paths
    end in [.acab.css] or [.acab.scss]) are not fed back into it. *)
Theorem X15_stylesheet_ids_are_not_transformed :
  forall X options registry code id ast,
    JS.endsWith (JS.beforeFirst "?" id) "css" = true ->
    transform X options registry code id ast = (Ok Untouched, registry).
Proof.
  intros X options registry code id ast Hcss. unfold transform.
  apply endsWith_suffix in Hcss as (q & ->).
  rewrite isScriptFile_css. simpl negb.
  destruct (JS.includes (q ++ "css") "node_modules"); reflexivity.
Qed.

Lemma X15_stylesheet_ids_are_not_transformed_witness :
  JS.endsWith (JS.beforeFirst "?" "/src/box-colorred.acab.scss?direct") "css" = true
  /\ transform Sample.X noOptions [] Sample.basicCode "/src/box-colorred.acab.scss?direct"
       Sample.basicAst
     = (Ok Untouched, []).
Proof.
  split; [reflexivity|].
  apply (X15_stylesheet_ids_are_not_transformed Sample.X noOptions [] Sample.basicCode
           "/src/box-colorred.acab.scss?direct" Sample.basicAst).
  reflexivity.
Defined.

(** ** The bindings of the table *)

(** X16: every binding the loop holds after a run is for a declared name
    (never for the placeholder), and its selector is [:where(.] followed
    by that very name, a dash, the hash of some body, and [)]: a name is
    bound to a class generated under that name. *)
Theorem X16_bindings_name_their_own_class :
  forall X options code id scss registry sites st k v,
    processSites X options code id scss sites (initialState code registry) = (Ok tt, st) ->
    JsMap.get k (generatedClasses st) = Some v ->
    k <> balloon
    /\ exists body, v = ":where(." ++ k ++ "-" ++ hash X body ++ ")".
Proof.
  intros X options code id scss registry sites st k v Hrun Hget.
  destruct (table_entry_origin _ _ _ _ _ _ _ _ _ _ Hrun Hget)
    as [[H0 _]|(p1 & node & p2 & sta & r & stb & _ & _ & Hc & [Hk Hkb] & Hv & _)];
    [discriminate H0|].
  split; [exact Hkb|].
  destruct r as [css cls].
  apply compileSite_class_name in Hc as (body & _ & Hcls).
  exists body. subst v cls k. unfold selectorReference, useWhere. simpl.
  rewrite !string_app_assoc. reflexivity.
Qed.

Lemma X16_bindings_name_their_own_class_witness :
  processSites (Sample.external Sample.evalCompose) noOptions Sample.composedCode
    "/src/app.ts" None [Sample.basicSite; Sample.outerSite]
    (initialState Sample.composedCode [])
  = (Ok tt,
     snd (processSites (Sample.external Sample.evalCompose) noOptions Sample.composedCode
            "/src/app.ts" None [Sample.basicSite; Sample.outerSite]
            (initialState Sample.composedCode [])))
  /\ "outer" <> balloon
  /\ exists body,
       ":where(.outer-whereboxcolorredspancolorblue)"
       = ":where(." ++ "outer" ++ "-" ++ hash (Sample.external Sample.evalCompose) body ++ ")".
Proof.
  assert (Hrun : processSites (Sample.external Sample.evalCompose) noOptions
                   Sample.composedCode "/src/app.ts" None
                   [Sample.basicSite; Sample.outerSite] (initialState Sample.composedCode [])
                 = (Ok tt,
                    snd (processSites (Sample.external Sample.evalCompose) noOptions
                           Sample.composedCode "/src/app.ts" None
                           [Sample.basicSite; Sample.outerSite]
                           (initialState Sample.composedCode []))))
    by (vm_compute; reflexivity).
  split; [exact Hrun|].
  apply (X16_bindings_name_their_own_class (Sample.external Sample.evalCompose) noOptions
           Sample.composedCode "/src/app.ts" None [] [Sample.basicSite; Sample.outerSite]
           _ "outer" ":where(.outer-whereboxcolorredspancolorblue)" Hrun).
  vm_compute. reflexivity.
Defined.

(** ** What the answer of a transform tells *)

(** When a transform answers nothing, the registry is exactly as it was
    before the call; and it hands back rewritten code only for a file
    that passed the filter on ids, in which the import detector found a
    statement and the locator a site. *)
Lemma untouched_answer_leaves_registry_alone :
  forall X options registry code id ast registry',
    (transform X options registry code id ast = (Ok Untouched, registry') ->
     registry' = registry)
    /\ (forall out,
          transform X options registry code id ast = (Ok (Rewritten out), registry') ->
          JS.includes (JS.beforeFirst "?" id) "node_modules" = false
          /\ isScriptFile (JS.beforeFirst "?" id) = true
          /\ exists found,
               findEcsstaticImports ast = Ok found
               /\ statements found <> []
               /\ findCssTaggedTemplateLiterals ast
                    (truthyNames [cssImportName found; scssImportName found]) <> []).
Proof.
  intros X options registry code id ast registry'. unfold transform.
  destruct (JS.includes (JS.beforeFirst "?" id) "node_modules");
    [split; [intros H; inversion H; reflexivity|intros out H; discriminate H]|].
  destruct (isScriptFile (JS.beforeFirst "?" id)); simpl negb; cbv iota;
    [|split; [intros H; inversion H; reflexivity|intros out H; discriminate H]].
  destruct (findEcsstaticImports ast) as [found|e];
    [|split; [intros H; discriminate H|intros out H; discriminate H]].
  destruct (statements found) as [|sp sps] eqn:Est;
    [split; [intros H; inversion H; reflexivity|intros out H; discriminate H]|].
  destruct (findCssTaggedTemplateLiterals ast
              (truthyNames [cssImportName found; scssImportName found])) as [|x l] eqn:El;
    [split; [intros H; inversion H; reflexivity|intros out H; discriminate H]|].
  match goal with
  | |- context [match ?run with _ => _ end] => destruct run as [[[]|e] st]
  end.
  - split; [intros H; discriminate H|].
    intros out _. repeat split. exists found. rewrite Est, El.
    repeat split; discriminate.
  - split; [intros H; discriminate H|intros out H; discriminate H].
Qed.

(** ** The replacement of a site *)

Lemma cellsOf_length s : List.length (MagicString.cellsOf s) = String.length s.
Proof. induction s as [|c s IH]; simpl; [reflexivity|]. rewrite IH. reflexivity. Qed.

Lemma update_bounds start end_ content m m' :
  MagicString.update start end_ content m = Ok m' ->
  end_ <= String.length (MagicString.original m)
  /\ MagicString.original m' = MagicString.original m.
Proof.
  unfold MagicString.update.
  destruct (String.length (MagicString.original m) <? end_)%nat eqn:E; [discriminate|].
  destruct (end_ <=? start)%nat; [discriminate|].
  destruct (existsb _ _); [discriminate|].
  intros H. inversion H; subst; simpl. apply Nat.ltb_ge in E. auto.
Qed.

(** A turn that ends well leaves the class name, between quotes, in the
    first cell of the site and empties the others. *)
Lemma processSite_replaces X options code id scss node st st' r st1 :
  rewrites code (magicCode st) ->
  compileSite X options code id scss node st = (Ok r, st1) ->
  processSite X options code id scss node st = (Ok tt, st') ->
  rewrites code (magicCode st')
  /\ tt_start node < tt_end node <= String.length code
  /\ nth (tt_start node) (MagicString.cells (magicCode st')) EmptyString
     = DQUOTE ++ snd r ++ DQUOTE
  /\ forall p, tt_start node < p < tt_end node ->
       nth p (MagicString.cells (magicCode st')) EmptyString = EmptyString.
Proof.
  intros (Horig & Hlen) Hc Hp. apply processSite_ok_inv in Hp as (r' & st1' & Hc' & Hr).
  rewrite Hc in Hc'. inversion Hc'; subst r' st1'.
  apply compileSite_frame in Hc as (_ & Hm & _).
  assert (Hu : exists m0,
             MagicString.cells m0 = MagicString.cells (magicCode st)
             /\ MagicString.original m0 = MagicString.original (magicCode st)
             /\ MagicString.update (tt_start node) (tt_end node)
                  (DQUOTE ++ snd r ++ DQUOTE) m0 = Ok (magicCode st')).
  { unfold registerSite, bind, modify, ret in Hr.
    destruct (originalNameOf node =? balloon); simpl in Hr;
      apply updateMagic_ok in Hr; simpl in Hr; rewrite Hm in Hr;
      eexists; (split; [|split; [|exact Hr]]); reflexivity. }
  destruct Hu as (m0 & Hcells0 & Horig0 & Hu).
  destruct (update_cells _ _ _ _ _ Hu) as (Hcells & _ & Hlt).
  destruct (update_bounds _ _ _ _ _ Hu) as (Hend & Horig').
  rewrite Horig0, Horig in Hend, Horig'.
  assert (Hlen0 : List.length (MagicString.cells m0) = String.length code)
    by (rewrite Hcells0; exact Hlen).
  split; [split; [exact Horig'|rewrite Hcells, overwrite_length; exact Hlen0]|].
  split; [lia|]. rewrite Hcells. split.
  - rewrite overwrite_nth by lia. simpl. rewrite Nat.eqb_refl. reflexivity.
  - intros p Hp. rewrite overwrite_nth by lia. simpl.
    destruct (p =? tt_start node)%nat eqn:E1; [apply Nat.eqb_eq in E1; lia|].
    assert (E2 : (tt_start node <? p)%nat = true) by (apply Nat.ltb_lt; lia).
    assert (E3 : (p <? tt_end node)%nat = true) by (apply Nat.ltb_lt; lia).
    rewrite E2, E3. reflexivity.
Qed.

Lemma processSites_rewrites X options code id scss sites : forall st st',
  rewrites code (magicCode st) ->
  processSites X options code id scss sites st = (Ok tt, st') ->
  rewrites code (magicCode st').
Proof.
  induction sites as [|n sites IH]; intros st st' Hinv Hrun; simpl in Hrun.
  - inversion Hrun; subst. exact Hinv.
  - unfold bind in Hrun.
    destruct (processSite X options code id scss n st) as [[[]|e] st1] eqn:Hp;
      [|discriminate Hrun].
    destruct (processSite_ok_inv _ _ _ _ _ _ _ _ Hp) as (r & st2 & Hc & _).
    apply (IH st1); [|exact Hrun].
    apply (processSite_replaces _ _ _ _ _ _ _ _ _ _ Hinv Hc Hp).
Qed.

Lemma initialState_rewrites code registry :
  rewrites code (magicCode (initialState code registry)).
Proof. split; [reflexivity|apply cellsOf_length]. Qed.

(** X17: in the rewritten code of a file, a site whose span no later
    site and no deleted import statement overlaps is replaced by its
    class name between double quotes, and by nothing else: the first cell
    of its span holds the quoted name and the rest of the span is
    empty. *)
Theorem X17_site_is_replaced_by_its_quoted_class_name :
  forall X options registry code id ast found pre node post st css cls st1 out registry',
    Reaches X options registry code id ast found pre node post st ->
    compileSite X options code (JS.beforeFirst "?" id) (scssImportName found) node st
    = (Ok (css, cls), st1) ->
    transform X options registry code id ast = (Ok (Rewritten out), registry') ->
    (forall later, In later post ->
       tt_end later <= tt_start node \/ tt_end node <= tt_start later) ->
    (forall start end_, In (start, end_) (statements found) ->
       end_ <= tt_start node \/ tt_end node <= start) ->
    exists stf,
      (processSites X options code (JS.beforeFirst "?" id) (scssImportName found)
         (pre ++ node :: post) ;;;
       removeImports (statements found))%loop (initialState code registry)
      = (Ok tt, stf)
      /\ out = MagicString.toString (magicCode stf)
      /\ tt_start node < tt_end node <= String.length code
      /\ nth (tt_start node) (MagicString.cells (magicCode stf)) EmptyString
         = DQUOTE ++ cls ++ DQUOTE
      /\ (forall p, tt_start node < p < tt_end node ->
            nth p (MagicString.cells (magicCode stf)) EmptyString = EmptyString).
Proof.
  intros X options registry code id ast found pre node post st css cls st1 out registry'
    (Hmod & Hscript & Hfound & Hst & Hsites & Hpre) Hc Ht Hlater Hstmts.
  apply transform_rewritten_inv in Ht
    as (found' & sts & stf & Hfound' & Hrun & Hrem & Hout & Hreg).
  rewrite Hfound in Hfound'. inversion Hfound'; subst found'. clear Hfound'.
  rewrite Hsites in Hrun.
  exists stf. split; [unfold bind; rewrite Hrun; rewrite Hrem; reflexivity|].
  split; [exact Hout|].
  apply processSites_app_ok in Hrun as (sa & Hpre' & Hrest).
  rewrite Hpre in Hpre'. inversion Hpre'; subst sa. clear Hpre'.
  change (node :: post) with ([node] ++ post)%list in Hrest.
  apply processSites_app_ok in Hrest as (stn & Hn & Hpost).
  apply processSites_single in Hn.
  assert (Hinv : rewrites code (magicCode st))
    by (apply (processSites_rewrites _ _ _ _ _ _ _ _ (initialState_rewrites code registry) Hpre)).
  destruct (processSite_replaces _ _ _ _ _ _ _ _ _ _ Hinv Hc Hn)
    as (_ & Hspan & Hfirst & Hempty).
  assert (Hkeep : forall p, tt_start node <= p < tt_end node ->
            nth p (MagicString.cells (magicCode stf)) EmptyString
            = nth p (MagicString.cells (magicCode stn)) EmptyString).
  { intros p Hp.
    destruct (removeImports_deletes _ _ _ Hrem) as (_ & _ & Hout').
    rewrite Hout' by (intros s e Hin; destruct (Hstmts s e Hin); lia).
    apply (processSites_outside _ _ _ _ _ _ _ _ _ Hpost).
    intros later Hin. destruct (Hlater later Hin); lia. }
  split; [exact Hspan|].
  split; [rewrite (Hkeep (tt_start node)) by lia; exact Hfirst|].
  intros p Hp. rewrite (Hkeep p) by lia. apply Hempty. exact Hp.
Qed.

Lemma X17_site_is_replaced_by_its_quoted_class_name_witness :
  Reaches (Sample.external Sample.evalCompose) noOptions [] Sample.composedCode
    "/src/app.ts" Sample.composedAst (Build_EcsstaticImports (Some "css") None [(0, 38)])
    [] Sample.basicSite [Sample.outerSite] (initialState Sample.composedCode [])
  /\ exists stf,
       snd (transform (Sample.external Sample.evalCompose) noOptions [] Sample.composedCode
              "/src/app.ts" Sample.composedAst) = cssList stf
       /\ nth 51 (MagicString.cells (magicCode stf)) EmptyString
          = DQUOTE ++ "box-colorred" ++ DQUOTE.
Proof.
  assert (Hreach : Reaches (Sample.external Sample.evalCompose) noOptions []
                     Sample.composedCode "/src/app.ts" Sample.composedAst
                     (Build_EcsstaticImports (Some "css") None [(0, 38)])
                     [] Sample.basicSite [Sample.outerSite]
                     (initialState Sample.composedCode [])).
  { unfold Reaches. repeat split; try reflexivity. discriminate. }
  split; [exact Hreach|].
  destruct (X17_site_is_replaced_by_its_quoted_class_name
              (Sample.external Sample.evalCompose) noOptions [] Sample.composedCode
              "/src/app.ts" Sample.composedAst _ [] Sample.basicSite [Sample.outerSite] _
              (LF ++ ".box-colorred{color:red}") "box-colorred"
              (initialState Sample.composedCode [])
              (MagicString.toString
                 (magicCode
                    (snd ((processSites (Sample.external Sample.evalCompose) noOptions
                             Sample.composedCode "/src/app.ts" None
                             [Sample.basicSite; Sample.outerSite] ;;;
                           removeImports [(0, 38)])%loop
                            (initialState Sample.composedCode [])))))
              (cssList
                 (snd ((processSites (Sample.external Sample.evalCompose) noOptions
                          Sample.composedCode "/src/app.ts" None
                          [Sample.basicSite; Sample.outerSite] ;;;
                        removeImports [(0, 38)])%loop
                         (initialState Sample.composedCode []))))
              Hreach)
    as (stf & Hrun & _ & _ & Hfirst & _).
  - reflexivity.
  - vm_compute. reflexivity.
  - intros later [<-|[]]. right. vm_compute. lia.
  - intros s e [Heq|[]]. inversion Heq; subst. left. vm_compute. lia.
  - exists stf. split; [|exact Hfirst].
    simpl in Hrun. vm_compute in Hrun. inversion Hrun. reflexivity.
Defined.

(** ** The names the locator gives *)

Lemma nameFromParent_Declares prev start end_ k :
  nameFromParent prev start end_ = Some k ->
  exists d, prev = Some d /\ Declares d k start end_.
Proof.
  unfold nameFromParent. intros H.
  destruct prev as [d|]; [|discriminate H]. exists d. split; [reflexivity|].
  destruct d as [ | | |s e id init|s e computed key value| | ]; try discriminate H.
  - destruct init as [init|]; [|discriminate H].
    destruct id as [ks ke name| | | | | | ]; try discriminate H.
    destruct ((nodeStart init =? start)%nat && (nodeEnd init =? end_)%nat) eqn:E;
      [|discriminate H].
    inversion H; subst name. apply andb_true_iff in E as (E1 & E2).
    apply Nat.eqb_eq in E1. apply Nat.eqb_eq in E2.
    left. exists s, e, ks, ke, init. auto.
  - destruct ((nodeStart value =? start)%nat && (nodeEnd value =? end_)%nat) eqn:E;
      [|discriminate H].
    destruct key as [ks ke name| | | | | | ]; try discriminate H.
    inversion H; subst name. apply andb_true_iff in E as (E1 & E2).
    apply Nat.eqb_eq in E1. apply Nat.eqb_eq in E2.
    right. exists s, e, computed, ks, ke, value. auto.
Qed.

(** What is known of a named site found in a child walked under
    [parent], once [parent] is known to lie in [node]. *)
Lemma declared_in_child (d parent child node : Node) :
  Some parent = Some d \/ Subnode d child ->
  Subnode parent node ->
  (forall x, Subnode x child -> Subnode x node) ->
  Subnode d node.
Proof.
  intros [Hp|Hsub] Hparent Hchild.
  - inversion Hp; subst d. exact Hparent.
  - apply Hchild, Hsub.
Qed.

(** A named site found under [node] is declared by the node above [node]
    or by a node of the tree [node]. *)
Lemma walk_named tagNames node : forall prev site k,
  In site (walk tagNames prev node) ->
  _originalName site = Some k ->
  exists d,
    Declares d k (tt_start site) (tt_end site)
    /\ (prev = Some d \/ Subnode d node).
Proof.
  induction node as [s e name|s e exprs IHe|s e tag qs qe exprs IHt IHe|s e id init IHid IHinit
                    |s e computed key value IHk IHv|s e source specifiers|s e children IHc]
    using Node_nested_ind; intros prev site k Hin Hname; simpl in Hin.
  - destruct Hin.
  - apply in_flat_map in Hin as (child & Hchild & Hsite).
    rewrite Forall_forall in IHe.
    destruct (IHe child Hchild _ _ _ Hsite Hname) as (d & Hd & Hwhere).
    exists d. split; [exact Hd|]. right.
    apply (declared_in_child _ _ child _ Hwhere); [constructor|].
    intros x Hx. apply (Subnode_template _ _ _ child); assumption.
  - apply in_app_or in Hin as [Hin|Hin].
    { destruct (IHt _ _ _ Hin Hname) as (d & Hd & Hwhere).
      exists d. split; [exact Hd|]. right.
      apply (declared_in_child _ _ tag _ Hwhere); [constructor|].
      intros x Hx. apply Subnode_tag. exact Hx. }
    apply in_app_or in Hin as [Hin|Hin].
    { apply in_flat_map in Hin as (child & Hchild & Hsite).
      rewrite Forall_forall in IHe.
      destruct (IHe child Hchild _ _ _ Hsite Hname) as (d & Hd & Hwhere).
      exists d. split; [exact Hd|]. right.
      apply (declared_in_child _ _ child _ Hwhere).
      - apply Subnode_quasi. constructor.
      - intros x Hx. apply Subnode_quasi. apply (Subnode_template _ _ _ child); assumption. }
    destruct tag as [ts te name| | | | | | ]; try destruct Hin.
    destruct (includesName tagNames name); [|destruct Hin].
    destruct Hin as [<-|[]]. simpl in Hname. simpl.
    apply nameFromParent_Declares in Hname as (d & Hp & Hd).
    exists d. split; [exact Hd|]. left. exact Hp.
  - apply in_app_or in Hin as [Hin|Hin].
    { destruct (IHid _ _ _ Hin Hname) as (d & Hd & Hwhere).
      exists d. split; [exact Hd|]. right.
      apply (declared_in_child _ _ id _ Hwhere); [constructor|].
      intros x Hx. apply Subnode_id. exact Hx. }
    destruct init as [i|]; [|destruct Hin].
    destruct (IHinit _ _ _ Hin Hname) as (d & Hd & Hwhere).
    exists d. split; [exact Hd|]. right.
    apply (declared_in_child _ _ i _ Hwhere); [constructor|].
    intros x Hx. apply Subnode_init. exact Hx.
  - apply in_app_or in Hin as [Hin|Hin].
    { destruct computed; [|destruct Hin].
      destruct (IHk _ _ _ Hin Hname) as (d & Hd & Hwhere).
      exists d. split; [exact Hd|]. right.
      apply (declared_in_child _ _ key _ Hwhere); [constructor|].
      intros x Hx. apply Subnode_key. exact Hx. }
    destruct (IHv _ _ _ Hin Hname) as (d & Hd & Hwhere).
    exists d. split; [exact Hd|]. right.
    apply (declared_in_child _ _ value _ Hwhere); [constructor|].
    intros x Hx. apply Subnode_value. exact Hx.
  - destruct Hin.
  - apply in_flat_map in Hin as (child & Hchild & Hsite).
    rewrite Forall_forall in IHc.
    destruct (IHc child Hchild _ _ _ Hsite Hname) as (d & Hd & Hwhere).
    exists d. split; [exact Hd|]. right.
    apply (declared_in_child _ _ child _ Hwhere); [constructor|].
    intros x Hx. apply (Subnode_child _ _ _ child); assumption.
Qed.

(** X18: the locator invents no name: a site it reports under the name
    [k] is, in the tree of the file, the whole initializer of a variable
    declarator whose target is the identifier [k], or the whole value of
    a property whose key is the identifier [k] (same start, same end).  A
    template that is only a part of an initializer or of a value, or that
    stands anywhere else, is reported without a name. *)
Theorem X18_declared_name_comes_from_the_enclosing_declaration :
  forall ast tagNames site k,
    In site (findCssTaggedTemplateLiterals ast tagNames) ->
    _originalName site = Some k ->
    exists d statement,
      In statement (body ast)
      /\ Subnode d statement
      /\ Declares d k (tt_start site) (tt_end site).
Proof.
  intros ast tagNames site k Hin Hname. unfold findCssTaggedTemplateLiterals in Hin.
  apply in_flat_map in Hin as (statement & Hstatement & Hsite).
  destruct (walk_named _ _ _ _ _ Hsite Hname) as (d & Hd & [Hp|Hsub]);
    [discriminate Hp|].
  exists d, statement. auto.
Qed.

Lemma X18_declared_name_comes_from_the_enclosing_declaration_witness :
  In Sample.outerSite (findCssTaggedTemplateLiterals Sample.composedAst ["css"])
  /\ exists d statement,
       In statement (body Sample.composedAst)
       /\ Subnode d statement
       /\ Declares d "outer" 82 115.
Proof.
  assert (Hin : In Sample.outerSite
                  (findCssTaggedTemplateLiterals Sample.composedAst ["css"]))
    by (right; left; reflexivity).
  split; [exact Hin|].
  apply (X18_declared_name_comes_from_the_enclosing_declaration Sample.composedAst ["css"]
           Sample.outerSite "outer" Hin).
  reflexivity.
Defined.

(** A template that is an argument of a call in the initializer is found
    without a name; the one that is the initializer gets the name. *)
Example only_the_whole_initializer_is_named :
  map _originalName
    (findCssTaggedTemplateLiterals
       {| body :=
            [ OtherNode 0 30
                [ VariableDeclarator 6 29 (Identifier 6 7 "a")
                    (Some (OtherNode 10 29
                             [ Identifier 10 12 "cx";
                               TaggedTemplateExpression 13 28 (Identifier 13 16 "css")
                                 16 28 [] ])) ];
              OtherNode 31 60
                [ VariableDeclarator 37 59 (Identifier 37 38 "b")
                    (Some (TaggedTemplateExpression 41 59 (Identifier 41 44 "css")
                             44 59 [])) ] ] |}
       ["css"])
  = [None; Some "b"].
Proof. reflexivity. Qed.
